(** * LMArena API Bridge (TampermonkeyScript/LMArenaApiBridge.js)

    A shallow embedding of the userscript that bridges a local API server
    (over a WebSocket) to the LMArena evaluation endpoint, and the
    properties of its stream demultiplexer, request executor and fetch
    interceptor.

    Conventions of the embedding.
    - JavaScript strings are [string]s; the regular expressions of the
      script only inspect ASCII characters.
    - The target position of the demultiplexer is one character, read as
      a literal of the pattern built from it.  That is what it is for the
      participant tags [a] and [b], the values of a request's
      [battle_target]; a character with a meaning of its own in a
      pattern is outside the embedding.
    - The script's mutable state ([socket], [isCaptureModeActive],
      [window.isApiBridgeRequest]) and its effects (socket writes, calls
      of the page's real [fetch]) live in a [World] that is passed along.
    - What the script reads from outside is an input of the model: the
      clock and the random bytes of each call of [generateUUIDv7], and
      the way each call of the page's real [fetch] settles, with the
      values its body stream delivers (a finite list of reads that ends
      in [done] or in a failed read).
    - A handler runs to its end: the points where an [async] function
      is suspended are not modelled, so handlers do not interleave.
    - [console.log] output and the decoration of [document.title] are
      not modelled: nothing in the script reads them back. *)

From Stdlib Require Import Bool Arith Lia List NArith.
From Stdlib Require Import Ascii String.
From Stdlib Require Import DecimalString HexadecimalString.
From Stdlib Require HexadecimalFacts HexadecimalPos HexadecimalN.
Import ListNotations.

Open Scope string_scope.
Open Scope bool_scope.

(** ** Strings *)

Module Str.

Definition newline : ascii := "010"%char.
Definition nl : string := String newline EmptyString.

(** The double-quote character, as a one-character string. *)
Definition dq : string := String (ascii_of_nat 34) EmptyString.

(** [Array.prototype.join] of a list of strings. *)
Fixpoint join (sep : string) (l : list string) : string :=
  match l with
  | [] => EmptyString
  | [x] => x
  | x :: rest => x ++ sep ++ join sep rest
  end.

(** The longest prefix of [s] whose characters satisfy [p], and the rest. *)
Fixpoint span (p : ascii -> bool) (s : string) : string * string :=
  match s with
  | EmptyString => (EmptyString, EmptyString)
  | String c rest =>
      if p c then let (a, b) := span p rest in (String c a, b)
      else (EmptyString, s)
  end.

(** [strip_prefix p s] is the rest of [s] after its prefix [p]. *)
Fixpoint strip_prefix (p s : string) : option string :=
  match p, s with
  | EmptyString, _ => Some s
  | String a p', String b s' =>
      if Ascii.eqb a b then strip_prefix p' s' else None
  | String _ _, EmptyString => None
  end.

(** [String.prototype.split] on the newline character. *)
Fixpoint lines (s : string) : list string :=
  match s with
  | EmptyString => [EmptyString]
  | String c rest =>
      if Ascii.eqb c newline then EmptyString :: lines rest
      else match lines rest with
           | [] => [String c EmptyString]
           | l :: ls => String c l :: ls
           end
  end.

Definition not_newline (c : ascii) : bool := negb (Ascii.eqb c newline).

(** [s.substring(a, b)] for [a <= b]. *)
Definition substring (a b : nat) (s : string) : string :=
  String.substring a (b - a) s.

(** [s.padStart(n, '0')]. *)
Fixpoint zeros (n : nat) : string :=
  match n with
  | O => EmptyString
  | S k => String "0" (zeros k)
  end.

Definition padStart0 (n : nat) (s : string) : string :=
  zeros (n - String.length s) ++ s.

End Str.

(** ** Stream demultiplexer: [filterStreamByTarget] *)

Module Demux.

Import Str.

(** Does the pattern [${t}[0d]:] match at the very start of [s]? *)
Definition record_head (t : ascii) (s : string) : bool :=
  match s with
  | String c (String m (String k _)) =>
      Ascii.eqb c t
      && (Ascii.eqb m "0" || Ascii.eqb m "d")
      && Ascii.eqb k ":"
  | _ => false
  end.

(** The text covered by a match that starts at [s]: the three
    characters of the head, then [[^\n]*], which is greedy and runs up
    to the next newline or the end of the chunk.  The second and third
    characters of a head are never newlines, so the run is taken from
    the second character on. *)
Definition match_text (s : string) : string :=
  match s with
  | EmptyString => EmptyString
  | String c rest => String c (fst (span not_newline rest))
  end.

(** [chunk.match(new RegExp(`${t}[0d]:[^\n]*`, 'g'))]: all matches, left
    to right, without overlap.  After a match the search resumes where
    the match ended, that is at the next newline; [inside] is true
    while the scan is still within the text of the last match.
    The target [t] is one literal character of the pattern. *)
Fixpoint matchAll (t : ascii) (inside : bool) (s : string) : list string :=
  match s with
  | EmptyString => []
  | String c rest =>
      if inside && not_newline c then matchAll t true rest
      else if record_head t s then match_text s :: matchAll t true rest
      else matchAll t false rest
  end.

(** [filterStreamByTarget(chunk, targetPosition)]; [None] is [null]. *)
Definition filterStreamByTarget (chunk : string) (targetPosition : ascii)
  : option string :=
  match matchAll targetPosition false chunk with
  | [] => None
  | matches => Some (join nl matches ++ nl)
  end.

End Demux.

(** The demultiplexer as the specification words it: the chunk is a
    sequence of newline-delimited records; keep the records whose leading
    two characters are the target tag followed by [0] or [d], in order,
    and join them with newlines, adding a trailing newline; nothing when
    no record is kept. *)

Module DemuxSpec.

Import Str.

Definition leading_two (t : ascii) (record : string) : bool :=
  match record with
  | String c (String m _) =>
      Ascii.eqb c t && (Ascii.eqb m "0" || Ascii.eqb m "d")
  | _ => false
  end.

Definition demultiplex (chunk : string) (t : ascii) : option string :=
  match filter (leading_two t) (lines chunk) with
  | [] => None
  | records => Some (join nl records ++ nl)
  end.

(** A record tagged [t]: the tag, a record-type marker ([0] or [d]), a
    colon, then the payload. *)
Definition tagged_record (t : ascii) (record : string) : bool :=
  match record with
  | String c (String m (String k _)) =>
      Ascii.eqb c t
      && (Ascii.eqb m "0" || Ascii.eqb m "d")
      && Ascii.eqb k ":"
  | _ => false
  end.

(** The records of a chunk: its lines, the empty piece after a final
    newline left out. *)
Definition records (chunk : string) : list string :=
  filter (fun l => negb (String.eqb l EmptyString)) (lines chunk).

(** A chunk that contains only [t]-tagged records (and at least one). *)
Definition only_tagged (t : ascii) (chunk : string) : bool :=
  match records chunk with
  | [] => false
  | rs => forallb (tagged_record t) rs
  end.

End DemuxSpec.

(** ** Identifier generator: [generateUUIDv7] *)

Module Uuid.

Import Str.

(** What one call reads from outside: [Date.now()] and the ten bytes
    that [crypto.getRandomValues] writes into the [Uint8Array(10)]. *)
Record Entropy := mkEntropy {
  now : N;
  randomBytes : nat -> Byte.byte
}.

(** [n.toString(16)]. *)
Definition toString16 (n : N) : string :=
  HexadecimalString.NilZero.string_of_uint (N.to_hex_uint n).

(** [b.toString(16).padStart(2, '0')]. *)
Definition hex2 (b : N) : string := padStart0 2 (toString16 b).

Definition byte_at (e : Entropy) (i : nat) : N := Byte.to_N (randomBytes e i).

(** [Array.from(randomBytes.slice(a, b)).map(hex2).join('')]. *)
Definition hex_slice (e : Entropy) (a b : nat) : string :=
  join EmptyString (map (fun i => hex2 (byte_at e i)) (seq a (b - a))).

Definition generateUUIDv7 (e : Entropy) : string :=
  let timestampHex := padStart0 12 (toString16 (now e)) in
  let part1 := substring 0 8 timestampHex in
  let part2 := substring 8 12 timestampHex in
  let part3 := "7" ++ substring 1 4 (hex_slice e 0 2) in
  let variant := N.lor (N.land (byte_at e 2) 63) 128 in
  let part4 := hex2 variant ++ hex2 (byte_at e 3) in
  let part5 := hex_slice e 4 10 in
  part1 ++ "-" ++ part2 ++ "-" ++ part3 ++ "-" ++ part4 ++ "-" ++ part5.

End Uuid.

(** ** Data of the bridge *)

Module Data.

(** The [data] of an outbound frame: a string (a filtered chunk, or
    the sentinel) or the object [{ error: message }]. *)
Inductive Data :=
| DText (s : string)
| DError (message : string).

Definition DONE : Data := DText "[DONE]".

(** [{ request_id, data }], the message [sendToServer] builds. *)
Record OutboundFrame := mkFrame {
  request_id : string;
  data : Data
}.

(** An entry of [payload.message_templates]. *)
Record MessageTemplate := mkTemplate {
  t_role : string;
  t_content : string;
  t_attachments : option (list string);   (* [None]: not an array *)
  t_participantPosition : option string   (* [None]: absent *)
}.

(** The [payload] of a chat request.  [None] is an absent (undefined
    or null) field.  [battle_target] is the participant tag, ['a'] or
    ['b']: one character, literal in a regular expression. *)
Record Payload := mkPayload {
  is_image_request : bool;
  message_templates : option (list MessageTemplate);
  target_model_id : option string;
  session_id : option string;
  battle_target : option ascii
}.

(** An element of [newMessages]. *)
Record Message := mkMessage {
  m_id : string;
  m_evaluationSessionId : string;
  m_role : string;
  m_parentMessageIds : list string;
  m_content : string;
  m_experimental_attachments : list string;
  m_participantPosition : string
}.

(** The [body] object posted to the evaluation endpoint. *)
Record EvaluationBody := mkBody {
  b_id : string;
  b_mode : string;
  b_userMessageId : string;
  b_modelAMessageId : string;
  b_modelBMessageId : string;
  b_messages : list Message;
  b_modality : string
}.

(** The request body of a [fetch]: [JSON.stringify] of one of the
    script's objects, kept structured, or any other text. *)
Inductive FetchBody :=
| BodyEvaluation (b : EvaluationBody)
| BodySessionId (sessionId : string)
| BodyText (s : string).

Record FetchInit := mkInit {
  i_method : string;
  i_headers : list (string * string);
  i_body : FetchBody;
  i_credentials : option string
}.

(** One argument of a call of [fetch]. *)
Inductive Arg :=
| ARequest (url : string)    (* a [Request] object and its [url] *)
| AURL (href : string)       (* a [URL] object and its [href] *)
| AString (s : string)
| AInit (i : FetchInit)
| AOther.

(** How the body stream of a response ends. *)
Inductive StreamEnd :=
| EndOfStream                  (* [reader.read()] yields [done] *)
| ReadFails (message : string) (* [reader.read()] rejects *).

(** What the script looks at in a [Response]. *)
Record Response := mkResponse {
  r_ok : bool;
  r_has_body : bool;                (* [response.body] is not null *)
  r_status : nat;
  r_text : string + string;         (* [response.text()]: text, or rejects *)
  r_chunks : list string;           (* the decoded values read, in order *)
  r_end : StreamEnd
}.

(** The promise a call of the real [fetch] returns, settled. *)
Inductive FetchOutcome :=
| Rejected (message : string)
| Resolved (r : Response).

(** What the script does to the outside, in order. *)
Inductive Event :=
| SocketSend (f : OutboundFrame)  (* [socket.send(JSON.stringify(message))] *)
| SendRefused (f : OutboundFrame) (* socket not open: logged, frame dropped *)
| RealFetch (args : list Arg)     (* [originalFetch.apply(this, args)] *)
| PageReload                      (* [location.reload()] *)
| DeliveryLogged (ok : bool)      (* the [then]/[catch] of the id delivery *).

(** The script's variables, the counters of the outside sources it
    reads, and the trace of its effects (oldest first). *)
Record World := mkWorld {
  socketOpen : bool;   (* [socket && socket.readyState === WebSocket.OPEN] *)
  isCaptureModeActive : bool;
  isApiBridgeRequest : bool;       (* [window.isApiBridgeRequest] *)
  uuidCalls : nat;                 (* calls of [generateUUIDv7] so far *)
  trace : list Event
}.

Definition set_isCaptureModeActive (b : bool) (w : World) : World :=
  mkWorld (socketOpen w) b (isApiBridgeRequest w) (uuidCalls w) (trace w).

Definition set_isApiBridgeRequest (b : bool) (w : World) : World :=
  mkWorld (socketOpen w) (isCaptureModeActive w) b (uuidCalls w) (trace w).

Definition set_socketOpen (b : bool) (w : World) : World :=
  mkWorld b (isCaptureModeActive w) (isApiBridgeRequest w) (uuidCalls w)
    (trace w).

Definition tick_uuid (w : World) : World :=
  mkWorld (socketOpen w) (isCaptureModeActive w) (isApiBridgeRequest w)
    (S (uuidCalls w)) (trace w).

Definition emit (e : Event) (w : World) : World :=
  mkWorld (socketOpen w) (isCaptureModeActive w) (isApiBridgeRequest w)
    (uuidCalls w) (trace w ++ [e]).

(** The script as it starts: [isCaptureModeActive = false], no flag on
    [window], no socket yet. *)
Definition initial : World := mkWorld false false false 0 [].

End Data.

(** ** A monad for the script's statements: state and exceptions *)

Module Js.

Import Data.

Inductive Completion (A : Type) :=
| Normal (a : A)
| Throws (message : string).
Arguments Normal {A} a.
Arguments Throws {A} message.

Definition M (A : Type) : Type := World -> World * Completion A.

Definition ret {A} (a : A) : M A := fun w => (w, Normal a).

Definition throw {A} (message : string) : M A := fun w => (w, Throws message).

Definition bind {A B} (m : M A) (k : A -> M B) : M B :=
  fun w =>
    match m w with
    | (w', Normal a) => k a w'
    | (w', Throws e) => (w', Throws e)
    end.

(** A statement that only changes the state. *)
Definition modify (f : World -> World) : M unit := fun w => (f w, Normal tt).

(** [try { body } catch (error) { handler(error.message) } finally
    { final }]: [final] runs on every way out. *)
Definition try_catch_finally {A} (body : M A) (handler : string -> M A)
    (final : World -> World) : M A :=
  fun w =>
    match body w with
    | (w1, Normal a) => (final w1, Normal a)
    | (w1, Throws e) =>
        match handler e w1 with
        | (w2, c) => (final w2, c)
        end
    end.

(** [try { body } catch (error) { console.error(...) }]. *)
Definition try_catch_log (body : M unit) : M unit :=
  fun w =>
    match body w with
    | (w1, _) => (w1, Normal tt)
    end.

Definition exec {A} (m : M A) (w : World) : World := fst (m w).

End Js.

Declare Scope js_scope.
Delimit Scope js_scope with js.
Notation "x <- m ;; k" := (Js.bind m (fun x => k))
  (at level 61, m at next level, right associativity) : js_scope.
Notation "m ;; k" := (Js.bind m (fun _ => k))
  (at level 61, right associativity) : js_scope.

(** ** The URL pattern of the interceptor *)

Module RetryUrl.

Import Str.

(** The character class [[a-f0-9-]]. *)
Definition is_id_char (c : ascii) : bool :=
  let n := nat_of_ascii c in
  (((97 <=? n) && (n <=? 102)) || ((48 <=? n) && (n <=? 57)) || (n =? 45))%nat.

Definition path_prefix : string :=
  "/nextjs-api/stream/retry-evaluation-session-message/".

(** The pattern matched at the very start of [s]; the two groups.
    [[a-f0-9-]+] is greedy and [/] is not in the class, so the first
    group is the whole run of class characters: giving some back can
    never let [\/messages\/] match. *)
Definition match_here (s : string) : option (string * string) :=
  match strip_prefix path_prefix s with
  | None => None
  | Some rest1 =>
      let (g1, rest2) := span is_id_char rest1 in
      match g1 with
      | EmptyString => None
      | _ =>
          match strip_prefix "/messages/" rest2 with
          | None => None
          | Some rest3 =>
              match fst (span is_id_char rest3) with
              | EmptyString => None
              | g2 => Some (g1, g2)
              end
          end
      end
  end.

(** [urlString.match(/\/nextjs-api\/stream\/retry-evaluation-session-message\/([a-f0-9-]+)\/messages\/([a-f0-9-]+)/)]:
    the leftmost position at which the pattern matches. *)
Fixpoint url_match (s : string) : option (string * string) :=
  match match_here s with
  | Some groups => Some groups
  | None =>
      match s with
      | EmptyString => None
      | String _ rest => url_match rest
      end
  end.

End RetryUrl.

(** ** The script *)

Module Bridge.

Import Str Demux Data Js Uuid.
Local Open Scope js_scope.

Section Script.

(** The outside: what the clock and the random source give to the
    [k]-th call of [generateUUIDv7], and how the [k]-th call of the
    page's real [fetch] settles. *)
Variable entropy : nat -> Entropy.
Variable network : nat -> list Arg -> FetchOutcome.

(** *** [sendToServer] *)

Definition sendToServer (requestId : string) (d : Data) : M unit :=
  fun w =>
    let message := mkFrame requestId d in
    if socketOpen w then (emit (SocketSend message) w, Normal tt)
    else (emit (SendRefused message) w, Normal tt).

(** *** The identifier generator, called from the script *)

Definition newUUIDv7 : M string :=
  fun w => (tick_uuid w, Normal (generateUUIDv7 (entropy (uuidCalls w)))).

(** *** The fetch interceptor *)

Definition real_fetches (tr : list Event) : nat :=
  List.length
    (filter (fun e => match e with RealFetch _ => true | _ => false end) tr).

(** [originalFetch.apply(this, args)]: the page's real [fetch]. *)
Definition originalFetch (args : list Arg) : M FetchOutcome :=
  fun w =>
    (emit (RealFetch args) w,
     Normal (network (real_fetches (trace w)) args)).

Definition urlString_of (args : list Arg) : string :=
  match nth_error args 0 with
  | Some (ARequest url) => url
  | Some (AURL href) => href
  | Some (AString s) => s
  | _ => EmptyString
  end.

Definition update_args (sessionId : string) : list Arg :=
  [AString "http://127.0.0.1:5103/update";
   AInit (mkInit "POST" [("Content-Type", "application/json")]
            (BodySessionId sessionId) None)].

(** The body of [window.fetch = function(...args) { ... }].  The
    script's own calls of [fetch] go through [window.fetch] again:
    [self] is that function. *)
Definition window_fetch_body (self : list Arg -> M FetchOutcome)
    (args : list Arg) : M FetchOutcome :=
  let urlString := urlString_of args in
  (match urlString with
   | EmptyString => ret tt
   | _ =>
       match RetryUrl.url_match urlString with
       | Some (sessionId, _) =>
           fun w =>
             if negb (isApiBridgeRequest w) && isCaptureModeActive w then
               (modify (set_isCaptureModeActive false) ;;
                _ <- self (update_args sessionId) ;;
                ret tt) w
             else ret tt w
       | None => ret tt
       end
   end) ;;
  originalFetch args.

(** [window.fetch].  The only call of [fetch] inside the wrapper has
    a constant URL that the pattern does not match, so the inner
    call goes straight to [originalFetch]; [window_fetch_unfold]
    below shows that this function is the one the script defines. *)
Definition window_fetch : list Arg -> M FetchOutcome :=
  window_fetch_body (window_fetch_body originalFetch).

(** The [then]/[catch] callbacks of the delivery, run when its
    promise settles: they only log. *)
Definition delivery_settled (o : FetchOutcome) : M unit :=
  match o with
  | Resolved r => modify (emit (DeliveryLogged (r_ok r)))
  | Rejected _ => modify (emit (DeliveryLogged false))
  end.

(** [await p]: the value of a resolved promise, a throw otherwise. *)
Definition await (p : M FetchOutcome) : M Response :=
  o <- p ;;
  match o with
  | Resolved r => ret r
  | Rejected e => throw e
  end.

(** *** The request executor *)

(** A JavaScript string in a condition: absent and empty are falsy. *)
Definition truthy (o : option string) : option string :=
  match o with
  | Some (String c s) => Some (String c s)
  | _ => None
  end.

Definition errNoSession : string :=
  "从后端收到的会话信息 (session_id) 为空。请先运行 `id_updater.py` 脚本进行设置。".

Definition errNoMessages : string := "从后端收到的消息列表为空。".

Definition errBadResponse (status : nat) (errorBody : string) : string :=
  "网络响应不正常。状态: "
  ++ DecimalString.NilZero.string_of_uint (Nat.to_uint status)
  ++ ". 内容: " ++ errorBody.

Definition newMessage (session_id messageId : string)
    (template : MessageTemplate) : Message :=
  mkMessage messageId session_id (t_role template) []
    (t_content template)
    (match t_attachments template with Some a => a | None => [] end)
    (match truthy (t_participantPosition template) with
     | Some p => p
     | None => "b"
     end).

(** The loop [for (let i = 0; i < message_templates.length; i++)]. *)
Fixpoint buildMessages (session_id : string)
    (templates : list MessageTemplate) : M (list Message) :=
  match templates with
  | [] => ret []
  | template :: rest =>
      messageId <- newUUIDv7 ;;
      newMessages <- buildMessages session_id rest ;;
      ret (newMessage session_id messageId template :: newMessages)
  end.

(** [await response.text()]. *)
Definition response_text (r : Response) : M string :=
  match r_text r with
  | inl text => ret text
  | inr e => throw e
  end.

(** The loop [while (true) { ... await reader.read() ... }] over the
    values the body stream delivers. *)
Fixpoint relay (requestId : string) (targetPosition : ascii)
    (chunks : list string) (e : StreamEnd) : M unit :=
  match chunks with
  | [] =>
      match e with
      | EndOfStream => sendToServer requestId DONE
      | ReadFails message => throw message
      end
  | chunk :: rest =>
      (match filterStreamByTarget chunk targetPosition with
       | Some (String c s) => sendToServer requestId (DText (String c s))
       | _ => ret tt
       end) ;;
      relay requestId targetPosition rest e
  end.

Definition evaluation_args (apiUrl httpMethod : string)
    (body : EvaluationBody) : list Arg :=
  [AString apiUrl;
   AInit (mkInit httpMethod
            [("Content-Type", "text/plain;charset=UTF-8"); ("Accept", "*/*")]
            (BodyEvaluation body) (Some "include"))].

(** The statements of the [try] block: the call, the check of the
    response, the relay loop. *)
Definition submitAndRelay (requestId : string) (payload : Payload)
    (apiUrl httpMethod : string) (body : EvaluationBody) : M unit :=
  response <- await (window_fetch (evaluation_args apiUrl httpMethod body)) ;;
  if negb (r_ok response) || negb (r_has_body response) then
    errorBody <- response_text response ;;
    throw (errBadResponse (r_status response) errorBody)
  else
    let targetPosition :=
      match battle_target payload with
      | Some t => t
      | None => "b"%char
      end in
    relay requestId targetPosition (r_chunks response) (r_end response).

Definition executeFetchAndStreamBack (requestId : string)
    (payload : Payload) : M unit :=
  match truthy (session_id payload) with
  | None =>
      sendToServer requestId (DError errNoSession) ;;
      sendToServer requestId DONE
  | Some session_id =>
      let apiUrl := "/nextjs-api/stream/post-to-evaluation/" ++ session_id in
      let httpMethod := "POST" in
      match message_templates payload with
      | None | Some [] =>
          sendToServer requestId (DError errNoMessages) ;;
          sendToServer requestId DONE
      | Some message_templates =>
          userMessageId <- newUUIDv7 ;;
          modelAMessageId <- newUUIDv7 ;;
          modelBMessageId <- newUUIDv7 ;;
          newMessages <- buildMessages session_id message_templates ;;
          let body :=
            mkBody session_id "battle" userMessageId modelAMessageId
              modelBMessageId newMessages "chat" in
          modify (set_isApiBridgeRequest true) ;;
          try_catch_finally
            (submitAndRelay requestId payload apiUrl httpMethod body)
            (fun message => sendToServer requestId (DError message))
            (set_isApiBridgeRequest false)
      end
  end.

(** *** Commands and the socket's message handler *)

(** [document.documentElement.outerHTML]. *)
Variable pageSource : string.

Definition sendPageSource : M unit :=
  try_catch_log
    (_ <- await
            (window_fetch
               [AString "http://localhost:5102/internal/update_available_models";
                AInit (mkInit "POST"
                         [("Content-Type", "text/html; charset=utf-8")]
                         (BodyText pageSource) None)]) ;;
     ret tt).

(** [location.reload()]: the page, and with it the script, starts
    again from its initial state. *)
Definition reload : M unit :=
  fun w =>
    (mkWorld false false false (uuidCalls w) (trace w ++ [PageReload]),
     Normal tt).

(** [event.data]: text that [JSON.parse] rejects, or an object with
    the three fields the handler reads. *)
Inductive Inbound :=
| Unparseable
| Parsed (command : option string) (request_id : option string)
    (payload : option Payload).

Definition onmessage (event : Inbound) : M unit :=
  try_catch_log
    (match event with
     | Unparseable => throw "SyntaxError"
     | Parsed command request_id payload =>
         match truthy command with
         | Some command =>
             if String.eqb command "refresh"
                || String.eqb command "reconnect" then reload
             else if String.eqb command "activate_id_capture" then
               modify (set_isCaptureModeActive true)
             else if String.eqb command "send_page_source" then
               sendPageSource
             else ret tt
         | None =>
             match truthy request_id, payload with
             | Some request_id, Some payload =>
                 executeFetchAndStreamBack request_id payload
             | _, _ => ret tt
             end
         end
     end).

(** *** What happens on the page, one event at a time *)

Inductive PageEvent :=
| SocketOpens                          (* [socket.onopen] *)
| SocketCloses                         (* [socket.onclose] *)
| SocketMessage (m : Inbound)          (* [socket.onmessage] *)
| PageFetch (args : list Arg)          (* the page calls [fetch] *)
| DeliverySettles (o : FetchOutcome)   (* a delivery promise settles *).

Definition handle (e : PageEvent) (w : World) : World :=
  match e with
  | SocketOpens => set_socketOpen true w
  | SocketCloses => set_socketOpen false w
  | SocketMessage m => exec (onmessage m) w
  | PageFetch args => exec (window_fetch args) w
  | DeliverySettles o => exec (delivery_settled o) w
  end.

Definition run (es : list PageEvent) (w : World) : World :=
  fold_left (fun w e => handle e w) es w.

End Script.

End Bridge.

(** ** Observations used in the statements *)

Module Obs.

Import Str Demux Data Js Uuid Bridge.

(** No character of [s] is a newline. *)
Fixpoint one_line (s : string) : bool :=
  match s with
  | EmptyString => true
  | String c rest => not_newline c && one_line rest
  end.

(** What a match looks like: a head of the target, on one line. *)
Definition is_match (t : ascii) (m : string) : bool :=
  record_head t m && one_line m.

(** The lines written by [matches.join('\n') + '\n']. *)
Fixpoint unlines (ms : list string) : string :=
  match ms with
  | [] => EmptyString
  | m :: rest => m ++ nl ++ unlines rest
  end.

(** The last character of a string. *)
Fixpoint last_char (s : string) : option ascii :=
  match s with
  | EmptyString => None
  | String c EmptyString => Some c
  | String _ rest => last_char rest
  end.

(** Does the pattern of target [t] match somewhere in [s]? *)
Fixpoint head_occurs (t : ascii) (s : string) : bool :=
  match s with
  | EmptyString => false
  | String _ rest => record_head t s || head_occurs t rest
  end.

(** A line in which the pattern matches at the start or nowhere. *)
Definition anchored_line (t : ascii) (l : string) : bool :=
  match l with
  | EmptyString => true
  | String _ rest => negb (head_occurs t rest)
  end.

(** A line that, when it starts with the tag and a marker, goes on with
    the colon, as every record does. *)
Definition colon_follows (t : ascii) (l : string) : bool :=
  implb (DemuxSpec.leading_two t l) (record_head t l).

(** A chunk whose lines are records in which the target's pattern is
    not found inside a payload. *)
Definition anchored_chunk (t : ascii) (chunk : string) : bool :=
  forallb (fun l => anchored_line t l && colon_follows t l) (lines chunk).

(** The event of a [sendToServer]: a write to the socket when it is
    open, a logged refusal otherwise. *)
Definition sendEvent (open : bool) (f : OutboundFrame) : Event :=
  if open then SocketSend f else SendRefused f.

(** The frames handed to [sendToServer], in order. *)
Fixpoint emitted (tr : list Event) : list OutboundFrame :=
  match tr with
  | [] => []
  | SocketSend f :: rest => f :: emitted rest
  | SendRefused f :: rest => f :: emitted rest
  | _ :: rest => emitted rest
  end.

(** The frames written to the socket, in order. *)
Fixpoint written (tr : list Event) : list OutboundFrame :=
  match tr with
  | [] => []
  | SocketSend f :: rest => f :: written rest
  | _ :: rest => written rest
  end.

(** The argument lists of the calls of the real [fetch], in order. *)
Fixpoint fetched (tr : list Event) : list (list Arg) :=
  match tr with
  | [] => []
  | RealFetch args :: rest => args :: fetched rest
  | _ :: rest => fetched rest
  end.

(** The events a run from [w] to [w'] adds to the trace. *)
Definition added (w w' : World) : list Event :=
  skipn (List.length (trace w)) (trace w').

Definition is_done (f : OutboundFrame) : bool :=
  match data f with
  | DText s => String.eqb s "[DONE]"
  | DError _ => false
  end.

Definition is_error (f : OutboundFrame) : bool :=
  match data f with
  | DText _ => false
  | DError _ => true
  end.

Definition is_terminal (f : OutboundFrame) : bool := is_done f || is_error f.

Definition count {A} (p : A -> bool) (l : list A) : nat :=
  List.length (filter p l).

(** The frames of forwarded chunks. *)
Definition text_frames (requestId : string) (texts : list string)
  : list OutboundFrame :=
  map (mkFrame requestId) (map DText texts).

(** Is some error frame followed, later, by a [[DONE]]? *)
Fixpoint done_after_error (fs : list OutboundFrame) : bool :=
  match fs with
  | [] => false
  | f :: rest => (is_error f && existsb is_done rest) || done_after_error rest
  end.

(** The chunks the relay loop forwards. *)
Definition relay_texts (t : ascii) (chunks : list string) : list string :=
  flat_map
    (fun chunk =>
       match filterStreamByTarget chunk t with
       | Some (String c s) => [String c s]
       | _ => []
       end) chunks.

Definition targetPosition_of (payload : Payload) : ascii :=
  match battle_target payload with
  | Some t => t
  | None => "b"%char
  end.

(** What the request executor hands to [sendToServer] once its call
    has settled as [o]. *)
Definition response_data (t : ascii) (o : FetchOutcome) : list Data :=
  match o with
  | Rejected e => [DError e]
  | Resolved r =>
      if negb (r_ok r) || negb (r_has_body r) then
        match r_text r with
        | inl text => [DError (errBadResponse (r_status r) text)]
        | inr e => [DError e]
        end
      else
        map DText (relay_texts t (r_chunks r))
        ++ [match r_end r with
            | EndOfStream => DONE
            | ReadFails e => DError e
            end]
  end.

(** The identifiers a posted body carries. *)
Definition body_ids (b : EvaluationBody) : list string :=
  [b_userMessageId b; b_modelAMessageId b; b_modelBMessageId b]
  ++ map m_id (b_messages b).

(** The messages built from the templates when the generator has been
    called [k] times before. *)
Fixpoint messages_from (entropy : nat -> Entropy) (session_id : string)
    (k : nat) (templates : list MessageTemplate) : list Message :=
  match templates with
  | [] => []
  | template :: rest =>
      newMessage session_id (generateUUIDv7 (entropy k)) template
      :: messages_from entropy session_id (S k) rest
  end.

(** The body the executor posts for a request that starts when the
    generator has been called [k] times. *)
Definition body_from (entropy : nat -> Entropy) (session_id : string)
    (k : nat) (templates : list MessageTemplate) : EvaluationBody :=
  mkBody session_id "battle"
    (generateUUIDv7 (entropy k))
    (generateUUIDv7 (entropy (S k)))
    (generateUUIDv7 (entropy (S (S k))))
    (messages_from entropy session_id (S (S (S k))) templates)
    "chat".

(** The arguments of the executor's call of [fetch]. *)
Definition request_args (entropy : nat -> Entropy) (session_id : string)
    (k : nat) (templates : list MessageTemplate) : list Arg :=
  evaluation_args ("/nextjs-api/stream/post-to-evaluation/" ++ session_id)
    "POST" (body_from entropy session_id k templates).

(** The world after a run that leaves the flag at [flag], calls the
    generator [n] times and adds the events [evs]. *)
Definition advance (flag : bool) (n : nat) (evs : list Event) (w : World)
  : World :=
  mkWorld (socketOpen w) (isCaptureModeActive w) flag (uuidCalls w + n)
    (trace w ++ evs).

(** The events of handing the data [ds] to [sendToServer], in order. *)
Definition send_events (open : bool) (requestId : string) (ds : list Data)
  : list Event :=
  map (fun d => sendEvent open (mkFrame requestId d)) ds.

(** The number of calls of the generator in a run from [w] to [w']. *)
Definition generated (w w' : World) : nat := uuidCalls w' - uuidCalls w.

(** The identifiers the generator returns to its calls [k], ..., [k+n-1]. *)
Definition identifiers (entropy : nat -> Entropy) (k n : nat) : list string :=
  map (fun i => generateUUIDv7 (entropy i)) (seq k n).

(** Does this event arm capture mode again? *)
Definition rearms (e : PageEvent) : bool :=
  match e with
  | SocketMessage (Parsed (Some command) _ _) =>
      String.eqb command "activate_id_capture"
  | _ => false
  end.

End Obs.

(** ** Concrete inputs *)

Module Samples.

Import Str Data Js Uuid Bridge.

(** The chunk of the specification's example. *)
Definition chunk_example : string :=
  "a0:" ++ dq ++ "x" ++ dq ++ nl
  ++ "b0:" ++ dq ++ "y" ++ dq ++ nl
  ++ "bd:{" ++ dq ++ "z" ++ dq ++ ":1}" ++ nl.

Definition chunk_example_b : string :=
  "b0:" ++ dq ++ "y" ++ dq ++ nl ++ "bd:{" ++ dq ++ "z" ++ dq ++ ":1}" ++ nl.

(** One record of participant [a] whose text quotes [b0:x]. *)
Definition chunk_a_quotes_b : string := "a0:" ++ dq ++ "b0:x" ++ dq ++ nl.

(** One record of participant [b] whose text quotes [a0:x]. *)
Definition chunk_b_quotes_a : string := "b0:" ++ dq ++ "a0:x" ++ dq ++ nl.

Definition entropy0 (k : nat) : Entropy :=
  mkEntropy (1730592000000 + N.of_nat k) (fun _ => Byte.x07).

(** A clock that stands still and a random source that repeats. *)
Definition entropy_stuck (k : nat) : Entropy :=
  mkEntropy 1730592000000 (fun _ => Byte.x07).

(** A clock that stands still and random bytes that differ from call
    to call. *)
Definition entropy_varied (k : nat) : Entropy :=
  mkEntropy 1730592000000
    (fun _ => match Byte.of_nat k with
              | Some b => b
              | None => Byte.x00
              end).

Definition response0 : Response :=
  mkResponse true true 200 (inl EmptyString)
    [chunk_example; chunk_a_quotes_b] EndOfStream.

Definition network0 (k : nat) (args : list Arg) : FetchOutcome :=
  Resolved response0.

Definition template0 : MessageTemplate :=
  mkTemplate "user" "hello" None None.

Definition payload0 : Payload :=
  mkPayload false (Some [template0]) None (Some "s-1") None.

(** A request without templates, and one without a session. *)
Definition payload_no_templates : Payload :=
  mkPayload false (Some []) None (Some "s-1") None.

Definition payload_no_session : Payload :=
  mkPayload false (Some [template0]) None None None.

Definition retry_url : string :=
  "https://lmarena.ai/nextjs-api/stream/retry-evaluation-session-message/0a1b-2c/messages/3d4e-5f".

(** Capture mode armed, the socket open. *)
Definition armed : World := mkWorld true true false 0 [].

(** Capture mode armed while a request of the bridge is under way. *)
Definition armed_flagged : World := mkWorld true true true 0 [].

End Samples.

(** ** Further observations *)

Module Measures.

Import Str Demux Data Js Uuid Bridge Obs.

(** The text a result of the filter stands for: [null] forwards
    nothing. *)
Definition text_of (o : option string) : string :=
  match o with
  | Some s => s
  | None => EmptyString
  end.

(** [s] ends with [tail]. *)
Definition ends_with (tail s : string) : Prop := exists front, s = front ++ tail.

(** The concatenation of a list of strings. *)
Fixpoint concat_strings (l : list string) : string :=
  match l with
  | [] => EmptyString
  | x :: rest => x ++ concat_strings rest
  end.

(** Does the string end with a newline (or is it empty)? *)
Definition ends_line (s : string) : bool :=
  match last_char s with
  | Some c => Ascii.eqb c newline
  | None => true
  end.

(** All characters of [s] satisfy [p]. *)
Fixpoint all_chars (p : ascii -> bool) (s : string) : bool :=
  match s with
  | EmptyString => true
  | String c rest => p c && all_chars p rest
  end.

(** A non-empty string of the characters [[a-f0-9-]]. *)
Definition is_id (s : string) : bool :=
  match s with
  | EmptyString => false
  | _ => all_chars RetryUrl.is_id_char s
  end.

(** The string does not start with a character of [[a-f0-9-]]. *)
Definition ends_id (rest : string) : bool :=
  match rest with
  | EmptyString => true
  | String c _ => negb (RetryUrl.is_id_char c)
  end.

(** No slash in [s] is followed by the letter [n]. *)
Fixpoint no_slash_n (s : string) : bool :=
  match s with
  | String c ((String d _) as rest) =>
      negb (Ascii.eqb c "/" && Ascii.eqb d "n") && no_slash_n rest
  | _ => true
  end.

(** The URL of a retry of message [mid] in session [sid]. *)
Definition retry_path (sid mid : string) : string :=
  RetryUrl.path_prefix ++ sid ++ "/messages/" ++ mid.

(** The condition under which the wrapper captures (lines 284-288). *)
Definition captures (args : list Arg) (w : World) : bool :=
  match RetryUrl.url_match (urlString_of args) with
  | Some _ => negb (isApiBridgeRequest w) && isCaptureModeActive w
  | None => false
  end.

(** The session identifier a capturing call delivers. *)
Definition captured_id (args : list Arg) : option string :=
  option_map fst (RetryUrl.url_match (urlString_of args)).

(** A lowercase hexadecimal digit. *)
Definition is_hex_char (c : ascii) : bool :=
  let n := nat_of_ascii c in
  (((48 <=? n) && (n <=? 57)) || ((97 <=? n) && (n <=? 102)))%nat.

(** The character of [s] at index [i]. *)
Definition char_at (i : nat) (s : string) : option ascii := String.get i s.

(** The characters of an identifier outside its four hyphens. *)
Definition uuid_digits (s : string) : string :=
  substring 0 8 s ++ substring 9 13 s ++ substring 14 18 s
  ++ substring 19 23 s ++ substring 24 36 s.

(** The number a string of hexadecimal digits denotes. *)
Definition parse_hex (s : string) : option N :=
  option_map N.of_hex_uint (HexadecimalString.NilZero.uint_of_string s).

(** What [generateUUIDv7] writes from the random bytes: the low nibble
    of byte 0, byte 1, the low six bits of byte 2 under the variant
    bits, bytes 3 to 9. *)
Definition used_bits (e : Entropy) : list N :=
  [N.land (byte_at e 0) 15; byte_at e 1;
   N.lor (N.land (byte_at e 2) 63) 128]
  ++ map (byte_at e) (seq 3 7).

(** The time stamp read back from the first two groups of an
    identifier. *)
Definition timestamp_of (id : string) : option N :=
  parse_hex (substring 0 8 id ++ substring 9 13 id).

(** The random part read back from the last three groups of an
    identifier: a nibble, then nine bytes. *)
Definition random_of (id : string) : list (option N) :=
  [parse_hex (substring 15 16 id); parse_hex (substring 16 18 id);
   parse_hex (substring 19 21 id); parse_hex (substring 21 23 id)]
  ++ map (fun i => parse_hex (substring (24 + 2 * i) (26 + 2 * i) id))
       (seq 0 6).

(** The two characters [hex2] writes for a byte are hexadecimal digits
    that read back as the byte, the second one as its low nibble. *)
Definition byte_written_ok (b : Byte.byte) : bool :=
  match hex2 (Byte.to_N b) with
  | String c1 (String c2 EmptyString) =>
      is_hex_char c1 && is_hex_char c2
      && match parse_hex (String c1 (String c2 EmptyString)),
               parse_hex (String c2 EmptyString) with
         | Some n, Some low =>
             N.eqb n (Byte.to_N b) && N.eqb low (N.land (Byte.to_N b) 15)
         | _, _ => false
         end
  | _ => false
  end.

(** The two characters written for the variant byte: the first one is
    [8], [9], [a] or [b]. *)
Definition variant_written_ok (b : Byte.byte) : bool :=
  let v := N.lor (N.land (Byte.to_N b) 63) 128 in
  match hex2 v with
  | String c1 (String c2 EmptyString) =>
      (Ascii.eqb c1 "8" || Ascii.eqb c1 "9" || Ascii.eqb c1 "a"
       || Ascii.eqb c1 "b")
      && is_hex_char c2
      && match parse_hex (String c1 (String c2 EmptyString)) with
         | Some n => N.eqb n v
         | None => false
         end
  | _ => false
  end.

(** One hexadecimal digit put in front of a little-endian number. *)
Definition digit_of (x : N) (d : Hexadecimal.uint) : Hexadecimal.uint :=
  match x with
  | 0 => Hexadecimal.D0 d | 1 => Hexadecimal.D1 d | 2 => Hexadecimal.D2 d
  | 3 => Hexadecimal.D3 d | 4 => Hexadecimal.D4 d | 5 => Hexadecimal.D5 d
  | 6 => Hexadecimal.D6 d | 7 => Hexadecimal.D7 d | 8 => Hexadecimal.D8 d
  | 9 => Hexadecimal.D9 d | 10 => Hexadecimal.Da d | 11 => Hexadecimal.Db d
  | 12 => Hexadecimal.Dc d | 13 => Hexadecimal.Dd d | 14 => Hexadecimal.De d
  | _ => Hexadecimal.Df d
  end%N.

(** The [k] low hexadecimal digits of [n], the lowest first. *)
Fixpoint little_digits (k : nat) (n : N) : Hexadecimal.uint :=
  match k with
  | O => Hexadecimal.Nil
  | S k' => digit_of (n mod 16) (little_digits k' (n / 16))
  end.

(** The default of an absent or empty [participantPosition]. *)
Definition position_of (template : MessageTemplate) : string :=
  match truthy (t_participantPosition template) with
  | Some p => p
  | None => "b"
  end.

Definition attachments_of (template : MessageTemplate) : list string :=
  match t_attachments template with
  | Some a => a
  | None => []
  end.

(** Is the inbound message a command (a non-empty [command])? *)
Definition is_command (m : Inbound) : bool :=
  match m with
  | Parsed (Some (String _ _)) _ _ => true
  | _ => false
  end.

(** Is it a command the dispatcher knows? *)
Definition known_command (c : string) : bool :=
  String.eqb c "refresh" || String.eqb c "reconnect"
  || String.eqb c "activate_id_capture" || String.eqb c "send_page_source".

(** The request id an inbound message carries, if any. *)
Definition request_id_of (m : Inbound) : option string :=
  match m with
  | Parsed _ r _ => r
  | Unparseable => None
  end.

(** A message the handler has nothing to do for: text that does not
    parse, a command it does not know, or a request that lacks its id
    or its payload. *)
Definition ignored (m : Inbound) : bool :=
  match m with
  | Unparseable => true
  | Parsed command request_id payload =>
      match truthy command with
      | Some c => negb (known_command c)
      | None =>
          match truthy request_id, payload with
          | Some _, Some _ => false
          | _, _ => true
          end
      end
  end.

Definition is_open_event (e : PageEvent) : bool :=
  match e with
  | SocketOpens => true
  | _ => false
  end.

(** A participant tag, [a] or [b]: the values a request's
    [battle_target] takes.  Interpolated into the pattern of line 245,
    such a character stands for itself. *)
Definition participant_tag (t : ascii) : Prop :=
  t = "a"%char \/ t = "b"%char.

(** In every line of the chunk the target's pattern is found at the
    start of the line or nowhere. *)
Definition anchored_lines (t : ascii) (chunk : string) : bool :=
  forallb (anchored_line t) (lines chunk).

(** A call that settles with a success status and a body whose reads
    all succeed. *)
Definition clean_outcome (o : FetchOutcome) : bool :=
  match o with
  | Rejected _ => false
  | Resolved r =>
      r_ok r && r_has_body r
      && match r_end r with
         | EndOfStream => true
         | ReadFails _ => false
         end
  end.

Section Run.

Variable entropy : nat -> Entropy.
Variable network : nat -> list Arg -> FetchOutcome.
Variable pageSource : string.

(** The number of captures in a run: the page calls that find the
    wrapper in its capturing condition. *)
Fixpoint capture_count (es : list PageEvent) (w : World) : nat :=
  match es with
  | [] => 0
  | e :: rest =>
      (match e with
       | PageFetch args => if captures args w then 1 else 0
       | _ => 0
       end)
      + capture_count rest (handle entropy network pageSource e w)
  end.

End Run.

End Measures.

(** * Properties *)

(** ** Strings and the demultiplexer *)

Module DemuxFacts.

Import Str Demux Obs.

Lemma append_assoc (a b c : string) : (a ++ b) ++ c = a ++ (b ++ c).
Proof. induction a as [|x a IH]; simpl; [reflexivity | now rewrite IH]. Qed.

Lemma not_newline_newline : not_newline newline = false.
Proof. reflexivity. Qed.

Lemma span_one_line (p r : string) :
  one_line p = true ->
  span not_newline (p ++ String newline r) = (p, String newline r).
Proof.
  induction p as [|c p IH]; simpl; intros H.
  - reflexivity.
  - apply andb_prop in H as [Hc Hp]. rewrite Hc, (IH Hp). reflexivity.
Qed.

Lemma span_one_line_end (p : string) :
  one_line p = true -> span not_newline p = (p, EmptyString).
Proof.
  induction p as [|c p IH]; simpl; intros H.
  - reflexivity.
  - apply andb_prop in H as [Hc Hp]. rewrite Hc, (IH Hp). reflexivity.
Qed.

Lemma one_line_span (s : string) : one_line (fst (span not_newline s)) = true.
Proof.
  induction s as [|c s IH]; simpl; [reflexivity|].
  destruct (not_newline c) eqn:Hc; [|reflexivity].
  destruct (span not_newline s) as [a b]; simpl in *. now rewrite Hc, IH.
Qed.

(** Inside a match the scan skips to the next newline. *)
Lemma matchAll_skip (t : ascii) (p r : string) :
  one_line p = true -> matchAll t true (p ++ r) = matchAll t true r.
Proof.
  induction p as [|c p IH]; simpl; intros H.
  - reflexivity.
  - apply andb_prop in H as [Hc Hp]. rewrite Hc. now apply IH.
Qed.

Lemma matchAll_skip_end (t : ascii) (p : string) :
  one_line p = true -> matchAll t true p = [].
Proof.
  induction p as [|c p IH]; simpl; intros H.
  - reflexivity.
  - apply andb_prop in H as [Hc Hp]. rewrite Hc. now apply IH.
Qed.

(** A newline never starts a match of a target that is not a newline,
    and the scan is outside any match after it. *)
Lemma matchAll_newline (t : ascii) (b : bool) (r : string) :
  t <> newline ->
  matchAll t b (String newline r) = matchAll t false r.
Proof.
  intros Ht. cbn [matchAll]. rewrite not_newline_newline, andb_false_r.
  assert (H : record_head t (String newline r) = false).
  { unfold record_head. destruct r as [|m [|k r]]; try reflexivity.
    destruct (Ascii.eqb_spec newline t) as [E|_]; [|reflexivity].
    symmetry in E. contradiction. }
  rewrite H. reflexivity.
Qed.

Lemma record_head_app (t : ascii) (m r : string) :
  record_head t m = true -> record_head t (m ++ r) = true.
Proof.
  destruct m as [|a [|b [|c m]]]; simpl; try discriminate. auto.
Qed.

Lemma match_text_is_match (t : ascii) (s : string) :
  t <> newline -> record_head t s = true -> is_match t (match_text s) = true.
Proof.
  intros Ht H. destruct s as [|a [|b [|c s]]]; try discriminate.
  simpl in H. apply andb_prop in H as [H Hc]. apply andb_prop in H as [Ha Hb].
  apply Ascii.eqb_eq in Ha, Hc. subst a c.
  assert (Hnb : not_newline b = true).
  { apply orb_prop in Hb as [Hb|Hb]; apply Ascii.eqb_eq in Hb; now subst. }
  unfold is_match, match_text. simpl. rewrite Hnb. simpl.
  pose proof (one_line_span s) as Hs.
  destruct (span not_newline s) as [x y]; simpl in *.
  rewrite Ascii.eqb_refl, Hnb, Hs.
  assert (Hnt : not_newline t = true).
  { unfold not_newline. destruct (Ascii.eqb_spec t newline); [contradiction|reflexivity]. }
  rewrite Hnt.
  apply orb_prop in Hb as [Hb|Hb]; rewrite Hb; [reflexivity|].
  rewrite orb_true_r. reflexivity.
Qed.

Lemma matchAll_matches (t : ascii) (s : string) :
  t <> newline -> forall b, forallb (is_match t) (matchAll t b s) = true.
Proof.
  intros Ht. induction s as [|c s IH]; intros b; cbn [matchAll];
    [reflexivity|].
  destruct (b && not_newline c); [apply IH|].
  destruct (record_head t (String c s)) eqn:H; [|apply IH].
  cbn [forallb]. rewrite (match_text_is_match _ _ Ht H), IH. reflexivity.
Qed.

Lemma join_unlines (m : string) (ms : list string) :
  join nl (m :: ms) ++ nl = unlines (m :: ms).
Proof.
  revert m. induction ms as [|m' ms IH]; intros m.
  - reflexivity.
  - change (join nl (m :: m' :: ms)) with (m ++ nl ++ join nl (m' :: ms)).
    rewrite !append_assoc, IH. reflexivity.
Qed.

(** A match at the start of a line is found, whole. *)
Lemma matchAll_line (t : ascii) (m r : string) :
  t <> newline -> is_match t m = true ->
  matchAll t false (m ++ nl ++ r) = m :: matchAll t false r.
Proof.
  intros Ht H. apply andb_prop in H as [Hh Hl].
  destruct m as [|c m]; [discriminate|].
  simpl in Hl. apply andb_prop in Hl as [Hc Hm].
  change (String c m ++ nl ++ r) with (String c (m ++ String newline r)).
  cbn [matchAll andb].
  change (String c (m ++ String newline r)) with (String c m ++ String newline r).
  rewrite (record_head_app _ _ _ Hh).
  cbn [append match_text]. rewrite (span_one_line _ _ Hm). cbn [fst].
  rewrite (matchAll_skip _ _ _ Hm), (matchAll_newline _ _ _ Ht). reflexivity.
Qed.

Lemma matchAll_unlines (t : ascii) (ms : list string) :
  t <> newline -> forallb (is_match t) ms = true ->
  matchAll t false (unlines ms) = ms.
Proof.
  intros Ht. induction ms as [|m ms IH]; cbn [unlines forallb]; intros H;
    [reflexivity|].
  apply andb_prop in H as [Hm Hms].
  rewrite (matchAll_line _ _ _ Ht Hm), (IH Hms). reflexivity.
Qed.

(** *** The filter, line by line *)

Lemma lines_not_nil (s : string) : lines s <> [].
Proof.
  destruct s as [|c s]; [discriminate|]. cbn [lines].
  destruct (Ascii.eqb c newline); [discriminate|].
  destruct (lines s); discriminate.
Qed.

Lemma lines_one_line (s : string) : forallb one_line (lines s) = true.
Proof.
  induction s as [|c s IH]; [reflexivity|]. cbn [lines].
  destruct (Ascii.eqb c newline) eqn:Hc; [exact IH|].
  destruct (lines s) as [|l ls]; cbn [forallb one_line] in *;
    unfold not_newline; rewrite Hc; [reflexivity | exact IH].
Qed.

Lemma span_first_line (s : string) :
  fst (span not_newline s) = hd EmptyString (lines s).
Proof.
  induction s as [|c s IH]; [reflexivity|]. cbn [span lines].
  unfold not_newline at 1. destruct (Ascii.eqb c newline); cbn [negb];
    [reflexivity|].
  pose proof (lines_not_nil s) as Hne.
  destruct (span not_newline s) as [a b]. cbn [fst] in *.
  destruct (lines s) as [|l ls]; [contradiction|]. cbn [hd] in *.
  now rewrite IH.
Qed.

(** Whether a head starts a string is decided within its first line. *)
Lemma record_head_first_line (t : ascii) (s : string) :
  t <> newline ->
  record_head t s = record_head t (fst (span not_newline s)).
Proof.
  intros Ht. destruct s as [|c [|m [|k s]]]; cbn [span].
  - reflexivity.
  - destruct (not_newline c); reflexivity.
  - destruct (not_newline c), (not_newline m); reflexivity.
  - destruct (not_newline c) eqn:Hc.
    + destruct (not_newline m) eqn:Hm.
      * destruct (not_newline k) eqn:Hk.
        -- destruct (span not_newline s). reflexivity.
        -- cbn [fst record_head].
           assert (E : Ascii.eqb k ":" = false).
           { apply negb_false_iff, Ascii.eqb_eq in Hk. now subst k. }
           now rewrite E, andb_false_r.
      * cbn [fst record_head].
        assert (E : Ascii.eqb m "0" || Ascii.eqb m "d" = false).
        { apply negb_false_iff, Ascii.eqb_eq in Hm. now subst m. }
        now rewrite E, andb_false_r.
    + cbn [fst record_head].
      apply negb_false_iff, Ascii.eqb_eq in Hc. subst c.
      destruct (Ascii.eqb_spec newline t) as [E|_]; [|reflexivity].
      symmetry in E. contradiction.
Qed.

(** The matches of a chunk are the matches of its lines. *)
Lemma matchAll_lines (t : ascii) (s : string) :
  t <> newline ->
  forall b,
    matchAll t b s
    = (matchAll t b (hd EmptyString (lines s))
       ++ flat_map (matchAll t false) (tl (lines s)))%list.
Proof.
  intros Ht. induction s as [|c s IH]; intros b; [reflexivity|].
  pose proof (lines_not_nil s) as Hne.
  cbn [lines]. destruct (Ascii.eqb c newline) eqn:Hc.
  - apply Ascii.eqb_eq in Hc. subst c.
    rewrite (matchAll_newline _ _ _ Ht), (IH false). cbn [hd tl matchAll app].
    destruct (lines s) as [|l ls]; [contradiction|]. reflexivity.
  - destruct (lines s) as [|l ls] eqn:El; [contradiction|]. cbn [hd tl] in *.
    assert (Hnc : not_newline c = true) by (unfold not_newline; now rewrite Hc).
    assert (Hl : fst (span not_newline s) = l)
      by (rewrite span_first_line, El; reflexivity).
    assert (Hll : fst (span not_newline l) = l).
    { pose proof (lines_one_line s) as H1. rewrite El in H1.
      cbn [forallb] in H1. apply andb_prop in H1 as [H1 _].
      now rewrite (span_one_line_end _ H1). }
    cbn [matchAll]. rewrite Hnc. destruct b; cbn [andb].
    + apply IH.
    + rewrite (record_head_first_line t (String c s) Ht).
      cbn [span]. rewrite Hnc.
      destruct (span not_newline s) as [x y] eqn:Es. cbn [fst] in *. subst x.
      destruct (record_head t (String c l)).
      * cbn [match_text]. rewrite Es, Hll. cbn [fst app].
        now rewrite (IH true).
      * apply IH.
Qed.

Lemma matchAll_no_head (t : ascii) (s : string) :
  head_occurs t s = false -> forall b, matchAll t b s = [].
Proof.
  induction s as [|c s IH]; intros H b; [reflexivity|].
  cbn [head_occurs] in H. apply orb_false_elim in H as [Hh Hs].
  cbn [matchAll]. rewrite Hh. destruct (b && not_newline c); now apply IH.
Qed.

(** In a line where the pattern is anchored, the filter finds the line
    itself or nothing. *)
Lemma matchAll_anchored_line (t : ascii) (l : string) :
  one_line l = true -> anchored_line t l = true ->
  matchAll t false l = if record_head t l then [l] else [].
Proof.
  intros Hl Ha. destruct l as [|c l]; [reflexivity|].
  cbn [anchored_line] in Ha. apply negb_true_iff in Ha.
  cbn [one_line] in Hl. apply andb_prop in Hl as [_ Hl].
  cbn [matchAll andb]. destruct (record_head t (String c l)).
  - cbn [match_text]. rewrite (span_one_line_end _ Hl).
    now rewrite (matchAll_no_head _ _ Ha).
  - now apply matchAll_no_head.
Qed.

Lemma record_head_leading_two (t : ascii) (l : string) :
  record_head t l = true -> DemuxSpec.leading_two t l = true.
Proof.
  destruct l as [|c [|m [|k l]]]; try discriminate. cbn.
  intros H. apply andb_prop in H as [H _]. exact H.
Qed.

Lemma matchAll_anchored_lines (t : ascii) (ls : list string) :
  forallb one_line ls = true ->
  forallb (fun l => anchored_line t l && colon_follows t l) ls = true ->
  flat_map (matchAll t false) ls = filter (DemuxSpec.leading_two t) ls.
Proof.
  induction ls as [|l ls IH]; [reflexivity|]. cbn [forallb flat_map filter].
  intros H1 H2. apply andb_prop in H1 as [Hl Hls].
  apply andb_prop in H2 as [Hal Hals]. apply andb_prop in Hal as [Ha Hc].
  rewrite (IH Hls Hals), (matchAll_anchored_line _ _ Hl Ha).
  unfold colon_follows in Hc.
  destruct (record_head t l) eqn:Hh.
  - now rewrite (record_head_leading_two _ _ Hh).
  - destruct (DemuxSpec.leading_two t l); [discriminate|reflexivity].
Qed.

(** Where the pattern is found only at the start of lines, the filter
    is the demultiplexer of the specification. *)
Lemma filter_agrees_when_anchored (chunk : string) (t : ascii) :
  t <> newline ->
  anchored_chunk t chunk = true ->
  filterStreamByTarget chunk t = DemuxSpec.demultiplex chunk t.
Proof.
  intros Ht Hw. unfold filterStreamByTarget, DemuxSpec.demultiplex.
  assert (E : matchAll t false chunk
              = filter (DemuxSpec.leading_two t) (lines chunk)).
  { rewrite (matchAll_lines _ _ Ht).
    pose proof (lines_not_nil chunk) as Hne.
    pose proof (lines_one_line chunk) as H1.
    unfold anchored_chunk in Hw.
    destruct (lines chunk) as [|l ls]; [contradiction|].
    change (matchAll t false (hd EmptyString (l :: ls))
            ++ flat_map (matchAll t false) (tl (l :: ls)))%list
      with (flat_map (matchAll t false) (l :: ls)).
    now apply matchAll_anchored_lines. }
  now rewrite E.
Qed.

(** On a chunk that contains only records tagged [t], target [t]
    yields something. *)
Lemma only_tagged_target_nonempty (chunk : string) (t : ascii) :
  t <> newline ->
  DemuxSpec.only_tagged t chunk = true ->
  filterStreamByTarget chunk t <> None.
Proof.
  intros Ht H. unfold filterStreamByTarget.
  assert (E : matchAll t false chunk <> []).
  { rewrite (matchAll_lines _ _ Ht).
    pose proof (lines_not_nil chunk) as Hne.
    unfold DemuxSpec.only_tagged, DemuxSpec.records in H.
    destruct (lines chunk) as [|l0 ls0]; [contradiction|].
    change (matchAll t false (hd EmptyString (l0 :: ls0))
            ++ flat_map (matchAll t false) (tl (l0 :: ls0)))%list
      with (flat_map (matchAll t false) (l0 :: ls0)).
    clear Hne. induction (l0 :: ls0) as [|l ls IH]; [discriminate|].
    cbn [filter flat_map] in *.
    destruct (negb (String.eqb l EmptyString)) eqn:Hl.
    - cbn [forallb] in H. apply andb_prop in H as [Hh _].
      change (DemuxSpec.tagged_record t l) with (record_head t l) in Hh.
      destruct l as [|c l]; [discriminate|].
      cbn [matchAll andb]. rewrite Hh. discriminate.
    - intros E. apply app_eq_nil in E as [_ E]. now apply IH. }
  destruct (matchAll t false chunk); [contradiction|discriminate].
Qed.

(** On a chunk that contains only records tagged [t], in which the
    pattern of another target is not found inside a payload, that other
    target yields nothing. *)
Lemma only_tagged_other_empty (chunk : string) (t other : ascii) :
  other <> newline -> other <> t ->
  DemuxSpec.only_tagged t chunk = true ->
  anchored_chunk other chunk = true ->
  filterStreamByTarget chunk other = None.
Proof.
  intros Ho Hd H Ha. rewrite (filter_agrees_when_anchored _ _ Ho Ha).
  unfold DemuxSpec.demultiplex.
  assert (E : filter (DemuxSpec.leading_two other) (lines chunk) = []).
  { unfold DemuxSpec.only_tagged, DemuxSpec.records in H.
    assert (Hall : forallb (DemuxSpec.tagged_record t)
                     (filter (fun l => negb (String.eqb l EmptyString))
                        (lines chunk)) = true).
    { destruct (filter _ (lines chunk)); [reflexivity | exact H]. }
    clear H Ha. induction (lines chunk) as [|l ls IH]; [reflexivity|].
    cbn [filter] in *.
    assert (Hl : DemuxSpec.leading_two other l = false).
    { destruct l as [|c [|m l]]; try reflexivity.
      cbn [String.eqb negb forallb] in Hall.
      apply andb_prop in Hall as [Hh _].
      destruct l as [|k l]; [discriminate|]. cbn in Hh.
      apply andb_prop in Hh as [Hh _]. apply andb_prop in Hh as [Hh _].
      apply Ascii.eqb_eq in Hh. subst c. cbn.
      destruct (Ascii.eqb_spec t other) as [E|_]; [|reflexivity].
      symmetry in E. contradiction. }
    rewrite Hl. apply IH.
    destruct (negb (String.eqb l EmptyString)); [|exact Hall].
    cbn [forallb] in Hall. apply andb_prop in Hall as [_ Hall]. exact Hall. }
  now rewrite E.
Qed.

(** The filter gives the same answer whenever it is asked again. *)
Lemma filter_deterministic (chunk : string) (t : ascii) (o1 o2 : option string) :
  filterStreamByTarget chunk t = o1 -> filterStreamByTarget chunk t = o2 ->
  o1 = o2.
Proof. congruence. Qed.

(** Filtering the filter's own output gives that output back. *)
Lemma filter_idempotent (chunk out : string) (t : ascii) :
  t <> newline ->
  filterStreamByTarget chunk t = Some out ->
  filterStreamByTarget out t = Some out.
Proof.
  intros Ht. unfold filterStreamByTarget.
  pose proof (matchAll_matches t chunk Ht false) as Hall.
  destruct (matchAll t false chunk) as [|m ms]; [discriminate|].
  intros [= <-].
  change (match ms with
          | [] => m
          | _ :: _ => m ++ String newline (join nl ms)
          end) with (join nl (m :: ms)).
  rewrite join_unlines, (matchAll_unlines _ _ Ht Hall).
  apply f_equal, join_unlines.
Qed.

Lemma last_char_app_nl (s : string) : last_char (s ++ nl) = Some newline.
Proof.
  induction s as [|c s IH]; [reflexivity|].
  simpl. rewrite IH. destruct (s ++ nl) eqn:E; [|reflexivity].
  destruct s; discriminate.
Qed.

(** An output of the filter ends in a newline: it is never the
    sentinel [[DONE]], and never empty. *)
Lemma filter_ends_in_newline (chunk out : string) (t : ascii) :
  filterStreamByTarget chunk t = Some out -> last_char out = Some newline.
Proof.
  unfold filterStreamByTarget.
  destruct (matchAll t false chunk); [discriminate|].
  intros [= <-]. apply last_char_app_nl.
Qed.

Lemma filter_not_done (chunk out : string) (t : ascii) :
  filterStreamByTarget chunk t = Some out -> out <> "[DONE]".
Proof.
  intros H E. apply filter_ends_in_newline in H. subst out. discriminate.
Qed.

End DemuxFacts.

(** ** The fetch interceptor *)

Module InterceptFacts.

Import Str Data Js Bridge.

Section Facts.

Variable network : nat -> list Arg -> FetchOutcome.

Abbreviation originalFetch := (originalFetch network).
Abbreviation window_fetch := (window_fetch network).
Abbreviation window_fetch_body := (window_fetch_body network).

Lemma bind_ret_tt {A} (k : M A) (w : World) :
  bind (ret tt) (fun _ => k) w = k w.
Proof. reflexivity. Qed.

(** The wrapper only observes, and forwards, when the URL does not
    match, when the call is the bridge's own, or when capture mode
    is off. *)
Lemma body_plain (self : list Arg -> M FetchOutcome) (args : list Arg)
    (w : World) :
  RetryUrl.url_match (urlString_of args) = None
  \/ isApiBridgeRequest w = true
  \/ isCaptureModeActive w = false ->
  window_fetch_body self args w = originalFetch args w.
Proof.
  intros H. unfold Bridge.window_fetch_body.
  destruct (urlString_of args) as [|c u] eqn:Eu; [reflexivity|].
  destruct (RetryUrl.url_match (String c u)) as [[sid g2]|] eqn:Em;
    [|reflexivity].
  destruct H as [H|[H|H]]; [discriminate| |];
    unfold bind; rewrite H; [|rewrite andb_false_r]; reflexivity.
Qed.

Lemma update_url_no_match (sessionId : string) :
  RetryUrl.url_match (urlString_of (update_args sessionId)) = None.
Proof. vm_compute. reflexivity. Qed.

Lemma window_fetch_plain (args : list Arg) (w : World) :
  RetryUrl.url_match (urlString_of args) = None
  \/ isApiBridgeRequest w = true
  \/ isCaptureModeActive w = false ->
  window_fetch args w = originalFetch args w.
Proof. apply body_plain. Qed.

(** The delivery call made inside the wrapper is a plain forward,
    whatever function stands for [fetch] there. *)
Lemma delivery_plain (self : list Arg -> M FetchOutcome)
    (sessionId : string) (w : World) :
  window_fetch_body self (update_args sessionId) w =
  originalFetch (update_args sessionId) w.
Proof. apply body_plain. left. apply update_url_no_match. Qed.

(** The wrapper when it captures: capture mode is switched off
    first, the delivery is issued in that state, and the observed
    call is forwarded last. *)
Lemma window_fetch_capture (args : list Arg) (w : World)
    (sid g2 : string) :
  RetryUrl.url_match (urlString_of args) = Some (sid, g2) ->
  isApiBridgeRequest w = false ->
  isCaptureModeActive w = true ->
  window_fetch args w =
  originalFetch args
    (exec (originalFetch (update_args sid))
       (set_isCaptureModeActive false w)).
Proof.
  intros Hm Hf Hc. unfold Bridge.window_fetch.
  unfold Bridge.window_fetch_body at 1.
  destruct (urlString_of args) as [|c u] eqn:Eu; [discriminate|].
  rewrite Hm. unfold bind at 1. unfold bind at 1.
  rewrite Hf, Hc. cbn [negb andb]. unfold modify, bind. cbv beta iota.
  rewrite delivery_plain. reflexivity.
Qed.

(** [window_fetch] is the function the script defines: its body,
    with [window_fetch] itself for the [fetch] called inside. *)
Lemma window_fetch_unfold (args : list Arg) (w : World) :
  window_fetch args w = window_fetch_body window_fetch args w.
Proof.
  unfold Bridge.window_fetch.
  unfold Bridge.window_fetch_body at 1 3.
  destruct (urlString_of args) as [|c u]; [reflexivity|].
  destruct (RetryUrl.url_match (String c u)) as [[sid g2]|]; [|reflexivity].
  unfold bind.
  destruct (negb (isApiBridgeRequest w) && isCaptureModeActive w);
    [|reflexivity].
  unfold modify. cbv beta iota.
  rewrite delivery_plain.
  change (Bridge.window_fetch_body network
            (Bridge.window_fetch_body network originalFetch)
            (update_args sid))
    with (window_fetch (update_args sid)).
  rewrite window_fetch_plain by (left; apply update_url_no_match).
  reflexivity.
Qed.

(** The real [fetch] records its call and nothing else. *)
Lemma originalFetch_run (args : list Arg) (w : World) :
  originalFetch args w =
  (emit (RealFetch args) w,
   Normal (network (real_fetches (trace w)) args)).
Proof. reflexivity. Qed.

End Facts.

End InterceptFacts.

(** ** The request executor *)

Module ExecutorFacts.

Import Str Demux Data Js Uuid Bridge Obs.

Lemma skipn_app_exact {A} (a b : list A) : skipn (List.length a) (a ++ b) = b.
Proof. induction a as [|x a IH]; [reflexivity | exact IH]. Qed.

Lemma added_advance (flag : bool) (n : nat) (evs : list Event) (w : World) :
  added w (advance flag n evs w) = evs.
Proof. unfold added, advance. simpl. apply skipn_app_exact. Qed.

Section Facts.

Variable entropy : nat -> Entropy.
Variable network : nat -> list Arg -> FetchOutcome.

Abbreviation executeFetchAndStreamBack :=
  (executeFetchAndStreamBack entropy network).

(** [sendToServer] adds one event and changes nothing else. *)
Lemma sendToServer_run (requestId : string) (d : Data) (w : World) :
  sendToServer requestId d w =
  (advance (isApiBridgeRequest w) 0
     (send_events (socketOpen w) requestId [d]) w, Normal tt).
Proof.
  destruct w as [so cm fl uc tr]. unfold sendToServer, advance, emit. simpl.
  rewrite Nat.add_0_r. destruct so; reflexivity.
Qed.

Lemma advance_advance (f1 f2 : bool) (n1 n2 : nat) (e1 e2 : list Event)
    (w : World) :
  advance f2 n2 e2 (advance f1 n1 e1 w) = advance f2 (n1 + n2) (e1 ++ e2) w.
Proof.
  unfold advance. simpl. now rewrite Nat.add_assoc, app_assoc.
Qed.

(** The relay loop: the filtered chunks go out in order; a clean end of
    the stream adds the sentinel, a failed read throws. *)
Lemma relay_run (requestId : string) (t : ascii) (chunks : list string)
    (e : StreamEnd) (w : World) :
  relay requestId t chunks e w =
  (advance (isApiBridgeRequest w) 0
     (send_events (socketOpen w) requestId
        (map DText (relay_texts t chunks)
         ++ match e with EndOfStream => [DONE] | ReadFails _ => [] end)) w,
   match e with
   | EndOfStream => Normal tt
   | ReadFails message => Throws message
   end).
Proof.
  revert w. induction chunks as [|chunk rest IH]; intros w.
  - destruct e.
    + simpl. apply sendToServer_run.
    + destruct w as [so cm fl uc tr]. unfold advance. simpl.
      now rewrite Nat.add_0_r, app_nil_r.
  - cbn [relay]. unfold bind.
    assert (H : forall w0,
      (match filterStreamByTarget chunk t with
       | Some (String c s) => sendToServer requestId (DText (String c s))
       | _ => ret tt
       end) w0 =
      (advance (isApiBridgeRequest w0) 0
         (send_events (socketOpen w0) requestId
            (map DText (relay_texts t [chunk]))) w0, Normal tt)).
    { intros w0. unfold relay_texts. cbn [flat_map].
      destruct (filterStreamByTarget chunk t) as [[|c s]|];
        try apply sendToServer_run;
        destruct w0 as [so cm fl uc tr]; unfold advance, ret; simpl;
        now rewrite Nat.add_0_r, app_nil_r. }
    rewrite H, IH. rewrite advance_advance. cbn [advance socketOpen
      isApiBridgeRequest]. f_equal. f_equal.
    unfold send_events. rewrite <- map_app. f_equal.
    unfold relay_texts. cbn [flat_map]. rewrite app_nil_r, map_app, app_assoc.
    reflexivity.
Qed.

(** The loop over the templates calls the generator once per entry. *)
Lemma buildMessages_run (session_id : string)
    (templates : list MessageTemplate) (w : World) :
  buildMessages entropy session_id templates w =
  (advance (isApiBridgeRequest w) (List.length templates) [] w,
   Normal (messages_from entropy session_id (uuidCalls w) templates)).
Proof.
  revert w. induction templates as [|template rest IH]; intros w.
  - destruct w as [so cm fl uc tr]. unfold advance. simpl.
    now rewrite Nat.add_0_r, app_nil_r.
  - cbn [buildMessages]. unfold bind at 1. unfold newUUIDv7 at 1.
    unfold bind at 1. rewrite IH. unfold ret.
    destruct w as [so cm fl uc tr]. unfold advance, tick_uuid. simpl.
    rewrite !app_nil_r. do 3 f_equal. lia.
Qed.

(** The [try] statement, entered with the flag set: one call of the
    real [fetch], then the frames of [response_data]; the flag is
    cleared on the way out and nothing is thrown further. *)
Lemma try_statement_run (requestId : string) (payload : Payload)
    (apiUrl httpMethod : string) (body : EvaluationBody) (w : World) :
  isApiBridgeRequest w = true ->
  try_catch_finally
    (submitAndRelay network requestId payload apiUrl httpMethod body)
    (fun message => sendToServer requestId (DError message))
    (set_isApiBridgeRequest false) w =
  (advance false 0
     (RealFetch (evaluation_args apiUrl httpMethod body)
      :: send_events (socketOpen w) requestId
           (response_data (targetPosition_of payload)
              (network (real_fetches (trace w))
                 (evaluation_args apiUrl httpMethod body)))) w,
   Normal tt).
Proof.
  intros Hflag. unfold try_catch_finally, submitAndRelay, await.
  unfold bind at 1. unfold bind at 1.
  rewrite InterceptFacts.window_fetch_plain by (right; left; exact Hflag).
  rewrite InterceptFacts.originalFetch_run.
  set (args := evaluation_args apiUrl httpMethod body).
  destruct (network (real_fetches (trace w)) args) as [e|r] eqn:Enet.
  - (* the call rejects *)
    unfold throw. rewrite sendToServer_run.
    destruct w as [so cm fl uc tr]. unfold advance, emit. simpl.
    rewrite !Nat.add_0_r, <- app_assoc. reflexivity.
  - unfold ret at 1. cbn [response_data].
    destruct (negb (r_ok r) || negb (r_has_body r)).
    + (* the response is not usable *)
      unfold bind, response_text.
      destruct (r_text r) as [text|e]; unfold ret, throw;
        rewrite sendToServer_run;
        destruct w as [so cm fl uc tr]; unfold advance, emit; simpl;
        rewrite !Nat.add_0_r, <- app_assoc; reflexivity.
    + (* the relay loop *)
      fold (targetPosition_of payload). rewrite relay_run.
      destruct (r_end r) as [|e].
      * destruct w as [so cm fl uc tr]. unfold advance, emit. simpl.
        rewrite !Nat.add_0_r, <- app_assoc. reflexivity.
      * rewrite sendToServer_run.
        destruct w as [so cm fl uc tr]. unfold advance, emit, send_events.
        simpl. rewrite !Nat.add_0_r, <- !app_assoc, app_nil_r, map_app.
        reflexivity.
Qed.

(** A request that passes the two checks: three identifiers, one per
    template, one call of the real [fetch] with the flag set, the
    frames of the response, the flag cleared. *)
Lemma execute_valid (requestId : string) (payload : Payload) (w : World)
    (session_id : string) (templates : list MessageTemplate) :
  truthy (Data.session_id payload) = Some session_id ->
  message_templates payload = Some templates ->
  templates <> [] ->
  let args := request_args entropy session_id (uuidCalls w) templates in
  executeFetchAndStreamBack requestId payload w =
  (advance false (3 + List.length templates)
     (RealFetch args
      :: send_events (socketOpen w) requestId
           (response_data (targetPosition_of payload)
              (network (real_fetches (trace w)) args))) w,
   Normal tt).
Proof.
  intros Hs Ht Hne args. unfold Bridge.executeFetchAndStreamBack.
  rewrite Hs, Ht. destruct templates as [|t0 ts]; [contradiction|].
  unfold bind at 1. unfold newUUIDv7 at 1.
  unfold bind at 1. unfold newUUIDv7 at 1.
  unfold bind at 1. unfold newUUIDv7 at 1.
  unfold bind at 1. rewrite buildMessages_run.
  unfold bind at 1. unfold modify at 1.
  rewrite try_statement_run by reflexivity.
  destruct w as [so cm fl uc tr]. unfold advance, tick_uuid, args,
    request_args, body_from. simpl.
  rewrite app_nil_r. do 3 f_equal. lia.
Qed.

(** A request that fails a check: the error, the sentinel, nothing
    else. *)
Lemma execute_invalid (requestId : string) (payload : Payload) (w : World) :
  truthy (session_id payload) = None
  \/ message_templates payload = None
  \/ message_templates payload = Some [] ->
  exists message,
    executeFetchAndStreamBack requestId payload w =
    (advance (isApiBridgeRequest w) 0
       (send_events (socketOpen w) requestId [DError message; DONE]) w,
     Normal tt).
Proof.
  intros H. unfold Bridge.executeFetchAndStreamBack.
  assert (Hrun : forall message,
    (sendToServer requestId (DError message) ;; sendToServer requestId DONE)%js w
    = (advance (isApiBridgeRequest w) 0
         (send_events (socketOpen w) requestId [DError message; DONE]) w,
       Normal tt)).
  { intros message. unfold bind. rewrite !sendToServer_run.
    rewrite advance_advance. reflexivity. }
  destruct (truthy (session_id payload)) as [sid|].
  - destruct H as [H|[H|H]]; [discriminate| |]; rewrite H;
      exists errNoMessages; apply Hrun.
  - exists errNoSession. apply Hrun.
Qed.

End Facts.

End ExecutorFacts.

(** ** The claims about the demultiplexer *)

Module DemuxClaims.

Import Str Demux Obs DemuxFacts Samples.

(** The specification's example: for the chunk [a0:"x"\nb0:"y"\nbd:{"z":1}\n]
    and target [b] the output is [b0:"y"\nbd:{"z":1}\n], and the
    demultiplexer as the specification words it agrees. *)
Lemma example_chunk :
  filterStreamByTarget chunk_example "b" = Some chunk_example_b
  /\ DemuxSpec.demultiplex chunk_example "b" = Some chunk_example_b.
Proof. split; reflexivity. Qed.

(** C3, at the input where the code leaves the claim.  The chunk holds
    one record, of participant [a], whose text quotes [b0:x].  No record
    has [b0] or [bd] as its leading two characters, so the demultiplexer
    of the specification returns nothing for target [b]; the script
    returns the tail of the [a] record from the quoted [b0:] on. *)
Theorem filter_target_b_on_a_record :
  DemuxSpec.records chunk_a_quotes_b = ["a0:" ++ dq ++ "b0:x" ++ dq]
  /\ DemuxSpec.demultiplex chunk_a_quotes_b "b" = None
  /\ filterStreamByTarget chunk_a_quotes_b "b" = Some ("b0:x" ++ dq ++ nl).
Proof. repeat split; reflexivity. Qed.

(** C9, at the input where the code leaves the claim.  The chunk
    contains only a [b]-tagged record, yet target [a] yields a non-empty
    result: the text of the [b] record from the quoted [a0:] on. *)
Theorem filter_target_a_on_b_only_chunk :
  DemuxSpec.only_tagged "b" chunk_b_quotes_a = true
  /\ filterStreamByTarget chunk_b_quotes_a "b" = Some chunk_b_quotes_a
  /\ filterStreamByTarget chunk_b_quotes_a "a" = Some ("a0:x" ++ dq ++ nl).
Proof. repeat split; reflexivity. Qed.

(** C10: the pattern is not anchored to the start of a line.  When a
    record of the other participant carries [{target}0:] or [{target}d:]
    inside its payload, the filter returns the text from that place to
    the end of the line, although the line is a record of the other
    participant and not one of the target. *)
Theorem filter_matches_mid_line (t other marker : ascii) (payload : string) :
  (t = "a"%char /\ other = "b"%char) \/ (t = "b"%char /\ other = "a"%char) ->
  marker = "0"%char \/ marker = "d"%char ->
  one_line payload = true ->
  let found := String t (String marker (":" ++ payload)) in
  let record := String other ("0:" ++ dq ++ found) in
  filterStreamByTarget (record ++ nl) t = Some (found ++ nl)
  /\ DemuxSpec.tagged_record other record = true
  /\ DemuxSpec.tagged_record t record = false.
Proof.
  intros Ht Hm Hp found record.
  assert (Hfound : matchAll t false (found ++ nl) = [found]).
  { change (found ++ nl) with (found ++ nl ++ EmptyString).
    rewrite matchAll_line; [reflexivity| |].
    - destruct Ht as [[-> _]|[-> _]]; discriminate.
    - unfold is_match, found.
      destruct Ht as [[-> _]|[-> _]], Hm as [-> | ->]; simpl; exact Hp. }
  split; [|split].
  - unfold filterStreamByTarget.
    assert (Hscan : matchAll t false (record ++ nl)
                    = matchAll t false (found ++ nl)).
    { destruct Ht as [[-> ->]|[-> ->]]; reflexivity. }
    rewrite Hscan, Hfound. reflexivity.
  - destruct Ht as [[_ ->]|[_ ->]]; reflexivity.
  - destruct Ht as [[-> ->]|[-> ->]]; reflexivity.
Qed.

Lemma filter_matches_mid_line_witness :
  filterStreamByTarget chunk_a_quotes_b "b" = Some ("b0:x" ++ dq ++ nl)
  /\ DemuxSpec.tagged_record "a" ("a0:" ++ dq ++ "b0:x" ++ dq) = true
  /\ DemuxSpec.tagged_record "b" ("a0:" ++ dq ++ "b0:x" ++ dq) = false.
Proof.
  apply (filter_matches_mid_line "b" "a" "0" ("x" ++ dq)).
  - right. split; reflexivity.
  - left. reflexivity.
  - reflexivity.
Defined.

End DemuxClaims.

(** ** The claims about the interceptor *)

Module InterceptClaims.

Import Str Data Js Uuid Bridge Obs Samples InterceptFacts ExecutorFacts.

Section Claims.

Variable entropy : nat -> Entropy.
Variable network : nat -> list Arg -> FetchOutcome.
Variable pageSource : string.

Abbreviation originalFetch := (originalFetch network).
Abbreviation window_fetch := (window_fetch network).
Abbreviation executeFetchAndStreamBack :=
  (executeFetchAndStreamBack entropy network).
Abbreviation onmessage := (onmessage entropy network pageSource).
Abbreviation handle := (handle entropy network pageSource).
Abbreviation run := (run entropy network pageSource).

Lemma added_emit (e : Event) (w : World) : added w (emit e w) = [e].
Proof. unfold added, emit. simpl. apply skipn_app_exact. Qed.

(** The request executor never touches capture mode. *)
Lemma execute_keeps_capture (requestId : string) (payload : Payload)
    (w : World) :
  isCaptureModeActive (exec (executeFetchAndStreamBack requestId payload) w)
  = isCaptureModeActive w.
Proof.
  unfold exec.
  destruct (truthy (session_id payload)) as [sid|] eqn:Hs.
  - destruct (message_templates payload) as [[|t0 ts]|] eqn:Ht.
    + destruct (execute_invalid entropy network requestId payload w) as [m ->];
        [right; right; exact Ht | reflexivity].
    + rewrite (execute_valid entropy network requestId payload w sid
                 (t0 :: ts) Hs Ht); [reflexivity | discriminate].
    + destruct (execute_invalid entropy network requestId payload w) as [m ->];
        [right; left; exact Ht | reflexivity].
  - destruct (execute_invalid entropy network requestId payload w) as [m ->];
      [left; exact Hs | reflexivity].
Qed.

(** While capture mode is off, only the arming command turns it on. *)
Lemma handle_keeps_disarmed (e : PageEvent) (w : World) :
  rearms e = false ->
  isCaptureModeActive w = false ->
  isCaptureModeActive (handle e w) = false.
Proof.
  intros Hre Hoff. destruct e as [| |m|args|o]; cbn [Bridge.handle].
  - exact Hoff.
  - exact Hoff.
  - unfold Bridge.onmessage, try_catch_log, exec.
    destruct m as [|command request_id payload]; [exact Hoff|].
    destruct (truthy command) as [cmd|] eqn:Hc.
    + assert (Hcmd : command = Some cmd).
      { destruct command as [[|c s]|]; inversion Hc; reflexivity. }
      subst command. cbn [rearms] in Hre.
      destruct (String.eqb cmd "refresh" || String.eqb cmd "reconnect");
        [reflexivity|].
      rewrite Hre.
      destruct (String.eqb cmd "send_page_source"); [|exact Hoff].
      unfold sendPageSource, try_catch_log, await, bind.
      rewrite window_fetch_plain by (right; right; exact Hoff).
      rewrite originalFetch_run.
      destruct (network (real_fetches (trace w)) _); exact Hoff.
    + destruct (truthy request_id) as [rid|]; [|exact Hoff].
      destruct payload as [payload|]; [|exact Hoff].
      pose proof (execute_keeps_capture rid payload w) as H.
      unfold exec in H.
      destruct (Bridge.executeFetchAndStreamBack entropy network rid payload w)
        as [w1 c]. simpl in *. congruence.
  - unfold exec. rewrite window_fetch_plain by (right; right; exact Hoff).
    exact Hoff.
  - destruct o; exact Hoff.
Qed.

Lemma run_keeps_disarmed (es : list PageEvent) (w : World) :
  forallb (fun e => negb (rearms e)) es = true ->
  isCaptureModeActive w = false ->
  isCaptureModeActive (run es w) = false.
Proof.
  revert w. induction es as [|e es IH]; intros w Hes Hoff; [exact Hoff|].
  cbn [forallb] in Hes. apply andb_prop in Hes as [He Hes].
  apply negb_true_iff in He.
  unfold Bridge.run. cbn [fold_left]. apply IH; [exact Hes|].
  apply handle_keeps_disarmed; assumption.
Qed.

(** C5: a call flagged as the bridge's own is never captured, even
    while capture mode is armed and the URL has the shape of a retry:
    the wrapper does exactly what the real [fetch] does, so no session
    identifier is taken, capture mode stays as it was and no delivery
    is attempted. *)
Theorem flagged_call_never_captured (args : list Arg) (w : World) :
  isApiBridgeRequest w = true ->
  window_fetch args w = originalFetch args w
  /\ isCaptureModeActive (exec (window_fetch args) w) = isCaptureModeActive w
  /\ added w (exec (window_fetch args) w) = [RealFetch args].
Proof.
  intros Hflag. unfold exec.
  rewrite window_fetch_plain by (right; left; exact Hflag).
  rewrite originalFetch_run. cbn [fst].
  repeat split. apply added_emit.
Qed.

(** C6: the first matching call observed while capture mode is armed
    switches capture mode off before the delivery is issued; from then
    on, whatever happens on the page short of the arming command
    (matching calls, requests, deliveries that settle, failed ones
    included), capture mode stays off and every observed call is a
    plain forward; the command [activate_id_capture] arms it again. *)
Theorem capture_once_per_activation (args : list Arg) (w : World)
    (sid g2 : string) :
  isCaptureModeActive w = true ->
  isApiBridgeRequest w = false ->
  RetryUrl.url_match (urlString_of args) = Some (sid, g2) ->
  let w1 := exec (window_fetch args) w in
  w1 = exec (originalFetch args)
         (exec (originalFetch (update_args sid))
            (set_isCaptureModeActive false w))
  /\ added w w1 = [RealFetch (update_args sid); RealFetch args]
  /\ isCaptureModeActive w1 = false
  /\ (forall o, isCaptureModeActive (exec (delivery_settled o) w1) = false)
  /\ (forall es,
        forallb (fun e => negb (rearms e)) es = true ->
        isCaptureModeActive (run es w1) = false
        /\ forall args',
             handle (PageFetch args') (run es w1)
             = exec (originalFetch args') (run es w1))
  /\ (forall es request_id payload,
        isCaptureModeActive
          (handle
             (SocketMessage
                (Parsed (Some "activate_id_capture") request_id payload))
             (run es w1)) = true).
Proof.
  intros Harmed Hflag Hmatch w1.
  assert (Hw1 : w1 = exec (originalFetch args)
                       (exec (originalFetch (update_args sid))
                          (set_isCaptureModeActive false w))).
  { unfold w1, exec.
    rewrite (window_fetch_capture network args w sid g2 Hmatch Hflag Harmed).
    reflexivity. }
  assert (Hoff : isCaptureModeActive w1 = false) by (rewrite Hw1; reflexivity).
  split; [exact Hw1|]. split; [|split; [exact Hoff|split; [|split]]].
  - rewrite Hw1. unfold added, exec, Bridge.originalFetch, emit. simpl.
    rewrite <- app_assoc. apply skipn_app_exact.
  - intros o. destruct o; exact Hoff.
  - intros es Hes.
    pose proof (run_keeps_disarmed es w1 Hes Hoff) as Hrun.
    split; [exact Hrun|]. intros args'. cbn [Bridge.handle]. unfold exec.
    rewrite window_fetch_plain by (right; right; exact Hrun). reflexivity.
  - intros es request_id payload. reflexivity.
Qed.

(** C7: the wrapper is transparent.  Whatever the arguments, the flag
    and capture mode, the call ends with the real [fetch] applied to
    the very same arguments, and what that call returns is returned;
    before it the wrapper does nothing, or, when it captures, switches
    capture mode off and issues the delivery. *)
Theorem wrapper_forwards_unchanged (args : list Arg) (w : World) :
  exists w0,
    window_fetch args w = originalFetch args w0
    /\ (w0 = w
        \/ exists sid,
             w0 = exec (originalFetch (update_args sid))
                    (set_isCaptureModeActive false w))
    /\ snd (window_fetch args w)
       = Normal (network (real_fetches (trace w0)) args)
    /\ trace (exec (window_fetch args) w) = (trace w0 ++ [RealFetch args])%list.
Proof.
  destruct (RetryUrl.url_match (urlString_of args)) as [[sid g2]|] eqn:Hm.
  - destruct (isApiBridgeRequest w) eqn:Hf.
    + exists w. unfold exec.
      rewrite window_fetch_plain by (right; left; exact Hf).
      repeat split. left. reflexivity.
    + destruct (isCaptureModeActive w) eqn:Hc.
      * exists (exec (originalFetch (update_args sid))
                  (set_isCaptureModeActive false w)).
        pose proof (window_fetch_capture network args w sid g2 Hm Hf Hc)
          as Hcap.
        unfold exec. unfold exec in Hcap. rewrite Hcap.
        repeat split. right. exists sid. reflexivity.
      * exists w. unfold exec.
        rewrite window_fetch_plain by (right; right; exact Hc).
        repeat split. left. reflexivity.
  - exists w. unfold exec. rewrite window_fetch_plain by (left; exact Hm).
    repeat split. left. reflexivity.
Qed.

End Claims.

Lemma capture_once_per_activation_witness :
  isCaptureModeActive armed = true
  /\ isApiBridgeRequest armed = false
  /\ RetryUrl.url_match (urlString_of [AString retry_url])
     = Some ("0a1b-2c", "3d4e-5f")
  /\ let w1 := exec (window_fetch network0 [AString retry_url]) armed in
     w1 = exec (originalFetch network0 [AString retry_url])
            (exec (originalFetch network0 (update_args "0a1b-2c"))
               (set_isCaptureModeActive false armed))
     /\ added armed w1
        = [RealFetch (update_args "0a1b-2c"); RealFetch [AString retry_url]]
     /\ isCaptureModeActive w1 = false
     /\ (forall o, isCaptureModeActive (exec (delivery_settled o) w1) = false)
     /\ (forall es,
           forallb (fun e => negb (rearms e)) es = true ->
           isCaptureModeActive (run entropy0 network0 EmptyString es w1) = false
           /\ forall args',
                handle entropy0 network0 EmptyString (PageFetch args')
                  (run entropy0 network0 EmptyString es w1)
                = exec (originalFetch network0 args')
                    (run entropy0 network0 EmptyString es w1))
     /\ (forall es request_id payload,
           isCaptureModeActive
             (handle entropy0 network0 EmptyString
                (SocketMessage
                   (Parsed (Some "activate_id_capture") request_id payload))
                (run entropy0 network0 EmptyString es w1)) = true).
Proof.
  split; [reflexivity|]. split; [reflexivity|].
  split; [vm_compute; reflexivity|].
  apply (capture_once_per_activation entropy0 network0 EmptyString
           [AString retry_url] armed "0a1b-2c" "3d4e-5f").
  - reflexivity.
  - reflexivity.
  - vm_compute. reflexivity.
Defined.

Lemma flagged_call_never_captured_witness :
  isCaptureModeActive armed_flagged = true
  /\ RetryUrl.url_match (urlString_of [AString retry_url])
     = Some ("0a1b-2c", "3d4e-5f")
  /\ window_fetch network0 [AString retry_url] armed_flagged
     = originalFetch network0 [AString retry_url] armed_flagged
  /\ isCaptureModeActive (exec (window_fetch network0 [AString retry_url])
                            armed_flagged)
     = isCaptureModeActive armed_flagged
  /\ added armed_flagged
       (exec (window_fetch network0 [AString retry_url]) armed_flagged)
     = [RealFetch [AString retry_url]].
Proof.
  split; [reflexivity|]. split; [vm_compute; reflexivity|].
  apply (flagged_call_never_captured network0 [AString retry_url]
           armed_flagged).
  reflexivity.
Defined.

End InterceptClaims.

(** ** The claims about the request executor *)

Module ExecutorClaims.

Import Str Demux Data Js Uuid Bridge Obs Measures Samples.
Import DemuxFacts ExecutorFacts.

Lemma emitted_send_events (open : bool) (requestId : string) (ds : list Data) :
  emitted (send_events open requestId ds) = map (mkFrame requestId) ds.
Proof.
  induction ds as [|d ds IH]; [reflexivity|].
  cbn [send_events map]. unfold sendEvent at 1.
  destruct open; cbn [emitted]; f_equal; exact IH.
Qed.

Lemma written_send_events (requestId : string) (ds : list Data) :
  written (send_events true requestId ds) = map (mkFrame requestId) ds.
Proof.
  induction ds as [|d ds IH]; [reflexivity|].
  cbn [send_events map sendEvent written]. f_equal. exact IH.
Qed.

Lemma fetched_send_events (open : bool) (requestId : string) (ds : list Data) :
  fetched (send_events open requestId ds) = [].
Proof.
  induction ds as [|d ds IH]; [reflexivity|].
  cbn [send_events map]. unfold sendEvent at 1.
  destruct open; cbn [fetched]; exact IH.
Qed.

(** A forwarded chunk is never the sentinel. *)
Lemma relay_texts_plain (t : ascii) (chunks : list string) :
  forallb (fun x => negb (String.eqb x "[DONE]")) (relay_texts t chunks) = true.
Proof.
  induction chunks as [|chunk rest IH]; [reflexivity|].
  unfold relay_texts in *. cbn [flat_map]. rewrite forallb_app, IH, andb_true_r.
  destruct (filterStreamByTarget chunk t) as [[|c x]|] eqn:E; try reflexivity.
  cbn [forallb]. rewrite andb_true_r. apply negb_true_iff.
  apply String.eqb_neq. exact (filter_not_done _ _ _ E).
Qed.

(** What the executor sends for a settled call: forwarded chunks, then
    one frame that is the sentinel or an error. *)
Lemma response_data_shape (t : ascii) (o : FetchOutcome) :
  exists texts last,
    response_data t o = (map DText texts ++ [last])%list
    /\ forallb (fun x => negb (String.eqb x "[DONE]")) texts = true
    /\ (last = DONE \/ exists message, last = DError message).
Proof.
  destruct o as [e|r]; cbn [response_data].
  - exists [], (DError e). repeat split. right. now exists e.
  - destruct (negb (r_ok r) || negb (r_has_body r)).
    + destruct (r_text r) as [text|e].
      * exists [], (DError (errBadResponse (r_status r) text)).
        repeat split. right. eexists. reflexivity.
      * exists [], (DError e). repeat split. right. now exists e.
    + exists (relay_texts t (r_chunks r)).
      destruct (r_end r) as [|e].
      * exists DONE. split; [reflexivity|]. split; [apply relay_texts_plain|].
        left. reflexivity.
      * exists (DError e). split; [reflexivity|].
        split; [apply relay_texts_plain|]. right. now exists e.
Qed.

Section Frames.

Variable requestId : string.
Variable texts : list string.
Variable last : Data.
Hypothesis texts_plain :
  forallb (fun x => negb (String.eqb x "[DONE]")) texts = true.
Hypothesis last_terminal : last = DONE \/ exists message, last = DError message.

Abbreviation body := (text_frames requestId texts).
Abbreviation final := (mkFrame requestId last).

Lemma body_not_terminal :
  forallb (fun f => negb (is_terminal f)) body = true.
Proof.
  unfold text_frames. clear last_terminal. induction texts as [|x xs IH];
    [reflexivity|].
  cbn [forallb map] in *. apply andb_prop in texts_plain as [Hx Hxs].
  rewrite (IH Hxs), andb_true_r. unfold is_terminal, is_done, is_error.
  cbn [data]. rewrite orb_false_r. exact Hx.
Qed.

Lemma final_terminal : is_terminal final = true.
Proof.
  unfold is_terminal, is_done, is_error.
  destruct last_terminal as [->|[message ->]]; reflexivity.
Qed.

Lemma count_none {A} (p : A -> bool) (l : list A) :
  forallb (fun x => negb (p x)) l = true -> filter p l = [].
Proof.
  induction l as [|x l IH]; [reflexivity|]. cbn [forallb filter].
  intros H. apply andb_prop in H as [Hx Hl]. apply negb_true_iff in Hx.
  rewrite Hx. exact (IH Hl).
Qed.

Lemma body_no_done : forallb (fun f => negb (is_done f)) body = true.
Proof.
  pose proof body_not_terminal as H. induction body as [|f fs IH];
    [reflexivity|].
  cbn [forallb] in *. apply andb_prop in H as [Hf Hfs].
  rewrite (IH Hfs), andb_true_r. unfold is_terminal in Hf.
  apply negb_true_iff in Hf. apply orb_false_elim in Hf as [Hf _].
  now rewrite Hf.
Qed.

Lemma body_no_error : forallb (fun f => negb (is_error f)) body = true.
Proof.
  pose proof body_not_terminal as H. induction body as [|f fs IH];
    [reflexivity|].
  cbn [forallb] in *. apply andb_prop in H as [Hf Hfs].
  rewrite (IH Hfs), andb_true_r. unfold is_terminal in Hf.
  apply negb_true_iff in Hf. apply orb_false_elim in Hf as [_ Hf].
  now rewrite Hf.
Qed.

Lemma frames_one_terminal : count is_terminal (body ++ [final])%list = 1.
Proof.
  unfold count. rewrite filter_app, (count_none _ _ body_not_terminal).
  cbn [filter app]. now rewrite final_terminal.
Qed.

Lemma frames_at_most_one_done : count is_done (body ++ [final])%list <= 1.
Proof.
  unfold count. rewrite filter_app, (count_none _ _ body_no_done).
  cbn [filter app]. destruct (is_done final); simpl; lia.
Qed.

Lemma frames_no_done_after_error : done_after_error (body ++ [final])%list = false.
Proof.
  pose proof body_no_error as H. induction body as [|f fs IH].
  - cbn. now rewrite andb_false_r.
  - cbn [forallb] in H. apply andb_prop in H as [Hf Hfs].
    apply negb_true_iff in Hf. cbn [app done_after_error].
    rewrite Hf, (IH Hfs). reflexivity.
Qed.

Lemma frames_same_request :
  Forall (fun f => request_id f = requestId)
    (map (mkFrame requestId) (map DText texts ++ [last])).
Proof. apply Forall_forall. intros f Hf. apply in_map_iff in Hf as [d [<- _]].
  reflexivity. Qed.

End Frames.

Lemma messages_from_ids (entropy : nat -> Entropy) (session_id : string)
    (k : nat) (templates : list MessageTemplate) :
  map m_id (messages_from entropy session_id k templates)
  = identifiers entropy k (List.length templates).
Proof.
  revert k. induction templates as [|template rest IH]; intros k;
    [reflexivity|].
  cbn [messages_from map List.length]. unfold identifiers in *.
  cbn [seq map]. f_equal. apply IH.
Qed.

Lemma body_from_ids (entropy : nat -> Entropy) (session_id : string)
    (k : nat) (templates : list MessageTemplate) :
  body_ids (body_from entropy session_id k templates)
  = identifiers entropy k (List.length templates + 3).
Proof.
  unfold body_ids, body_from. cbn [b_userMessageId b_modelAMessageId
    b_modelBMessageId b_messages]. rewrite messages_from_ids.
  rewrite Nat.add_comm. unfold identifiers. reflexivity.
Qed.

Lemma written_send_events_closed (requestId : string) (ds : list Data) :
  written (send_events false requestId ds) = [].
Proof.
  induction ds as [|d ds IH]; [reflexivity|].
  cbn [send_events map sendEvent written]. exact IH.
Qed.

Lemma existsb_none {A} (p : A -> bool) (l : list A) :
  forallb (fun x => negb (p x)) l = true -> existsb p l = false.
Proof.
  induction l as [|x l IH]; [reflexivity|]. cbn [forallb existsb].
  intros H. apply andb_prop in H as [Hx Hl]. apply negb_true_iff in Hx.
  now rewrite Hx, IH.
Qed.

(** The [finally] block runs on every way out of the [try] statement. *)
Lemma finally_clears_flag {A} (body : M A) (handler : string -> M A)
    (w : World) :
  isApiBridgeRequest
    (exec (try_catch_finally body handler (set_isApiBridgeRequest false)) w)
  = false.
Proof.
  unfold exec, try_catch_finally. destruct (body w) as [w1 [a|e]];
    [reflexivity|].
  destruct (handler e w1) as [w2 c]. reflexivity.
Qed.

Section Claims.

Variable entropy : nat -> Entropy.
Variable network : nat -> list Arg -> FetchOutcome.

Abbreviation executeFetchAndStreamBack :=
  (executeFetchAndStreamBack entropy network).


(** C4: a request whose session id is empty or absent, or whose
    templates are absent or empty, hands an error frame and then the
    sentinel to [sendToServer], and that is all it does: no call of
    [fetch], no identifier generated, no state changed, and the
    executor returns.  With the socket open the two frames are written
    to it. *)
Theorem preflight_failure (requestId : string) (payload : Payload)
    (w : World) :
  truthy (session_id payload) = None
  \/ message_templates payload = None
  \/ message_templates payload = Some [] ->
  let w' := exec (executeFetchAndStreamBack requestId payload) w in
  exists message,
    emitted (added w w')
    = [mkFrame requestId (DError message); mkFrame requestId DONE]
    /\ added w w'
       = send_events (socketOpen w) requestId [DError message; DONE]
    /\ fetched (added w w') = []
    /\ generated w w' = 0
    /\ snd (executeFetchAndStreamBack requestId payload w) = Normal tt
    /\ isApiBridgeRequest w' = isApiBridgeRequest w
    /\ isCaptureModeActive w' = isCaptureModeActive w
    /\ (socketOpen w = true ->
        written (added w w')
        = [mkFrame requestId (DError message); mkFrame requestId DONE]).
Proof.
  intros H w'. unfold w', exec.
  destruct (execute_invalid entropy network requestId payload w H)
    as [message ->].
  exists message. cbn [fst snd]. rewrite added_advance.
  rewrite emitted_send_events, fetched_send_events.
  repeat split.
  - unfold generated, advance. cbn [uuidCalls]. lia.
  - intros ->. apply written_send_events.
Qed.

(** C8: a request that reaches the submission enters the [try]
    statement, whose first action is the call of [fetch], with the flag
    set; the call is the only one the request makes; and whatever the
    outcome (a clean end, a response that is not usable, a rejected call
    or a failed read) the flag is false when the executor is done. *)
Theorem flag_set_then_cleared (requestId : string) (payload : Payload)
    (w : World) (session_id : string) (templates : list MessageTemplate) :
  truthy (Data.session_id payload) = Some session_id ->
  message_templates payload = Some templates ->
  templates <> [] ->
  let apiUrl := "/nextjs-api/stream/post-to-evaluation/" ++ session_id in
  let body := body_from entropy session_id (uuidCalls w) templates in
  let w' := exec (executeFetchAndStreamBack requestId payload) w in
  (exists w1,
     isApiBridgeRequest w1 = true
     /\ executeFetchAndStreamBack requestId payload w
        = try_catch_finally
            (submitAndRelay network requestId payload apiUrl "POST" body)
            (fun message => sendToServer requestId (DError message))
            (set_isApiBridgeRequest false) w1)
  /\ fetched (added w w') = [evaluation_args apiUrl "POST" body]
  /\ isCaptureModeActive w' = isCaptureModeActive w
  /\ isApiBridgeRequest w' = false.
Proof.
  intros Hs Ht Hne apiUrl body w'.
  pose proof (execute_valid entropy network requestId payload w session_id
                templates Hs Ht Hne) as Hrun. cbv zeta in Hrun.
  split.
  - exists (advance true (3 + List.length templates) [] w).
    split; [reflexivity|].
    rewrite Hrun, try_statement_run by reflexivity.
    destruct w as [so cm fl uc tr]. unfold advance. cbn.
    rewrite Nat.add_0_r, app_nil_r. reflexivity.
  - unfold w', exec. rewrite Hrun. cbn [fst]. rewrite added_advance.
    cbn [fetched]. rewrite fetched_send_events. repeat split.
Qed.

End Claims.

(** C1 as the specification states it fails: a request with one
    template makes four calls of the generator, not [1 + 2]. *)
Lemma identifiers_not_len_plus_two :
  truthy (session_id payload0) = Some "s-1"
  /\ message_templates payload0 = Some [template0]
  /\ generated initial
       (exec (executeFetchAndStreamBack entropy0 network0 "r-1" payload0)
          initial) = 4
  /\ generated initial
       (exec (executeFetchAndStreamBack entropy0 network0 "r-1" payload0)
          initial) <> List.length [template0] + 2.
Proof.
  split; [reflexivity|]. split; [reflexivity|].
  split; [vm_compute; reflexivity | vm_compute; discriminate].
Qed.

(** The identifiers are as distinct as the clock and the random source
    make them: when both repeat, so do the identifiers. *)
Lemma identifiers_repeat_with_entropy :
  ~ NoDup (body_ids (body_from entropy_stuck "s-1" 0 [template0])).
Proof.
  intros H. inversion H as [|x l Hin _]. apply Hin. left. reflexivity.
Qed.


Lemma preflight_failure_witness :
  message_templates payload_no_templates = Some []
  /\ let w' :=
       exec (executeFetchAndStreamBack entropy0 network0 "r-1"
               payload_no_templates) armed in
     exists message,
       emitted (added armed w')
       = [mkFrame "r-1" (DError message); mkFrame "r-1" DONE]
       /\ added armed w'
          = send_events (socketOpen armed) "r-1" [DError message; DONE]
       /\ fetched (added armed w') = []
       /\ generated armed w' = 0
       /\ snd (executeFetchAndStreamBack entropy0 network0 "r-1"
                 payload_no_templates armed) = Normal tt
       /\ isApiBridgeRequest w' = isApiBridgeRequest armed
       /\ isCaptureModeActive w' = isCaptureModeActive armed
       /\ (socketOpen armed = true ->
           written (added armed w')
           = [mkFrame "r-1" (DError message); mkFrame "r-1" DONE]).
Proof.
  split; [reflexivity|].
  apply (preflight_failure entropy0 network0 "r-1" payload_no_templates armed).
  right. right. reflexivity.
Defined.

Lemma flag_set_then_cleared_witness :
  truthy (session_id payload0) = Some "s-1"
  /\ message_templates payload0 = Some [template0]
  /\ [template0] <> []
  /\ let apiUrl := "/nextjs-api/stream/post-to-evaluation/" ++ "s-1" in
     let body := body_from entropy0 "s-1" (uuidCalls armed) [template0] in
     let w' :=
       exec (executeFetchAndStreamBack entropy0 network0 "r-1" payload0)
         armed in
     (exists w1,
        isApiBridgeRequest w1 = true
        /\ executeFetchAndStreamBack entropy0 network0 "r-1" payload0 armed
           = try_catch_finally
               (submitAndRelay network0 "r-1" payload0 apiUrl "POST" body)
               (fun message => sendToServer "r-1" (DError message))
               (set_isApiBridgeRequest false) w1)
     /\ fetched (added armed w') = [evaluation_args apiUrl "POST" body]
     /\ isCaptureModeActive w' = isCaptureModeActive armed
     /\ isApiBridgeRequest w' = false.
Proof.
  split; [reflexivity|]. split; [reflexivity|]. split; [discriminate|].
  apply (flag_set_then_cleared entropy0 network0 "r-1" payload0 armed
           "s-1" [template0]).
  - reflexivity.
  - reflexivity.
  - discriminate.
Defined.

End ExecutorClaims.

(** ** More about the demultiplexer *)

Module DemuxMore.

Import Str Demux Obs Measures DemuxFacts.

Lemma tag_not_newline (t : ascii) : participant_tag t -> t <> newline.
Proof. intros [-> | ->]; discriminate. Qed.

Lemma lines_app_newline (x y : string) :
  lines (x ++ String newline y) = (lines x ++ lines y)%list.
Proof.
  induction x as [|c x IH]; [reflexivity|].
  cbn [append lines]. destruct (Ascii.eqb c newline).
  - now rewrite IH.
  - rewrite IH. pose proof (lines_not_nil x) as Hne.
    destruct (lines x) as [|l ls]; [contradiction|]. reflexivity.
Qed.

Lemma matchAll_flat (t : ascii) (s : string) :
  t <> newline ->
  matchAll t false s = flat_map (matchAll t false) (lines s).
Proof.
  intros Ht. rewrite (matchAll_lines _ _ Ht).
  pose proof (lines_not_nil s) as Hne.
  destruct (lines s) as [|l ls]; [contradiction|]. reflexivity.
Qed.

Lemma unlines_app (a b : list string) :
  unlines (a ++ b) = unlines a ++ unlines b.
Proof.
  induction a as [|m a IH]; [reflexivity|].
  cbn [app unlines]. now rewrite IH, !append_assoc.
Qed.

Lemma text_of_filter (chunk : string) (t : ascii) :
  text_of (filterStreamByTarget chunk t) = unlines (matchAll t false chunk).
Proof.
  unfold filterStreamByTarget.
  destruct (matchAll t false chunk) as [|m ms]; [reflexivity|].
  cbn [text_of]. apply join_unlines.
Qed.

Lemma matchAll_app_newline (t : ascii) (x y : string) :
  t <> newline ->
  matchAll t false (x ++ String newline y)
  = (matchAll t false x ++ matchAll t false y)%list.
Proof.
  intros Ht. rewrite !(matchAll_flat _ _ Ht), lines_app_newline.
  apply flat_map_app.
Qed.

Lemma text_of_filter_app_newline (t : ascii) (x y : string) :
  t <> newline ->
  text_of (filterStreamByTarget (x ++ nl ++ y) t)
  = text_of (filterStreamByTarget x t) ++ text_of (filterStreamByTarget y t).
Proof.
  intros Ht. rewrite !text_of_filter.
  change (x ++ nl ++ y) with (x ++ String newline y).
  rewrite (matchAll_app_newline _ _ _ Ht). apply unlines_app.
Qed.

(** For a target [a] or [b], filtering commutes with cutting the stream
    at a line boundary: the text forwarded for [x], a newline and [y] is
    the text forwarded for [x] followed by the text forwarded for [y]. *)
Theorem filter_cut_at_newline (t : ascii) (x y : string) :
  participant_tag t ->
  text_of (filterStreamByTarget (x ++ nl ++ y) t)
  = text_of (filterStreamByTarget x t) ++ text_of (filterStreamByTarget y t).
Proof.
  intros Htag. pose proof (tag_not_newline t Htag) as Ht.
  rewrite !text_of_filter.
  change (x ++ nl ++ y) with (x ++ String newline y).
  rewrite (matchAll_app_newline _ _ _ Ht). apply unlines_app.
Qed.

Lemma filter_cut_at_newline_witness :
  participant_tag "b"
  /\ text_of (filterStreamByTarget (("b0:x" ++ nl ++ "a0:y") ++ nl ++ "bd:z") "b")
     = text_of (filterStreamByTarget ("b0:x" ++ nl ++ "a0:y") "b")
       ++ text_of (filterStreamByTarget "bd:z" "b").
Proof.
  split; [right; reflexivity|].
  apply (filter_cut_at_newline "b" ("b0:x" ++ nl ++ "a0:y") "bd:z").
  right. reflexivity.
Defined.

Lemma ends_line_cases (s : string) :
  ends_line s = true -> s = EmptyString \/ exists x, s = x ++ nl.
Proof.
  induction s as [|c s IH]; [now left|]. intros H. right.
  unfold ends_line in *. cbn [last_char] in H.
  destruct s as [|d s].
  - apply Ascii.eqb_eq in H. subst c. now exists EmptyString.
  - destruct (IH H) as [E|[x E]]; [discriminate|].
    exists (String c x). cbn [append]. now rewrite <- E.
Qed.

Lemma append_empty_r (s : string) : s ++ EmptyString = s.
Proof. induction s as [|c s IH]; [reflexivity|]. cbn. now rewrite IH. Qed.

Lemma relay_texts_cons (t : ascii) (chunk : string) (rest : list string) :
  concat_strings (relay_texts t (chunk :: rest))
  = text_of (filterStreamByTarget chunk t)
    ++ concat_strings (relay_texts t rest).
Proof.
  unfold relay_texts. cbn [flat_map].
  destruct (filterStreamByTarget chunk t) as [[|c s]|]; reflexivity.
Qed.

Lemma filter_empty (t : ascii) :
  filterStreamByTarget EmptyString t = None.
Proof. reflexivity. Qed.

Lemma relay_texts_of_lines (t : ascii) (chunks : list string) :
  t <> newline ->
  forallb ends_line chunks = true ->
  concat_strings (relay_texts t chunks)
  = text_of (filterStreamByTarget (concat_strings chunks) t).
Proof.
  intros Ht. induction chunks as [|chunk rest IH]; [reflexivity|].
  cbn [forallb]. intros H. apply andb_prop in H as [Hc Hrest].
  rewrite relay_texts_cons, (IH Hrest). cbn [concat_strings].
  destruct (ends_line_cases _ Hc) as [->|[x ->]]; [reflexivity|].
  rewrite append_assoc, (text_of_filter_app_newline _ _ _ Ht).
  assert (Hx : text_of (filterStreamByTarget (x ++ nl) t)
               = text_of (filterStreamByTarget x t)).
  { rewrite !text_of_filter.
    change (x ++ nl) with (x ++ String newline EmptyString).
    rewrite (matchAll_app_newline _ _ _ Ht). cbn [matchAll].
    now rewrite app_nil_r. }
  now rewrite Hx.
Qed.

(** For a target [a] or [b], when every chunk ends at a line boundary,
    relaying chunk by chunk forwards the same text as filtering the
    whole stream at once. *)
Theorem relay_of_whole_lines (t : ascii) (chunks : list string) :
  participant_tag t ->
  forallb ends_line chunks = true ->
  concat_strings (relay_texts t chunks)
  = text_of (filterStreamByTarget (concat_strings chunks) t).
Proof.
  intros Htag. pose proof (tag_not_newline t Htag) as Ht.
  induction chunks as [|chunk rest IH]; [reflexivity|].
  cbn [forallb]. intros H. apply andb_prop in H as [Hc Hrest].
  rewrite relay_texts_cons, (IH Hrest). cbn [concat_strings].
  destruct (ends_line_cases _ Hc) as [->|[x ->]]; [reflexivity|].
  rewrite append_assoc, (text_of_filter_app_newline _ _ _ Ht).
  assert (Hx : text_of (filterStreamByTarget (x ++ nl) t)
               = text_of (filterStreamByTarget x t)).
  { rewrite !text_of_filter.
    change (x ++ nl) with (x ++ String newline EmptyString).
    rewrite (matchAll_app_newline _ _ _ Ht). cbn [matchAll].
    now rewrite app_nil_r. }
  now rewrite Hx.
Qed.

Lemma relay_of_whole_lines_witness :
  participant_tag "b"
  /\ forallb ends_line ["b0:x" ++ nl ++ "a0:y" ++ nl; "bd:z" ++ nl] = true
  /\ concat_strings
       (relay_texts "b" ["b0:x" ++ nl ++ "a0:y" ++ nl; "bd:z" ++ nl])
     = text_of
         (filterStreamByTarget
            (concat_strings ["b0:x" ++ nl ++ "a0:y" ++ nl; "bd:z" ++ nl]) "b").
Proof.
  split; [right; reflexivity|]. split; [reflexivity|].
  apply (relay_of_whole_lines "b"
           ["b0:x" ++ nl ++ "a0:y" ++ nl; "bd:z" ++ nl]).
  - right. reflexivity.
  - reflexivity.
Defined.

(** For a target [a] or [b], a record cut after its head by the end of
    a chunk is forwarded cut: the part in the first chunk goes out as a
    whole line, and the part in the next chunk is dropped. *)
Theorem relay_cuts_split_record (t marker : ascii) (first second : string) :
  participant_tag t ->
  marker = "0"%char \/ marker = "d"%char ->
  one_line first = true ->
  one_line second = true ->
  head_occurs t second = false ->
  let head := String t (String marker ":") in
  relay_texts t [head ++ first; second ++ nl] = [head ++ first ++ nl]
  /\ filterStreamByTarget (head ++ first ++ second ++ nl) t
     = Some (head ++ first ++ second ++ nl).
Proof.
  intros Htag Hm H1 H2 Hno head.
  pose proof (tag_not_newline t Htag) as Ht.
  assert (Hnt : not_newline t = true).
  { unfold not_newline. destruct (Ascii.eqb_spec t newline);
      [contradiction|reflexivity]. }
  assert (Hnm : not_newline marker = true)
    by (destruct Hm as [-> | ->]; reflexivity).
  assert (Hhead : forall p, one_line p = true ->
            is_match t (head ++ p) = true).
  { intros p Hp. unfold is_match, head. cbn [append record_head one_line].
    rewrite Ascii.eqb_refl, Hnt, Hnm, Hp.
    destruct Hm as [-> | ->]; reflexivity. }
  assert (Hline : forall p, one_line p = true ->
            matchAll t false (head ++ p) = [head ++ p]).
  { intros p Hp. specialize (Hhead p Hp).
    apply andb_prop in Hhead as [Hh Hl].
    rewrite (matchAll_flat _ _ Ht).
    pose proof (matchAll_line t (head ++ p) EmptyString Ht) as E.
    rewrite (matchAll_flat _ _ Ht) in E.
    change (head ++ p ++ nl ++ EmptyString)
      with ((head ++ p) ++ String newline EmptyString) in E.
    assert (E' : ((head ++ p) ++ nl ++ EmptyString)
                 = (head ++ p) ++ String newline EmptyString) by reflexivity.
    rewrite E', lines_app_newline, flat_map_app in E.
    cbn [lines flat_map matchAll app] in E. rewrite app_nil_r in E.
    apply E. unfold is_match. now rewrite Hh, Hl. }
  assert (Hone : forall a b, one_line a = true -> one_line b = true ->
            one_line (a ++ b) = true).
  { intros a b Ha Hb. induction a as [|c a IH]; [exact Hb|].
    cbn [append one_line] in *. apply andb_prop in Ha as [Hc Ha].
    now rewrite Hc, IH. }
  split.
  - unfold relay_texts. cbn [flat_map]. unfold filterStreamByTarget.
    rewrite (Hline first H1).
    assert (E2 : matchAll t false (second ++ nl) = []).
    { change (second ++ nl) with (second ++ String newline EmptyString).
      rewrite (matchAll_app_newline _ _ _ Ht).
      now rewrite (matchAll_no_head _ _ Hno). }
    rewrite E2. cbn [join app]. unfold head. cbn [append]. reflexivity.
  - unfold filterStreamByTarget.
    assert (E : matchAll t false (head ++ first ++ second ++ nl)
                = [head ++ first ++ second]).
    { replace (head ++ first ++ second ++ nl)
        with ((head ++ first ++ second) ++ String newline EmptyString).
      - rewrite (matchAll_app_newline _ _ _ Ht), (Hline _ (Hone _ _ H1 H2)).
        reflexivity.
      - unfold nl. now rewrite !append_assoc. }
    rewrite E. cbn [join]. now rewrite !append_assoc.
Qed.

Lemma relay_cuts_split_record_witness :
  participant_tag "b"
  /\ one_line "hel" = true /\ one_line "lo" = true
  /\ head_occurs "b" "lo" = false
  /\ relay_texts "b" ["b0:" ++ "hel"; "lo" ++ nl] = ["b0:" ++ "hel" ++ nl]
  /\ filterStreamByTarget ("b0:" ++ "hel" ++ "lo" ++ nl) "b"
     = Some ("b0:" ++ "hel" ++ "lo" ++ nl).
Proof.
  split; [right; reflexivity|]. split; [reflexivity|].
  split; [reflexivity|]. split; [reflexivity|].
  apply (relay_cuts_split_record "b" "0" "hel" "lo").
  - right. reflexivity.
  - left. reflexivity.
  - reflexivity.
  - reflexivity.
  - reflexivity.
Defined.

(** In one line the filter finds at most one match, and the match is
    the end of the line. *)
Lemma matchAll_in_line (t : ascii) (l : string) :
  one_line l = true ->
  forall b,
    matchAll t b l = []
    \/ exists m, matchAll t b l = [m] /\ record_head t m = true
                 /\ ends_with m l.
Proof.
  induction l as [|c l IH]; intros Hl b; [now left|].
  cbn [one_line] in Hl. apply andb_prop in Hl as [Hc Hl].
  cbn [matchAll]. destruct (b && not_newline c).
  - destruct (IH Hl true) as [E|[m [E [Hm [front Hf]]]]]; [now left|].
    right. exists m. split; [exact E|]. split; [exact Hm|].
    exists (String c front). cbn [append]. now rewrite <- Hf.
  - destruct (record_head t (String c l)) eqn:Hh.
    + right. exists (String c l). cbn [match_text].
      rewrite (span_one_line_end _ Hl), (matchAll_skip_end _ _ Hl).
      split; [reflexivity|]. split; [exact Hh|]. now exists EmptyString.
    + destruct (IH Hl false) as [E|[m [E [Hm [front Hf]]]]]; [now left|].
      right. exists m. split; [exact E|]. split; [exact Hm|].
      exists (String c front). cbn [append]. now rewrite <- Hf.
Qed.

Lemma flat_map_in_lines (t : ascii) (ls : list string) :
  forallb one_line ls = true ->
  Forall (fun m => record_head t m = true
                   /\ exists l, In l ls /\ ends_with m l)
    (flat_map (matchAll t false) ls)
  /\ List.length (flat_map (matchAll t false) ls) <= List.length ls.
Proof.
  induction ls as [|l ls IH]; intros H; [split; [constructor | apply le_n]|].
  cbn [forallb] in H. apply andb_prop in H as [Hl Hls].
  destruct (IH Hls) as [Hall Hlen]. cbn [flat_map].
  assert (Hrest : Forall (fun m => record_head t m = true
                     /\ exists l0, In l0 (l :: ls) /\ ends_with m l0)
                    (flat_map (matchAll t false) ls)).
  { eapply Forall_impl; [|exact Hall]. intros m [Hm [l0 [Hin He]]].
    split; [exact Hm|]. exists l0. split; [now right | exact He]. }
  destruct (matchAll_in_line t l Hl false) as [E|[m [E [Hm He]]]]; rewrite E.
  - split; [exact Hrest|]. cbn [app List.length]. lia.
  - split.
    + constructor; [|exact Hrest]. split; [exact Hm|].
      exists l. split; [now left | exact He].
    + cbn [app List.length]. lia.
Qed.

(** For a target [a] or [b] the filter adds no text of its own: its
    result is made of lines, each the end of a line of the chunk from a
    place where the pattern matches, at most one per line of the chunk,
    in the order of the chunk's lines. *)
Theorem filter_returns_line_ends (t : ascii) (chunk out : string) :
  participant_tag t ->
  filterStreamByTarget chunk t = Some out ->
  exists ms,
    out = unlines ms
    /\ ms = flat_map (matchAll t false) (lines chunk)
    /\ Forall (fun m => record_head t m = true
                        /\ exists l, In l (lines chunk) /\ ends_with m l) ms
    /\ 1 <= List.length ms <= List.length (lines chunk).
Proof.
  intros Htag H. pose proof (tag_not_newline t Htag) as Ht.
  exists (matchAll t false chunk).
  pose proof (text_of_filter chunk t) as Hout. rewrite H in Hout.
  cbn [text_of] in Hout.
  destruct (flat_map_in_lines t (lines chunk) (lines_one_line chunk))
    as [Hall Hlen].
  rewrite <- (matchAll_flat _ _ Ht) in Hall, Hlen.
  split; [exact Hout|]. split; [apply matchAll_flat; exact Ht|].
  split; [exact Hall|]. split; [|exact Hlen].
  unfold filterStreamByTarget in H.
  destruct (matchAll t false chunk); [discriminate | cbn; lia].
Qed.

Lemma filter_returns_line_ends_witness :
  participant_tag "b"
  /\ filterStreamByTarget Samples.chunk_a_quotes_b "b"
     = Some ("b0:x" ++ dq ++ nl)
  /\ exists ms,
       "b0:x" ++ dq ++ nl = unlines ms
       /\ ms = flat_map (matchAll "b" false) (lines Samples.chunk_a_quotes_b)
       /\ Forall (fun m => record_head "b" m = true
                           /\ exists l, In l (lines Samples.chunk_a_quotes_b)
                                        /\ ends_with m l) ms
       /\ 1 <= List.length ms <= List.length (lines Samples.chunk_a_quotes_b).
Proof.
  split; [right; reflexivity|]. split; [reflexivity|].
  apply (filter_returns_line_ends "b" Samples.chunk_a_quotes_b
           ("b0:x" ++ dq ++ nl)).
  - right. reflexivity.
  - reflexivity.
Defined.

(** For a target [a] or [b], filtering a result of the filter again
    gives that result back. *)
Theorem filter_twice_same (chunk out : string) (t : ascii) :
  participant_tag t ->
  filterStreamByTarget chunk t = Some out ->
  filterStreamByTarget out t = Some out.
Proof.
  intros Htag. pose proof (tag_not_newline t Htag) as Ht.
  unfold filterStreamByTarget.
  pose proof (matchAll_matches t chunk Ht false) as Hall.
  destruct (matchAll t false chunk) as [|m ms]; [discriminate|].
  intros [= <-].
  change (match ms with
          | [] => m
          | _ :: _ => m ++ String newline (join nl ms)
          end) with (join nl (m :: ms)).
  rewrite join_unlines, (matchAll_unlines _ _ Ht Hall).
  apply f_equal, join_unlines.
Qed.

Lemma filter_twice_same_witness :
  participant_tag "b"
  /\ filterStreamByTarget Samples.chunk_example "b"
     = Some Samples.chunk_example_b
  /\ filterStreamByTarget Samples.chunk_example_b "b"
     = Some Samples.chunk_example_b.
Proof.
  split; [right; reflexivity|]. split; [reflexivity|].
  apply (filter_twice_same Samples.chunk_example Samples.chunk_example_b "b").
  - right. reflexivity.
  - reflexivity.
Defined.

(** A result of the filter is never empty and never the sentinel: it
    ends with a newline.  A forwarded chunk can therefore not be taken
    for the end of the stream. *)
Theorem filter_result_ends_line (chunk out : string) (t : ascii) :
  filterStreamByTarget chunk t = Some out ->
  last_char out = Some newline
  /\ out <> EmptyString
  /\ out <> "[DONE]".
Proof.
  intros H. pose proof (filter_ends_in_newline _ _ _ H) as Hl.
  split; [exact Hl|]. split.
  - intros E. rewrite E in Hl. discriminate.
  - exact (filter_not_done _ _ _ H).
Qed.

Lemma filter_result_ends_line_witness :
  filterStreamByTarget Samples.chunk_example "b" = Some Samples.chunk_example_b
  /\ last_char Samples.chunk_example_b = Some newline
  /\ Samples.chunk_example_b <> EmptyString
  /\ Samples.chunk_example_b <> "[DONE]".
Proof.
  split; [reflexivity|].
  apply (filter_result_ends_line Samples.chunk_example
           Samples.chunk_example_b "b").
  reflexivity.
Defined.

Lemma matchAll_record_lines (t : ascii) (ls : list string) :
  forallb one_line ls = true ->
  forallb (anchored_line t) ls = true ->
  flat_map (matchAll t false) ls = filter (record_head t) ls.
Proof.
  induction ls as [|l ls IH]; [reflexivity|]. cbn [forallb flat_map filter].
  intros H1 H2. apply andb_prop in H1 as [Hl Hls].
  apply andb_prop in H2 as [Ha Hals].
  rewrite (IH Hls Hals), (matchAll_anchored_line _ _ Hl Ha).
  destruct (record_head t l); reflexivity.
Qed.

Lemma filter_record_lines (chunk : string) (t : ascii) :
  t <> newline ->
  anchored_lines t chunk = true ->
  filterStreamByTarget chunk t
  = match filter (record_head t) (lines chunk) with
    | [] => None
    | records => Some (unlines records)
    end.
Proof.
  intros Ht Ha. unfold filterStreamByTarget.
  rewrite (matchAll_flat _ _ Ht).
  rewrite (matchAll_record_lines t (lines chunk) (lines_one_line chunk) Ha).
  destruct (filter (record_head t) (lines chunk)) as [|r rs]; [reflexivity|].
  f_equal. apply join_unlines.
Qed.

(** For a target [a] or [b], on a chunk in every line of which the
    target's pattern ([{target}0:] or [{target}d:]) is found at the
    start of the line or nowhere, the filter returns exactly the lines
    that begin with the pattern, in order, each followed by a newline,
    and [null] when there is none. *)
Theorem filter_keeps_record_lines (chunk : string) (t : ascii) :
  participant_tag t ->
  anchored_lines t chunk = true ->
  filterStreamByTarget chunk t
  = match filter (record_head t) (lines chunk) with
    | [] => None
    | records => Some (unlines records)
    end.
Proof.
  intros Htag Ha. pose proof (tag_not_newline t Htag) as Ht.
  unfold filterStreamByTarget.
  rewrite (matchAll_flat _ _ Ht).
  rewrite (matchAll_record_lines t (lines chunk) (lines_one_line chunk) Ha).
  destruct (filter (record_head t) (lines chunk)) as [|r rs]; [reflexivity|].
  f_equal. apply join_unlines.
Qed.

Lemma filter_keeps_record_lines_witness :
  participant_tag "b"
  /\ anchored_lines "b" Samples.chunk_example = true
  /\ filterStreamByTarget Samples.chunk_example "b"
     = match filter (record_head "b") (lines Samples.chunk_example) with
       | [] => None
       | records => Some (unlines records)
       end.
Proof.
  split; [right; reflexivity|]. split; [reflexivity|].
  apply (filter_keeps_record_lines Samples.chunk_example "b").
  - right. reflexivity.
  - reflexivity.
Defined.

Lemma only_tagged_no_other_record (chunk : string) (t other : ascii) :
  other <> t ->
  DemuxSpec.only_tagged t chunk = true ->
  filter (record_head other) (lines chunk) = [].
Proof.
  intros Hd H. unfold DemuxSpec.only_tagged, DemuxSpec.records in H.
  assert (Hall : forallb (DemuxSpec.tagged_record t)
                   (filter (fun l => negb (String.eqb l EmptyString))
                      (lines chunk)) = true).
  { destruct (filter _ (lines chunk)); [reflexivity | exact H]. }
  clear H. induction (lines chunk) as [|l ls IH]; [reflexivity|].
  cbn [filter] in *.
  assert (Hl : record_head other l = false).
  { destruct l as [|c [|m [|k l]]]; try reflexivity.
    cbn [String.eqb negb forallb] in Hall.
    apply andb_prop in Hall as [Hh _]. cbn in Hh.
    apply andb_prop in Hh as [Hh _]. apply andb_prop in Hh as [Hh _].
    apply Ascii.eqb_eq in Hh. subst c. cbn [record_head].
    destruct (Ascii.eqb_spec t other) as [E|_]; [|reflexivity].
    symmetry in E. contradiction. }
  rewrite Hl. apply IH.
  destruct (negb (String.eqb l EmptyString)); [|exact Hall].
  cbn [forallb] in Hall. apply andb_prop in Hall as [_ Hall]. exact Hall.
Qed.

(** On a chunk that holds only records of one participant, [a] or [b],
    that participant's target yields a result; the other participant's
    target yields [null] provided its pattern is not found inside a
    line. *)
Theorem one_participant_chunk (chunk : string) (t other : ascii) :
  (t = "a"%char /\ other = "b"%char) \/ (t = "b"%char /\ other = "a"%char) ->
  DemuxSpec.only_tagged t chunk = true ->
  filterStreamByTarget chunk t <> None
  /\ (anchored_lines other chunk = true ->
      filterStreamByTarget chunk other = None).
Proof.
  intros Htags H.
  assert (Ht : t <> newline)
    by (destruct Htags as [[-> _]|[-> _]]; discriminate).
  assert (Ho : other <> newline)
    by (destruct Htags as [[_ ->]|[_ ->]]; discriminate).
  assert (Hd : other <> t)
    by (destruct Htags as [[-> ->]|[-> ->]]; discriminate).
  split.
  - now apply only_tagged_target_nonempty.
  - intros Ha. rewrite (filter_record_lines _ _ Ho Ha).
    now rewrite (only_tagged_no_other_record chunk t other Hd H).
Qed.

Lemma one_participant_chunk_witness :
  (("b"%char = "a"%char /\ "a"%char = "b"%char)
   \/ ("b"%char = "b"%char /\ "a"%char = "a"%char))
  /\ DemuxSpec.only_tagged "b" Samples.chunk_example_b = true
  /\ filterStreamByTarget Samples.chunk_example_b "b" <> None
  /\ (anchored_lines "a" Samples.chunk_example_b = true ->
      filterStreamByTarget Samples.chunk_example_b "a" = None).
Proof.
  split; [right; split; reflexivity|]. split; [reflexivity|].
  apply (one_participant_chunk Samples.chunk_example_b "b" "a").
  - right. split; reflexivity.
  - reflexivity.
Defined.

End DemuxMore.

(** ** More about the URL pattern *)

Module UrlMore.

Import Str Data Js Bridge Obs Measures RetryUrl DemuxFacts.

Lemma strip_prefix_sound (p s r : string) :
  strip_prefix p s = Some r -> s = p ++ r.
Proof.
  revert s. induction p as [|a p IH]; intros s H.
  - cbn in H. now injection H as ->.
  - destruct s as [|b s]; [discriminate|]. cbn [strip_prefix] in H.
    destruct (Ascii.eqb_spec a b) as [->|_]; [|discriminate].
    cbn [append]. now rewrite (IH _ H).
Qed.

Lemma strip_prefix_app (p r : string) : strip_prefix p (p ++ r) = Some r.
Proof.
  induction p as [|a p IH]; [reflexivity|].
  cbn [append strip_prefix]. now rewrite Ascii.eqb_refl.
Qed.

Lemma span_sound (p : ascii -> bool) (s a b : string) :
  span p s = (a, b) ->
  s = a ++ b /\ all_chars p a = true
  /\ match b with
     | EmptyString => True
     | String c _ => p c = false
     end.
Proof.
  revert a b. induction s as [|c s IH]; intros a b H.
  - cbn in H. injection H as <- <-. repeat split.
  - cbn [span] in H. destruct (p c) eqn:Hc.
    + destruct (span p s) as [a' b'] eqn:Es. injection H as <- <-.
      destruct (IH a' b' eq_refl) as [E [Ha Hb]].
      cbn [append all_chars]. rewrite Hc, Ha, <- E. repeat split. exact Hb.
    + injection H as <- <-. repeat split. exact Hc.
Qed.

Lemma span_app (p : ascii -> bool) (a b : string) :
  all_chars p a = true ->
  match b with
  | EmptyString => True
  | String c _ => p c = false
  end ->
  span p (a ++ b) = (a, b).
Proof.
  intros Ha Hb. induction a as [|c a IH].
  - cbn [append]. destruct b as [|d b]; [reflexivity|]. cbn [span].
    now rewrite Hb.
  - cbn [all_chars] in Ha. apply andb_prop in Ha as [Hc Ha].
    cbn [append span]. now rewrite Hc, (IH Ha).
Qed.

(** What the pattern finds at a place: the path, a run of identifier
    characters as long as it can be, [/messages/], a second such run. *)
Lemma match_here_sound (s g1 g2 : string) :
  match_here s = Some (g1, g2) ->
  is_id g1 = true /\ is_id g2 = true
  /\ exists post,
       s = retry_path g1 g2 ++ post /\ ends_id post = true.
Proof.
  unfold match_here. intros H.
  destruct (strip_prefix path_prefix s) as [rest1|] eqn:E1; [|discriminate].
  destruct (span is_id_char rest1) as [a rest2] eqn:E2.
  destruct a as [|c a]; [discriminate|].
  destruct (strip_prefix "/messages/" rest2) as [rest3|] eqn:E3;
    [|discriminate].
  destruct (span is_id_char rest3) as [b post] eqn:E4. cbn [fst] in H.
  destruct b as [|d b]; [discriminate|]. injection H as <- <-.
  apply strip_prefix_sound in E1, E3.
  destruct (span_sound _ _ _ _ E2) as [H2 [Ha _]].
  destruct (span_sound _ _ _ _ E4) as [H4 [Hb Hpost]].
  split; [exact Ha|]. split; [exact Hb|].
  exists post. split.
  - unfold retry_path. rewrite E1, H2, E3, H4. now rewrite !append_assoc.
  - destruct post as [|e post]; [reflexivity|]. cbn [ends_id].
    now rewrite Hpost.
Qed.

(** A match yields two non-empty identifiers that stand in the URL in
    the session and message places of a retry path; the second one is
    not followed by another identifier character. *)
Theorem url_match_sound (u g1 g2 : string) :
  url_match u = Some (g1, g2) ->
  is_id g1 = true /\ is_id g2 = true
  /\ exists pre post,
       u = pre ++ retry_path g1 g2 ++ post /\ ends_id post = true.
Proof.
  induction u as [|c u IH]; intros H.
  - cbn in H. discriminate.
  - cbn [url_match] in H.
    destruct (match_here (String c u)) as [[a b]|] eqn:E.
    + injection H as <- <-.
      destruct (match_here_sound _ _ _ E) as [Ha [Hb [post [Hs Hp]]]].
      split; [exact Ha|]. split; [exact Hb|].
      exists EmptyString, post. split; [exact Hs | exact Hp].
    + destruct (IH H) as [Ha [Hb [pre [post [Hs Hp]]]]].
      split; [exact Ha|]. split; [exact Hb|].
      exists (String c pre), post. cbn [append]. now rewrite <- Hs.
Qed.

Lemma url_match_sound_witness :
  url_match Samples.retry_url = Some ("0a1b-2c", "3d4e-5f")
  /\ is_id "0a1b-2c" = true /\ is_id "3d4e-5f" = true
  /\ exists pre post,
       Samples.retry_url = pre ++ retry_path "0a1b-2c" "3d4e-5f" ++ post
       /\ ends_id post = true.
Proof.
  split; [vm_compute; reflexivity|].
  apply (url_match_sound Samples.retry_url "0a1b-2c" "3d4e-5f").
  vm_compute. reflexivity.
Defined.

Lemma slash_not_id : is_id_char "/" = false.
Proof. reflexivity. Qed.

Lemma match_here_path (sid mid rest : string) :
  is_id sid = true -> is_id mid = true -> ends_id rest = true ->
  match_here (retry_path sid mid ++ rest) = Some (sid, mid).
Proof.
  intros Hs Hm Hr. unfold match_here, retry_path.
  rewrite !append_assoc, strip_prefix_app.
  assert (Hsid : all_chars is_id_char sid = true)
    by (destruct sid; [discriminate | exact Hs]).
  assert (Hmid : all_chars is_id_char mid = true)
    by (destruct mid; [discriminate | exact Hm]).
  rewrite (span_app _ sid _ Hsid) by reflexivity.
  destruct sid as [|c sid]; [discriminate|].
  rewrite strip_prefix_app.
  assert (E : span is_id_char (mid ++ rest) = (mid, rest)).
  { apply span_app; [exact Hmid|]. destruct rest as [|e rest]; [exact I|].
    cbn [ends_id] in Hr. now apply negb_true_iff in Hr. }
  rewrite E. cbn [fst]. destruct mid; [discriminate | reflexivity].
Qed.

Lemma match_here_needs_slash_n (c d : ascii) (s : string) :
  Ascii.eqb c "/" && Ascii.eqb d "n" = false ->
  match_here (String c (String d s)) = None.
Proof.
  intros H. unfold match_here, path_prefix. cbn [strip_prefix].
  rewrite Ascii.eqb_sym. destruct (Ascii.eqb c "/"); [|reflexivity].
  cbn [andb] in H. rewrite Ascii.eqb_sym, H. reflexivity.
Qed.

Lemma url_match_at_path (pre sid mid rest : string) :
  no_slash_n pre = true ->
  is_id sid = true -> is_id mid = true -> ends_id rest = true ->
  url_match (pre ++ retry_path sid mid ++ rest) = Some (sid, mid).
Proof.
  intros Hpre Hs Hm Hr.
  assert (Hhere : url_match (retry_path sid mid ++ rest) = Some (sid, mid)).
  { pose proof (match_here_path sid mid rest Hs Hm Hr) as E.
    destruct (retry_path sid mid ++ rest); cbn [url_match]; now rewrite E. }
  induction pre as [|c pre IH]; [exact Hhere|].
  cbn [append url_match].
  assert (E : match_here (String c (pre ++ retry_path sid mid ++ rest))
              = None).
  { destruct pre as [|d pre].
    - cbn [append]. unfold retry_path, path_prefix. cbn [append].
      apply match_here_needs_slash_n. apply andb_false_r.
    - cbn [append]. apply match_here_needs_slash_n.
      cbn [no_slash_n] in Hpre. apply andb_prop in Hpre as [H _].
      now apply negb_true_iff in H. }
  rewrite E. apply IH.
  destruct pre as [|d pre]; [reflexivity|].
  cbn [no_slash_n] in Hpre. apply andb_prop in Hpre as [_ H]. exact H.
Qed.

(** Round trip: in a URL that carries the retry path of session [sid]
    and message [mid], after anything in which no slash is followed by
    the letter [n], the pattern finds exactly [sid] and [mid]. *)
Theorem url_match_retry_path (pre sid mid rest : string) :
  no_slash_n pre = true ->
  is_id sid = true -> is_id mid = true -> ends_id rest = true ->
  url_match (pre ++ retry_path sid mid ++ rest) = Some (sid, mid).
Proof.
  intros Hpre Hs Hm Hr.
  assert (Hhere : url_match (retry_path sid mid ++ rest) = Some (sid, mid)).
  { pose proof (match_here_path sid mid rest Hs Hm Hr) as E.
    destruct (retry_path sid mid ++ rest); cbn [url_match]; now rewrite E. }
  induction pre as [|c pre IH]; [exact Hhere|].
  cbn [append url_match].
  assert (E : match_here (String c (pre ++ retry_path sid mid ++ rest))
              = None).
  { destruct pre as [|d pre].
    - cbn [append]. unfold retry_path, path_prefix. cbn [append].
      apply match_here_needs_slash_n. apply andb_false_r.
    - cbn [append]. apply match_here_needs_slash_n.
      cbn [no_slash_n] in Hpre. apply andb_prop in Hpre as [H _].
      now apply negb_true_iff in H. }
  rewrite E. apply IH.
  destruct pre as [|d pre]; [reflexivity|].
  cbn [no_slash_n] in Hpre. apply andb_prop in Hpre as [_ H]. exact H.
Qed.

Lemma url_match_retry_path_witness :
  no_slash_n "https://lmarena.ai" = true
  /\ is_id "0a1b-2c" = true /\ is_id "3d4e-5f" = true
  /\ ends_id "?x=1" = true
  /\ url_match ("https://lmarena.ai" ++ retry_path "0a1b-2c" "3d4e-5f" ++ "?x=1")
     = Some ("0a1b-2c", "3d4e-5f").
Proof.
  split; [reflexivity|]. split; [reflexivity|]. split; [reflexivity|].
  split; [reflexivity|].
  apply (url_match_retry_path "https://lmarena.ai" "0a1b-2c" "3d4e-5f" "?x=1");
    reflexivity.
Defined.

Lemma url_match_cons_none (c : ascii) (s : string) :
  match_here (String c s) = None -> url_match (String c s) = url_match s.
Proof. intros H. cbn [url_match]. now rewrite H. Qed.

Lemma id_char_not_slash (c : ascii) :
  is_id_char c = true -> Ascii.eqb c "/" = false.
Proof.
  intros H. destruct (Ascii.eqb_spec c "/") as [->|_]; [discriminate|].
  reflexivity.
Qed.

Lemma id_char_not_n (c : ascii) :
  is_id_char c = true -> Ascii.eqb c "n" = false.
Proof.
  intros H. destruct (Ascii.eqb_spec c "n") as [->|_]; [discriminate|].
  reflexivity.
Qed.

Lemma match_here_not_slash (c : ascii) (s : string) :
  Ascii.eqb c "/" = false -> match_here (String c s) = None.
Proof.
  intros H. unfold match_here, path_prefix. cbn [strip_prefix].
  now rewrite Ascii.eqb_sym, H.
Qed.

Lemma url_match_ids (s : string) :
  all_chars is_id_char s = true -> url_match s = None.
Proof.
  induction s as [|c s IH]; [reflexivity|]. cbn [all_chars]. intros H.
  apply andb_prop in H as [Hc Hs].
  rewrite url_match_cons_none; [now apply IH|].
  apply match_here_not_slash, id_char_not_slash, Hc.
Qed.

(** The executor's own URL, built from a session identifier made of
    identifier characters (as every captured one is), never has the
    shape of a retry: the wrapper lets the call through whatever the
    flag and capture mode are. *)
Theorem executor_url_never_matches (session_id : string) (rest : list Arg)
    (w : World) :
  all_chars is_id_char session_id = true ->
  url_match ("/nextjs-api/stream/post-to-evaluation/" ++ session_id) = None
  /\ captures
       (AString ("/nextjs-api/stream/post-to-evaluation/" ++ session_id)
        :: rest) w = false.
Proof.
  intros H.
  assert (E : url_match ("/nextjs-api/stream/post-to-evaluation/" ++ session_id)
              = None).
  { cbn [append].
    repeat (rewrite url_match_cons_none by (vm_compute; reflexivity)).
    destruct session_id as [|d sid].
    - reflexivity.
    - cbn [all_chars] in H. apply andb_prop in H as [Hd Hs].
      rewrite url_match_cons_none.
      + apply url_match_ids. cbn [all_chars]. now rewrite Hd, Hs.
      + apply match_here_needs_slash_n.
        rewrite (id_char_not_n _ Hd). apply andb_false_r. }
  split; [exact E|]. unfold captures. cbn [urlString_of nth_error].
  now rewrite E.
Qed.

Lemma executor_url_never_matches_witness :
  all_chars is_id_char "0a1b-2c" = true
  /\ url_match ("/nextjs-api/stream/post-to-evaluation/" ++ "0a1b-2c") = None
  /\ captures
       [AString ("/nextjs-api/stream/post-to-evaluation/" ++ "0a1b-2c")]
       Samples.armed = false.
Proof.
  split; [reflexivity|].
  apply (executor_url_never_matches "0a1b-2c" [] Samples.armed). reflexivity.
Defined.

End UrlMore.

(** ** More about the handlers and their runs *)

Module RunMore.

Import Str Demux Data Js Uuid Bridge Obs Measures Samples.
Import InterceptFacts ExecutorFacts.

Lemma skipn_all_exact {A} (l : list A) : skipn (List.length l) l = [].
Proof. induction l as [|x l IH]; [reflexivity | exact IH]. Qed.

Lemma added_same_trace (w w' : World) : trace w' = trace w -> added w w' = [].
Proof. intros H. unfold added. rewrite H. apply skipn_all_exact. Qed.

Lemma added_extend (w w' : World) (evs : list Event) :
  trace w' = (trace w ++ evs)%list -> added w w' = evs.
Proof. intros H. unfold added. rewrite H. apply skipn_app_exact. Qed.

Lemma written_app (a b : list Event) :
  written (a ++ b) = (written a ++ written b)%list.
Proof.
  induction a as [|e a IH]; [reflexivity|].
  destruct e; cbn [app written]; rewrite IH; reflexivity.
Qed.

Lemma emitted_app (a b : list Event) :
  emitted (a ++ b) = (emitted a ++ emitted b)%list.
Proof.
  induction a as [|e a IH]; [reflexivity|].
  destruct e; cbn [app emitted]; rewrite IH; reflexivity.
Qed.

Lemma written_refused (requestId : string) (ds : list Data) :
  written (send_events false requestId ds) = [].
Proof. induction ds as [|d ds IH]; [reflexivity | exact IH]. Qed.

Lemma emitted_sends (open : bool) (requestId : string) (ds : list Data) :
  emitted (send_events open requestId ds) = map (mkFrame requestId) ds.
Proof.
  induction ds as [|d ds IH]; [reflexivity|].
  cbn [send_events map]. unfold sendEvent at 1.
  destruct open; cbn [emitted]; f_equal; exact IH.
Qed.

Lemma written_sends_open (requestId : string) (ds : list Data) :
  written (send_events true requestId ds) = map (mkFrame requestId) ds.
Proof.
  induction ds as [|d ds IH]; [reflexivity|].
  cbn [send_events map sendEvent written]. f_equal. exact IH.
Qed.

Section Facts.

Variable entropy : nat -> Entropy.
Variable network : nat -> list Arg -> FetchOutcome.
Variable pageSource : string.

Abbreviation originalFetch := (originalFetch network).
Abbreviation window_fetch := (window_fetch network).
Abbreviation executeFetchAndStreamBack :=
  (executeFetchAndStreamBack entropy network).
Abbreviation onmessage := (onmessage entropy network pageSource).
Abbreviation handle := (handle entropy network pageSource).
Abbreviation run := (run entropy network pageSource).

(** Every run of the executor, whether the request passes the checks or
    not: at most one call of the real [fetch], then frames with the
    request's id; the flag ends false or as it was. *)
Lemma execute_shape (requestId : string) (payload : Payload) (w : World) :
  exists flag n fetches ds,
    executeFetchAndStreamBack requestId payload w
    = (advance flag n (fetches ++ send_events (socketOpen w) requestId ds) w,
       Normal tt)
    /\ (fetches = [] \/ exists a, fetches = [RealFetch a])
    /\ (flag = false \/ flag = isApiBridgeRequest w).
Proof.
  destruct (truthy (session_id payload)) as [sid|] eqn:Hs.
  - destruct (message_templates payload) as [[|t0 ts]|] eqn:Ht.
    + destruct (execute_invalid entropy network requestId payload w) as [m ->];
        [right; right; exact Ht|].
      exists (isApiBridgeRequest w), 0, [], [DError m; DONE].
      repeat split; auto.
    + rewrite (execute_valid entropy network requestId payload w sid
                 (t0 :: ts) Hs Ht); [|discriminate].
      eexists false, _, [RealFetch _], _. split; [reflexivity|].
      split; [right; eexists; reflexivity | now left].
    + destruct (execute_invalid entropy network requestId payload w) as [m ->];
        [right; left; exact Ht|].
      exists (isApiBridgeRequest w), 0, [], [DError m; DONE].
      repeat split; auto.
  - destruct (execute_invalid entropy network requestId payload w) as [m ->];
      [left; exact Hs|].
    exists (isApiBridgeRequest w), 0, [], [DError m; DONE].
    repeat split; auto.
Qed.

(** What the wrapper does, by its capturing condition. *)
Lemma window_fetch_cases (args : list Arg) (w : World) :
  (captures args w = false /\ window_fetch args w = originalFetch args w)
  \/ (captures args w = true
      /\ exists sid,
           captured_id args = Some sid
           /\ window_fetch args w
              = originalFetch args
                  (exec (originalFetch (update_args sid))
                     (set_isCaptureModeActive false w))).
Proof.
  unfold captures, captured_id.
  destruct (RetryUrl.url_match (urlString_of args)) as [[sid g2]|] eqn:Hm.
  - destruct (isApiBridgeRequest w) eqn:Hf.
    + left. split; [reflexivity|]. apply window_fetch_plain. now right; left.
    + destruct (isCaptureModeActive w) eqn:Hc.
      * right. split; [reflexivity|]. exists sid. split; [reflexivity|].
        now apply (window_fetch_capture network args w sid g2).
      * left. split; [reflexivity|]. apply window_fetch_plain.
        now right; right.
  - left. split; [reflexivity|]. apply window_fetch_plain. now left.
Qed.

Lemma truthy_some (o : option string) (c : string) :
  truthy o = Some c -> o = Some c /\ c <> EmptyString.
Proof.
  destruct o as [[|a s]|]; cbn; intros H; inversion H. split; [reflexivity|].
  discriminate.
Qed.

(** One handler, whatever the event: it only adds to the trace; what it
    writes to the socket is what it hands to [sendToServer] when the
    socket is open and nothing when it is not; every frame carries the
    request id of the message being handled; the socket opens only on
    [onopen]; and a flag that was clear is clear again at the end. *)
Lemma handle_shape (e : PageEvent) (w : World) :
  exists evs,
    trace (handle e w) = (trace w ++ evs)%list
    /\ written evs = (if socketOpen w then emitted evs else [])
    /\ Forall (fun f =>
                 match e with
                 | SocketMessage m =>
                     is_command m = false
                     /\ request_id_of m = Some (request_id f)
                 | _ => False
                 end) (emitted evs)
    /\ (socketOpen (handle e w) = true ->
        e = SocketOpens \/ socketOpen w = true)
    /\ (isApiBridgeRequest w = false ->
        isApiBridgeRequest (handle e w) = false)
    /\ uuidCalls w <= uuidCalls (handle e w).
Proof.
  destruct e as [| |m|args|o]; cbn [Bridge.handle].
  - exists []. cbn. rewrite app_nil_r. repeat split; auto.
    now destruct (socketOpen w).
  - exists []. cbn. rewrite app_nil_r. repeat split; auto.
    + now destruct (socketOpen w).
    + discriminate.
  - unfold Bridge.onmessage, try_catch_log, exec.
    destruct m as [|command request_id payload].
    { exists []. cbn. rewrite app_nil_r. repeat split; auto.
      now destruct (socketOpen w). }
    destruct (truthy command) as [cmd|] eqn:Hc.
    + destruct (String.eqb cmd "refresh" || String.eqb cmd "reconnect").
      { exists [PageReload]. cbn. repeat split; auto.
        - now destruct (socketOpen w).
        - discriminate. }
      destruct (String.eqb cmd "activate_id_capture").
      { exists []. cbn. rewrite app_nil_r. repeat split; auto.
        now destruct (socketOpen w). }
      destruct (String.eqb cmd "send_page_source").
      * unfold sendPageSource, try_catch_log, await, bind.
        rewrite window_fetch_plain
          by (left; vm_compute; reflexivity).
        rewrite originalFetch_run.
        eexists [RealFetch _].
        destruct (network (real_fetches (trace w)) _); cbn;
          repeat split; auto; now destruct (socketOpen w).
      * exists []. cbn. rewrite app_nil_r. repeat split; auto.
        now destruct (socketOpen w).
    + assert (Hnc : is_command (Parsed command request_id payload) = false).
      { destruct command as [[|a c]|]; try reflexivity. discriminate. }
      destruct (truthy request_id) as [rid|] eqn:Hr.
      2:{ exists []. cbn. rewrite app_nil_r. repeat split; auto.
          now destruct (socketOpen w). }
      destruct payload as [payload|].
      2:{ exists []. cbn. rewrite app_nil_r. repeat split; auto.
          now destruct (socketOpen w). }
      destruct (truthy_some _ _ Hr) as [-> _].
      destruct (execute_shape rid payload w)
        as [flag [n [fetches [ds [-> [Hf Hflag]]]]]].
      exists (fetches ++ send_events (socketOpen w) rid ds)%list.
      cbn [fst advance trace socketOpen isApiBridgeRequest uuidCalls].
      assert (Hwf : written fetches = [] /\ emitted fetches = []).
      { destruct Hf as [->|[a ->]]; split; reflexivity. }
      destruct Hwf as [Hw He].
      rewrite written_app, emitted_app, Hw, He, emitted_sends. cbn [app].
      split; [reflexivity|]. split.
      { destruct (socketOpen w);
          [apply written_sends_open | apply written_refused]. }
      split.
      { apply Forall_forall. intros f Hin.
        apply in_map_iff in Hin as [d [<- _]]. split; [exact Hnc|reflexivity]. }
      split; [now right|]. split; [|lia].
      intros Hw0. destruct Hflag as [->| ->]; [reflexivity | exact Hw0].
  - unfold exec. destruct (window_fetch_cases args w)
      as [[_ ->]|[_ [sid [_ ->]]]].
    + exists [RealFetch args]. cbn. repeat split; auto.
      now destruct (socketOpen w).
    + exists [RealFetch (update_args sid); RealFetch args]. cbn.
      rewrite <- app_assoc. repeat split; auto.
      now destruct (socketOpen w).
  - destruct o as [msg|r]; cbn.
    + exists [DeliveryLogged false]. repeat split; auto.
      now destruct (socketOpen w).
    + exists [DeliveryLogged (r_ok r)]. repeat split; auto.
      now destruct (socketOpen w).
Qed.

(** A run only adds to the trace. *)
Lemma run_extends (es : list PageEvent) (w : World) :
  exists evs, trace (run es w) = (trace w ++ evs)%list.
Proof.
  revert w. induction es as [|e es IH]; intros w.
  - exists []. now rewrite app_nil_r.
  - unfold Bridge.run. cbn [fold_left].
    destruct (handle_shape e w) as [evs [Ht _]].
    destruct (IH (handle e w)) as [evs' Ht'].
    exists (evs ++ evs')%list. unfold Bridge.run in Ht'.
    now rewrite Ht', Ht, app_assoc.
Qed.

(** A message that does not parse, a command the dispatcher does not
    know, and a request without its id or its payload leave no trace:
    no frame, no call, no change of state. *)
Theorem ignored_message_changes_nothing (m : Inbound) (w : World) :
  ignored m = true ->
  onmessage m w = (w, Normal tt).
Proof.
  unfold ignored, Bridge.onmessage, try_catch_log.
  destruct m as [|command request_id payload]; [reflexivity|].
  destruct (truthy command) as [c|].
  - unfold known_command. intros H. apply negb_true_iff in H.
    apply orb_false_elim in H as [H H4]. apply orb_false_elim in H as [H H3].
    rewrite H, H3, H4. reflexivity.
  - destruct (truthy request_id) as [rid|]; [|reflexivity].
    destruct payload; [discriminate | reflexivity].
Qed.

(** A message with a command is only a command: the request it may
    carry is not run, no frame goes out for it and no identifier is
    generated. *)
Theorem command_hides_request (command : string) (request_id : option string)
    (payload : option Payload) (w : World) :
  command <> EmptyString ->
  onmessage (Parsed (Some command) request_id payload) w
  = onmessage (Parsed (Some command) None None) w
  /\ emitted
       (added w (handle (SocketMessage
                           (Parsed (Some command) request_id payload)) w))
     = []
  /\ uuidCalls
       (handle (SocketMessage (Parsed (Some command) request_id payload)) w)
     = uuidCalls w.
Proof.
  intros Hc. destruct command as [|a c]; [contradiction|].
  split; [reflexivity|].
  cbn [Bridge.handle]. unfold Bridge.onmessage, try_catch_log, exec.
  cbn [truthy].
  destruct (String.eqb (String a c) "refresh"
            || String.eqb (String a c) "reconnect").
  { cbn. split; [|reflexivity].
    rewrite (added_extend w _ [PageReload]); reflexivity. }
  destruct (String.eqb (String a c) "activate_id_capture").
  { cbn. split; [|reflexivity]. now rewrite added_same_trace. }
  destruct (String.eqb (String a c) "send_page_source").
  - unfold sendPageSource, try_catch_log, await, bind.
    rewrite window_fetch_plain by (left; vm_compute; reflexivity).
    rewrite originalFetch_run.
    destruct (network (real_fetches (trace w)) _); cbn; (split; [|reflexivity]);
      unfold added, emit; cbn; now rewrite skipn_app_exact.
  - cbn. split; [|reflexivity]. now rewrite added_same_trace.
Qed.

(** Every frame a handler hands to [sendToServer] belongs to a request
    message and carries the id that message brought; handlers of other
    events, and of commands, hand over none.  The bridge never makes up
    a request id. *)
Theorem frames_echo_request_id (e : PageEvent) (w : World) :
  Forall (fun f =>
            exists m, e = SocketMessage m /\ is_command m = false
                      /\ request_id_of m = Some (request_id f))
    (emitted (added w (handle e w))).
Proof.
  destruct (handle_shape e w) as [evs [Ht [_ [Hall _]]]].
  rewrite (added_extend _ _ _ Ht).
  eapply Forall_impl; [|exact Hall]. intros f Hf.
  destruct e as [| |m| |]; try contradiction.
  exists m. destruct Hf as [H1 H2]. repeat split; assumption.
Qed.

(** While the socket is closed nothing is written to it, whatever is
    handled: the frames of requests served meanwhile are dropped, not
    kept for later. *)
Theorem closed_socket_writes_nothing (es : list PageEvent) (w : World) :
  socketOpen w = false ->
  forallb (fun e => negb (is_open_event e)) es = true ->
  written (added w (run es w)) = []
  /\ socketOpen (run es w) = false.
Proof.
  intros Hclosed Hes.
  assert (H : exists evs,
            trace (run es w) = (trace w ++ evs)%list
            /\ written evs = [] /\ socketOpen (run es w) = false).
  { revert w Hclosed. induction es as [|e es IH]; intros w Hclosed.
    - exists []. rewrite app_nil_r. repeat split. exact Hclosed.
    - cbn [forallb] in Hes. apply andb_prop in Hes as [He Hes].
      unfold Bridge.run. cbn [fold_left].
      destruct (handle_shape e w) as [evs [Ht [Hw [_ [Hs _]]]]].
      rewrite Hclosed in Hw.
      assert (Hc' : socketOpen (handle e w) = false).
      { destruct (socketOpen (handle e w)) eqn:E; [|reflexivity].
        destruct (Hs eq_refl) as [->|Habs]; [discriminate|congruence]. }
      destruct (IH Hes (handle e w) Hc') as [evs' [Ht' [Hw' Hs']]].
      exists (evs ++ evs')%list. unfold Bridge.run in Ht', Hs'.
      rewrite Ht', Ht, app_assoc, written_app, Hw, Hw'.
      repeat split. exact Hs'. }
  destruct H as [evs [Ht [Hw Hs]]].
  now rewrite (added_extend _ _ _ Ht).
Qed.

End Facts.

Lemma ignored_message_changes_nothing_witness :
  ignored (Parsed None (Some "r-1") None) = true
  /\ onmessage entropy0 network0 EmptyString (Parsed None (Some "r-1") None)
       armed
     = (armed, Normal tt).
Proof.
  split; [reflexivity|].
  apply (ignored_message_changes_nothing entropy0 network0 EmptyString
           (Parsed None (Some "r-1") None) armed).
  reflexivity.
Defined.

Lemma command_hides_request_witness :
  "activate_id_capture" <> EmptyString
  /\ onmessage entropy0 network0 EmptyString
       (Parsed (Some "activate_id_capture") (Some "r-1") (Some payload0))
       initial
     = onmessage entropy0 network0 EmptyString
         (Parsed (Some "activate_id_capture") None None) initial
  /\ emitted
       (added initial
          (handle entropy0 network0 EmptyString
             (SocketMessage
                (Parsed (Some "activate_id_capture") (Some "r-1")
                   (Some payload0))) initial))
     = []
  /\ uuidCalls
       (handle entropy0 network0 EmptyString
          (SocketMessage
             (Parsed (Some "activate_id_capture") (Some "r-1")
                (Some payload0))) initial)
     = uuidCalls initial.
Proof.
  split; [discriminate|].
  apply (command_hides_request entropy0 network0 EmptyString
           "activate_id_capture" (Some "r-1") (Some payload0) initial).
  discriminate.
Defined.

Lemma closed_socket_writes_nothing_witness :
  socketOpen initial = false
  /\ forallb (fun e => negb (is_open_event e))
       [SocketMessage (Parsed None (Some "r-1") (Some payload0));
        SocketCloses] = true
  /\ written
       (added initial
          (run entropy0 network0 EmptyString
             [SocketMessage (Parsed None (Some "r-1") (Some payload0));
              SocketCloses] initial)) = []
  /\ socketOpen
       (run entropy0 network0 EmptyString
          [SocketMessage (Parsed None (Some "r-1") (Some payload0));
           SocketCloses] initial) = false.
Proof.
  split; [reflexivity|]. split; [reflexivity|].
  apply (closed_socket_writes_nothing entropy0 network0 EmptyString
           [SocketMessage (Parsed None (Some "r-1") (Some payload0));
            SocketCloses] initial); reflexivity.
Defined.

End RunMore.

(** ** More about captures *)

Module CaptureMore.

Import Str Demux Data Js Uuid Bridge Obs Measures Samples.
Import InterceptFacts ExecutorFacts RunMore UrlMore.

Section Facts.

Variable entropy : nat -> Entropy.
Variable network : nat -> list Arg -> FetchOutcome.
Variable pageSource : string.

Abbreviation originalFetch := (originalFetch network).
Abbreviation window_fetch := (window_fetch network).
Abbreviation handle := (handle entropy network pageSource).
Abbreviation run := (run entropy network pageSource).
Abbreviation capture_count := (capture_count entropy network pageSource).

(** A call without a usable URL (no argument at all, a first argument
    that is not a string, a [URL] or a [Request], or an empty string)
    is forwarded untouched, even while capture mode is armed. *)
Theorem call_without_url_is_forwarded (args : list Arg) (w : World) :
  urlString_of args = EmptyString ->
  window_fetch args w = originalFetch args w
  /\ added w (exec (window_fetch args) w) = [RealFetch args]
  /\ isCaptureModeActive (exec (window_fetch args) w) = isCaptureModeActive w.
Proof.
  intros H.
  assert (E : window_fetch args w = originalFetch args w).
  { apply window_fetch_plain. left. now rewrite H. }
  unfold exec. rewrite E, originalFetch_run. cbn [fst].
  repeat split. unfold added, emit. cbn. apply skipn_app_exact.
Qed.

(** The identifier sent to the updater is the one in the session place
    of the retry URL, never the message identifier, whether the URL
    comes as a string, a [URL] or a [Request]: one POST of that
    identifier to the updater, then the page's own call. *)
Theorem capture_delivers_session_id (args : list Arg) (w : World)
    (pre sid mid rest : string) :
  isCaptureModeActive w = true ->
  isApiBridgeRequest w = false ->
  urlString_of args = pre ++ retry_path sid mid ++ rest ->
  no_slash_n pre = true ->
  is_id sid = true -> is_id mid = true -> ends_id rest = true ->
  fetched (added w (exec (window_fetch args) w))
  = [[AString "http://127.0.0.1:5103/update";
      AInit (mkInit "POST" [("Content-Type", "application/json")]
               (BodySessionId sid) None)];
     args]
  /\ isCaptureModeActive (exec (window_fetch args) w) = false.
Proof.
  intros Harmed Hflag Hurl Hpre Hs Hm Hr.
  pose proof (url_match_at_path pre sid mid rest Hpre Hs Hm Hr) as Hmatch.
  rewrite <- Hurl in Hmatch.
  unfold exec.
  rewrite (window_fetch_capture network args w sid mid Hmatch Hflag Harmed).
  unfold exec. rewrite !originalFetch_run. cbn [fst].
  split; [|reflexivity].
  unfold added, emit. cbn [trace set_isCaptureModeActive].
  rewrite <- app_assoc, skipn_app_exact. reflexivity.
Qed.

Lemma captures_armed (args : list Arg) (w : World) :
  captures args w = true ->
  isCaptureModeActive w = true
  /\ isCaptureModeActive (handle (PageFetch args) w) = false.
Proof.
  intros H. destruct (window_fetch_cases network args w)
    as [[Hc _]|[_ [sid [_ E]]]]; [congruence|].
  split.
  - unfold captures in H.
    destruct (RetryUrl.url_match (urlString_of args)); [|discriminate].
    now apply andb_prop in H as [_ H].
  - cbn [Bridge.handle]. unfold exec. rewrite E. reflexivity.
Qed.


End Facts.

Lemma call_without_url_is_forwarded_witness :
  urlString_of [AOther; AString retry_url] = EmptyString
  /\ window_fetch network0 [AOther; AString retry_url] armed
     = originalFetch network0 [AOther; AString retry_url] armed
  /\ added armed (exec (window_fetch network0 [AOther; AString retry_url]) armed)
     = [RealFetch [AOther; AString retry_url]]
  /\ isCaptureModeActive
       (exec (window_fetch network0 [AOther; AString retry_url]) armed)
     = isCaptureModeActive armed.
Proof.
  split; [reflexivity|].
  apply (call_without_url_is_forwarded network0 [AOther; AString retry_url]
           armed).
  reflexivity.
Defined.

Lemma capture_delivers_session_id_witness :
  isCaptureModeActive armed = true
  /\ isApiBridgeRequest armed = false
  /\ urlString_of [ARequest retry_url]
     = "https://lmarena.ai" ++ retry_path "0a1b-2c" "3d4e-5f" ++ EmptyString
  /\ fetched (added armed (exec (window_fetch network0 [ARequest retry_url])
                             armed))
     = [[AString "http://127.0.0.1:5103/update";
         AInit (mkInit "POST" [("Content-Type", "application/json")]
                  (BodySessionId "0a1b-2c") None)];
        [ARequest retry_url]]
  /\ isCaptureModeActive (exec (window_fetch network0 [ARequest retry_url])
                            armed) = false.
Proof.
  split; [reflexivity|]. split; [reflexivity|]. split; [reflexivity|].
  apply (capture_delivers_session_id network0 [ARequest retry_url] armed
           "https://lmarena.ai" "0a1b-2c" "3d4e-5f" EmptyString);
    reflexivity.
Defined.

End CaptureMore.

(** ** More about the request executor *)

Module ExecutorMore.

Import Str Demux Data Js Uuid Bridge Obs Measures Samples.
Import DemuxFacts InterceptFacts ExecutorFacts RunMore DemuxMore.

Lemma messages_from_fields (entropy : nat -> Entropy) (session_id : string)
    (k : nat) (templates : list MessageTemplate) :
  map m_role (messages_from entropy session_id k templates)
  = map t_role templates
  /\ map m_content (messages_from entropy session_id k templates)
     = map t_content templates
  /\ map m_participantPosition (messages_from entropy session_id k templates)
     = map position_of templates
  /\ map m_experimental_attachments
       (messages_from entropy session_id k templates)
     = map attachments_of templates
  /\ Forall (fun m => m_evaluationSessionId m = session_id
                      /\ m_parentMessageIds m = [])
       (messages_from entropy session_id k templates).
Proof.
  revert k. induction templates as [|t ts IH]; intros k.
  - repeat split. constructor.
  - destruct (IH (S k)) as [H1 [H2 [H3 [H4 H5]]]].
    cbn [messages_from map]. rewrite H1, H2, H3, H4.
    repeat split. constructor; [split; reflexivity | exact H5].
Qed.

Section Facts.

Variable entropy : nat -> Entropy.
Variable network : nat -> list Arg -> FetchOutcome.

Abbreviation executeFetchAndStreamBack :=
  (executeFetchAndStreamBack entropy network).

(** The one call a valid request makes: a POST with the page's
    credentials to the evaluation path of the session, whose body names
    the session, the battle mode and the chat modality, and carries one
    message per template, in the order of the templates, with the
    template's role and content, its attachments when they are an array
    (none otherwise), its participant position ([b] when absent or
    empty), the session's id and no parents. *)
Theorem posted_messages_follow_templates (requestId : string)
    (payload : Payload) (w : World) (session_id : string)
    (templates : list MessageTemplate) :
  truthy (Data.session_id payload) = Some session_id ->
  message_templates payload = Some templates ->
  templates <> [] ->
  let w' := exec (executeFetchAndStreamBack requestId payload) w in
  exists body,
    fetched (added w w')
    = [[AString ("/nextjs-api/stream/post-to-evaluation/" ++ session_id);
        AInit (mkInit "POST"
                 [("Content-Type", "text/plain;charset=UTF-8");
                  ("Accept", "*/*")]
                 (BodyEvaluation body) (Some "include"))]]
    /\ b_id body = session_id
    /\ b_mode body = "battle"
    /\ b_modality body = "chat"
    /\ map m_role (b_messages body) = map t_role templates
    /\ map m_content (b_messages body) = map t_content templates
    /\ map m_participantPosition (b_messages body)
       = map position_of templates
    /\ map m_experimental_attachments (b_messages body)
       = map attachments_of templates
    /\ Forall (fun m => m_evaluationSessionId m = session_id
                        /\ m_parentMessageIds m = [])
         (b_messages body).
Proof.
  intros Hs Ht Hne w'. unfold w', exec.
  rewrite (execute_valid entropy network requestId payload w session_id
             templates Hs Ht Hne).
  cbn [fst]. rewrite added_advance. cbn [fetched].
  rewrite ExecutorClaims.fetched_send_events.
  exists (body_from entropy session_id (uuidCalls w) templates).
  split; [reflexivity|]. unfold body_from. cbn [b_id b_mode b_modality
    b_messages].
  destruct (messages_from_fields entropy session_id (S (S (S (uuidCalls w))))
              templates) as [H1 [H2 [H3 [H4 H5]]]].
  repeat split; assumption.
Qed.

(** A stream that ends cleanly, for a target [a] or [b]: the frames are
    the results of filtering each chunk on its own, in order, the chunks
    without a match left out, then the sentinel; when the chunks end at
    line boundaries their text is what filtering the whole body would
    give. *)
Theorem clean_stream_frames (requestId : string) (payload : Payload)
    (w : World) (session_id : string) (templates : list MessageTemplate)
    (r : Response) :
  truthy (Data.session_id payload) = Some session_id ->
  message_templates payload = Some templates ->
  templates <> [] ->
  network (real_fetches (trace w))
    (request_args entropy session_id (uuidCalls w) templates) = Resolved r ->
  r_ok r = true -> r_has_body r = true -> r_end r = EndOfStream ->
  participant_tag (targetPosition_of payload) ->
  let t := targetPosition_of payload in
  let w' := exec (executeFetchAndStreamBack requestId payload) w in
  emitted (added w w')
  = (map (fun s => mkFrame requestId (DText s)) (relay_texts t (r_chunks r))
     ++ [mkFrame requestId DONE])%list
  /\ List.length (relay_texts t (r_chunks r)) <= List.length (r_chunks r)
  /\ (forallb ends_line (r_chunks r) = true ->
      concat_strings (relay_texts t (r_chunks r))
      = text_of (filterStreamByTarget (concat_strings (r_chunks r)) t)).
Proof.
  intros Hs Ht Hne Hnet Hok Hbody Hend Htag t w'. unfold w', exec.
  rewrite (execute_valid entropy network requestId payload w session_id
             templates Hs Ht Hne).
  cbn [fst]. rewrite added_advance. cbn [emitted].
  rewrite emitted_sends, Hnet. cbn [response_data].
  rewrite Hok, Hbody, Hend. cbn [negb orb].
  split; [now rewrite map_app, map_map|]. split.
  - unfold relay_texts. induction (r_chunks r) as [|c cs IH]; [apply le_n|].
    cbn [flat_map]. rewrite length_app.
    destruct (filterStreamByTarget c t) as [[|a s]|]; cbn [List.length]; lia.
  - intros Hlines. apply relay_texts_of_lines; [|exact Hlines].
    now apply tag_not_newline.
Qed.

(** A call that fails before the stream is read gives one error frame
    and nothing else: the rejection's message when the call is
    rejected; the status and the text of the response when the status
    is not a success or the response has no body (the chunks of such a
    response are never forwarded); the message of the failure when that
    text cannot be read. *)
Theorem failed_call_frames (requestId : string) (payload : Payload)
    (w : World) (session_id : string) (templates : list MessageTemplate) :
  truthy (Data.session_id payload) = Some session_id ->
  message_templates payload = Some templates ->
  templates <> [] ->
  let o := network (real_fetches (trace w))
             (request_args entropy session_id (uuidCalls w) templates) in
  let w' := exec (executeFetchAndStreamBack requestId payload) w in
  (forall message,
     o = Rejected message ->
     emitted (added w w') = [mkFrame requestId (DError message)])
  /\ (forall r,
        o = Resolved r -> r_ok r = false \/ r_has_body r = false ->
        emitted (added w w')
        = [mkFrame requestId
             (DError match r_text r with
                     | inl text => errBadResponse (r_status r) text
                     | inr message => message
                     end)]).
Proof.
  intros Hs Ht Hne o w'. unfold w', exec.
  rewrite (execute_valid entropy network requestId payload w session_id
             templates Hs Ht Hne).
  cbn [fst]. rewrite added_advance. cbn [emitted]. rewrite emitted_sends.
  fold o. split.
  - intros message ->. reflexivity.
  - intros r -> Hbad. cbn [response_data].
    assert (E : negb (r_ok r) || negb (r_has_body r) = true).
    { destruct Hbad as [-> | ->]; [reflexivity | apply orb_true_r]. }
    rewrite E. destruct (r_text r); reflexivity.
Qed.

End Facts.

Lemma posted_messages_follow_templates_witness :
  truthy (session_id payload0) = Some "s-1"
  /\ message_templates payload0 = Some [template0]
  /\ [template0] <> []
  /\ let w' :=
       exec (executeFetchAndStreamBack entropy0 network0 "r-1" payload0)
         initial in
     exists body,
       fetched (added initial w')
       = [[AString ("/nextjs-api/stream/post-to-evaluation/" ++ "s-1");
           AInit (mkInit "POST"
                    [("Content-Type", "text/plain;charset=UTF-8");
                     ("Accept", "*/*")]
                    (BodyEvaluation body) (Some "include"))]]
       /\ b_id body = "s-1"
       /\ b_mode body = "battle"
       /\ b_modality body = "chat"
       /\ map m_role (b_messages body) = map t_role [template0]
       /\ map m_content (b_messages body) = map t_content [template0]
       /\ map m_participantPosition (b_messages body)
          = map position_of [template0]
       /\ map m_experimental_attachments (b_messages body)
          = map attachments_of [template0]
       /\ Forall (fun m => m_evaluationSessionId m = "s-1"
                           /\ m_parentMessageIds m = [])
            (b_messages body).
Proof.
  split; [reflexivity|]. split; [reflexivity|]. split; [discriminate|].
  apply (posted_messages_follow_templates entropy0 network0 "r-1" payload0
           initial "s-1" [template0]).
  - reflexivity.
  - reflexivity.
  - discriminate.
Defined.

Lemma clean_stream_frames_witness :
  truthy (session_id payload0) = Some "s-1"
  /\ message_templates payload0 = Some [template0]
  /\ [template0] <> []
  /\ network0 (real_fetches (trace armed))
       (request_args entropy0 "s-1" (uuidCalls armed) [template0])
     = Resolved response0
  /\ r_ok response0 = true /\ r_has_body response0 = true
  /\ r_end response0 = EndOfStream
  /\ participant_tag (targetPosition_of payload0)
  /\ let t := targetPosition_of payload0 in
     let w' :=
       exec (executeFetchAndStreamBack entropy0 network0 "r-1" payload0)
         armed in
     emitted (added armed w')
     = (map (fun s => mkFrame "r-1" (DText s))
          (relay_texts t (r_chunks response0))
        ++ [mkFrame "r-1" DONE])%list
     /\ List.length (relay_texts t (r_chunks response0))
        <= List.length (r_chunks response0)
     /\ (forallb ends_line (r_chunks response0) = true ->
         concat_strings (relay_texts t (r_chunks response0))
         = text_of
             (filterStreamByTarget (concat_strings (r_chunks response0)) t)).
Proof.
  split; [reflexivity|]. split; [reflexivity|]. split; [discriminate|].
  split; [reflexivity|]. split; [reflexivity|]. split; [reflexivity|].
  split; [reflexivity|]. split; [vm_compute; auto|].
  apply (clean_stream_frames entropy0 network0 "r-1" payload0 armed "s-1"
           [template0] response0).
  - reflexivity.
  - reflexivity.
  - discriminate.
  - reflexivity.
  - reflexivity.
  - reflexivity.
  - reflexivity.
  - vm_compute. auto.
Defined.

Lemma failed_call_frames_witness :
  truthy (session_id payload0) = Some "s-1"
  /\ message_templates payload0 = Some [template0]
  /\ [template0] <> []
  /\ let o := (fun (_ : nat) (_ : list Arg) => Rejected "offline")
                (real_fetches (trace armed))
                (request_args entropy0 "s-1" (uuidCalls armed) [template0]) in
     let w' :=
       exec (executeFetchAndStreamBack entropy0
               (fun _ _ => Rejected "offline") "r-1" payload0) armed in
     (forall message,
        o = Rejected message ->
        emitted (added armed w') = [mkFrame "r-1" (DError message)])
     /\ (forall r,
           o = Resolved r -> r_ok r = false \/ r_has_body r = false ->
           emitted (added armed w')
           = [mkFrame "r-1"
                (DError match r_text r with
                        | inl text => errBadResponse (r_status r) text
                        | inr message => message
                        end)]).
Proof.
  split; [reflexivity|]. split; [reflexivity|]. split; [discriminate|].
  apply (failed_call_frames entropy0 (fun _ _ => Rejected "offline") "r-1"
           payload0 armed "s-1" [template0]).
  - reflexivity.
  - reflexivity.
  - discriminate.
Defined.

End ExecutorMore.

(** ** The identifier generator *)

Module UuidFacts.

Import Str Data Uuid Obs Measures Samples.

Lemma length_app_str (a b : string) :
  String.length (a ++ b) = String.length a + String.length b.
Proof. induction a as [|c a IH]; [reflexivity|]. cbn. now rewrite IH. Qed.

Lemma length_zeros (n : nat) : String.length (zeros n) = n.
Proof. induction n as [|n IH]; [reflexivity|]. cbn. now rewrite IH. Qed.

Lemma length_padStart0 (n : nat) (s : string) :
  String.length (padStart0 n s) = Nat.max n (String.length s).
Proof. unfold padStart0. rewrite length_app_str, length_zeros. lia. Qed.

Lemma length_substring (n m : nat) (s : string) :
  n + m <= String.length s -> String.length (String.substring n m s) = m.
Proof.
  revert n m. induction s as [|c s IH]; intros n m H.
  - cbn in H. assert (n = 0 /\ m = 0) as [-> ->] by lia. reflexivity.
  - destruct n as [|n].
    + destruct m as [|m]; [reflexivity|]. cbn [String.substring String.length].
      rewrite IH; [reflexivity|]. cbn in H. lia.
    + cbn [String.substring]. apply IH. cbn in H. lia.
Qed.

Lemma all_chars_app (p : ascii -> bool) (a b : string) :
  all_chars p (a ++ b) = all_chars p a && all_chars p b.
Proof.
  induction a as [|c a IH]; [reflexivity|]. cbn. now rewrite IH, andb_assoc.
Qed.

Lemma all_chars_substring (p : ascii -> bool) (n m : nat) (s : string) :
  all_chars p s = true -> all_chars p (String.substring n m s) = true.
Proof.
  revert n m. induction s as [|c s IH]; intros n m H.
  - destruct n, m; reflexivity.
  - cbn [all_chars] in H. apply andb_prop in H as [Hc Hs].
    destruct n as [|n].
    + destruct m as [|m]; [reflexivity|]. cbn [String.substring all_chars].
      now rewrite Hc, IH.
    + cbn [String.substring]. now apply IH.
Qed.

Lemma all_chars_zeros (n : nat) : all_chars is_hex_char (zeros n) = true.
Proof. induction n as [|n IH]; [reflexivity|]. exact IH. Qed.

Lemma hex_string_of_uint (d : Hexadecimal.uint) :
  all_chars is_hex_char (HexadecimalString.NilEmpty.string_of_uint d) = true.
Proof. induction d; cbn; auto. Qed.

Lemma hex_toString16 (n : N) : all_chars is_hex_char (toString16 n) = true.
Proof.
  unfold toString16, HexadecimalString.NilZero.string_of_uint.
  destruct (N.to_hex_uint n); try reflexivity; apply hex_string_of_uint.
Qed.

Lemma byte_written (b : Byte.byte) : byte_written_ok b = true.
Proof. destruct b; vm_compute; reflexivity. Qed.

Lemma variant_written (b : Byte.byte) : variant_written_ok b = true.
Proof. destruct b; vm_compute; reflexivity. Qed.

(** What [hex2] writes for a byte. *)
Lemma hex2_byte (b : Byte.byte) :
  exists c1 c2,
    hex2 (Byte.to_N b) = String c1 (String c2 EmptyString)
    /\ is_hex_char c1 = true /\ is_hex_char c2 = true
    /\ parse_hex (String c1 (String c2 EmptyString)) = Some (Byte.to_N b)
    /\ parse_hex (String c2 EmptyString) = Some (N.land (Byte.to_N b) 15).
Proof.
  pose proof (byte_written b) as H. unfold byte_written_ok in H.
  destruct (hex2 (Byte.to_N b)) as [|c1 [|c2 [|c3 s]]]; try discriminate.
  exists c1, c2. split; [reflexivity|].
  apply andb_prop in H as [H H3]. apply andb_prop in H as [H1 H2].
  destruct (parse_hex (String c1 (String c2 EmptyString))) as [n|];
    [|discriminate].
  destruct (parse_hex (String c2 EmptyString)) as [low|]; [|discriminate].
  apply andb_prop in H3 as [Hn Hl]. apply N.eqb_eq in Hn, Hl.
  subst n low. repeat split; assumption.
Qed.

Lemma hex2_variant (b : Byte.byte) :
  exists c1 c2,
    hex2 (N.lor (N.land (Byte.to_N b) 63) 128)
    = String c1 (String c2 EmptyString)
    /\ (c1 = "8" \/ c1 = "9" \/ c1 = "a" \/ c1 = "b")%char
    /\ is_hex_char c1 = true /\ is_hex_char c2 = true
    /\ parse_hex (String c1 (String c2 EmptyString))
       = Some (N.lor (N.land (Byte.to_N b) 63) 128).
Proof.
  pose proof (variant_written b) as H. unfold variant_written_ok in H.
  cbv zeta in H.
  destruct (hex2 (N.lor (N.land (Byte.to_N b) 63) 128))
    as [|c1 [|c2 [|c3 s]]]; try discriminate.
  exists c1, c2. split; [reflexivity|].
  apply andb_prop in H as [H H3]. apply andb_prop in H as [H1 H2].
  destruct (parse_hex (String c1 (String c2 EmptyString))) as [n|];
    [|discriminate].
  apply N.eqb_eq in H3. subst n.
  assert (Hc : (c1 = "8" \/ c1 = "9" \/ c1 = "a" \/ c1 = "b")%char).
  { apply orb_prop in H1 as [H1|H1]; [|apply Ascii.eqb_eq in H1; auto].
    apply orb_prop in H1 as [H1|H1]; [|apply Ascii.eqb_eq in H1; auto].
    apply orb_prop in H1 as [H1|H1]; apply Ascii.eqb_eq in H1; auto. }
  split; [exact Hc|]. split; [|split; [exact H2 | reflexivity]].
  destruct Hc as [->|[->|[->| ->]]]; reflexivity.
Qed.

(** A string of known length, as its characters. *)
Ltac explode s H :=
  lazymatch type of H with
  | String.length s = O =>
      destruct s; [clear H | discriminate H]
  | String.length s = S _ =>
      let c := fresh "c" in
      let s' := fresh "s" in
      destruct s as [|c s'];
      [discriminate H
      | cbn [String.length] in H; apply eq_add_S in H; explode s' H]
  end.

Ltac split_hex :=
  repeat match goal with
         | H : _ && _ = true |- _ =>
             let H1 := fresh "Hh" in
             let H2 := fresh "Hh" in
             apply andb_prop in H as [H1 H2]
         end.

Ltac use_hex :=
  repeat match goal with
         | H : is_hex_char _ = true |- _ => rewrite H; clear H
         end.

(** The layout of an identifier: the first twelve characters of the
    padded time stamp in groups of eight and four, the version and the
    three characters after the first written for bytes 0 and 1, the two
    characters of the variant byte and the two of byte 3, and the twelve
    characters of bytes 4 to 9. *)
Lemma uuid_layout (e : Entropy) :
  exists p1 p2 a2 b1 b2 v1 v2 d1 d2 p5,
    generateUUIDv7 e
    = p1 ++ "-" ++ p2 ++ "-"
      ++ String "7" (String a2 (String b1 (String b2 EmptyString))) ++ "-"
      ++ String v1 (String v2 (String d1 (String d2 EmptyString))) ++ "-"
      ++ p5
    /\ p1 = substring 0 8 (padStart0 12 (toString16 (now e)))
    /\ p2 = substring 8 12 (padStart0 12 (toString16 (now e)))
    /\ String.length p1 = 8 /\ String.length p2 = 4
    /\ all_chars is_hex_char p1 = true /\ all_chars is_hex_char p2 = true
    /\ is_hex_char a2 = true /\ is_hex_char b1 = true
    /\ is_hex_char b2 = true
    /\ (v1 = "8" \/ v1 = "9" \/ v1 = "a" \/ v1 = "b")%char
    /\ is_hex_char v1 = true /\ is_hex_char v2 = true
    /\ is_hex_char d1 = true /\ is_hex_char d2 = true
    /\ String.length p5 = 12 /\ all_chars is_hex_char p5 = true
    /\ parse_hex (String a2 EmptyString) = Some (N.land (byte_at e 0) 15)
    /\ parse_hex (String b1 (String b2 EmptyString)) = Some (byte_at e 1)
    /\ parse_hex (String v1 (String v2 EmptyString))
       = Some (N.lor (N.land (byte_at e 2) 63) 128)
    /\ parse_hex (String d1 (String d2 EmptyString)) = Some (byte_at e 3)
    /\ map (fun i => parse_hex (substring (2 * i) (2 + 2 * i) p5)) (seq 0 6)
       = map (fun i => Some (byte_at e i)) (seq 4 6).
Proof.
  unfold generateUUIDv7, hex_slice, byte_at.
  destruct (hex2_byte (randomBytes e 0)) as (a1 & a2 & E0 & _ & Ha2 & _ & P0).
  destruct (hex2_byte (randomBytes e 1)) as (b1 & b2 & E1 & Hb1 & Hb2 & P1 & _).
  destruct (hex2_variant (randomBytes e 2))
    as (v1 & v2 & E2 & Hv & Hv1 & Hv2 & P2).
  destruct (hex2_byte (randomBytes e 3)) as (d1 & d2 & E3 & Hd1 & Hd2 & P3 & _).
  destruct (hex2_byte (randomBytes e 4)) as (e1 & e2 & E4 & He1 & He2 & P4 & _).
  destruct (hex2_byte (randomBytes e 5)) as (f1 & f2 & E5 & Hf1 & Hf2 & P5 & _).
  destruct (hex2_byte (randomBytes e 6)) as (g1 & g2 & E6 & Hg1 & Hg2 & P6 & _).
  destruct (hex2_byte (randomBytes e 7)) as (h1 & h2 & E7 & Hh1 & Hh2 & P7 & _).
  destruct (hex2_byte (randomBytes e 8)) as (i1 & i2 & E8 & Hi1 & Hi2 & P8 & _).
  destruct (hex2_byte (randomBytes e 9)) as (j1 & j2 & E9 & Hj1 & Hj2 & P9 & _).
  cbv zeta.
  change (2 - 0) with 2. change (10 - 4) with 6. cbn [seq map].
  rewrite E0, E1, E2, E3, E4, E5, E6, E7, E8, E9.
  set (ts := padStart0 12 (toString16 (now e))).
  assert (Hlen : 12 <= String.length ts).
  { unfold ts. rewrite length_padStart0. lia. }
  assert (Hhex : all_chars is_hex_char ts = true).
  { unfold ts, padStart0. now rewrite all_chars_app, all_chars_zeros,
      hex_toString16. }
  exists (substring 0 8 ts), (substring 8 12 ts), a2, b1, b2, v1, v2, d1, d2.
  exists (String e1 (String e2 (String f1 (String f2 (String g1 (String g2
            (String h1 (String h2 (String i1 (String i2 (String j1
               (String j2 EmptyString)))))))))))).
  split; [reflexivity|]. split; [reflexivity|]. split; [reflexivity|].
  split; [apply length_substring; lia|].
  split; [apply length_substring; lia|].
  split; [now apply all_chars_substring|].
  split; [now apply all_chars_substring|].
  split; [exact Ha2|]. split; [exact Hb1|]. split; [exact Hb2|].
  split; [exact Hv|]. split; [exact Hv1|]. split; [exact Hv2|].
  split; [exact Hd1|]. split; [exact Hd2|]. split; [reflexivity|].
  split; [cbn [all_chars]; use_hex; reflexivity|].
  split; [exact P0|]. split; [exact P1|]. split; [exact P2|].
  split; [exact P3|].
  cbn [seq map]. unfold byte_at.
  change (substring (2 * 0) (2 + 2 * 0)) with (substring 0 2).
  change (substring (2 * 1) (2 + 2 * 1)) with (substring 2 4).
  change (substring (2 * 2) (2 + 2 * 2)) with (substring 4 6).
  change (substring (2 * 3) (2 + 2 * 3)) with (substring 6 8).
  change (substring (2 * 4) (2 + 2 * 4)) with (substring 8 10).
  change (substring (2 * 5) (2 + 2 * 5)) with (substring 10 12).
  unfold substring. cbn [Nat.sub String.substring].
  now rewrite P4, P5, P6, P7, P8, P9.
Qed.

(** Every identifier has the layout of a version 7 UUID, whatever the
    clock and the random bytes: 36 characters, hyphens after 8, 13, 18
    and 23 of them, the version digit [7], a variant digit among [8],
    [9], [a] and [b], and lowercase hexadecimal digits everywhere
    else. *)
Theorem uuid_format (e : Entropy) :
  let id := generateUUIDv7 e in
  String.length id = 36
  /\ char_at 8 id = Some "-"%char /\ char_at 13 id = Some "-"%char
  /\ char_at 18 id = Some "-"%char /\ char_at 23 id = Some "-"%char
  /\ char_at 14 id = Some "7"%char
  /\ (exists v, char_at 19 id = Some v
                /\ (v = "8" \/ v = "9" \/ v = "a" \/ v = "b")%char)
  /\ all_chars is_hex_char (uuid_digits id) = true.
Proof.
  destruct (uuid_layout e)
    as (p1 & p2 & a2 & b1 & b2 & v1 & v2 & d1 & d2 & p5 & E & _ & _ & L1 & L2
        & H1 & H2 & Ha2 & Hb1 & Hb2 & Hv & Hv1 & Hv2 & Hd1 & Hd2 & L5 & H5 & _).
  cbv zeta. rewrite E. clear E.
  explode p1 L1. explode p2 L2. explode p5 L5.
  cbn [all_chars] in H1, H2, H5.
  split; [reflexivity|]. split; [reflexivity|]. split; [reflexivity|].
  split; [reflexivity|]. split; [reflexivity|]. split; [reflexivity|].
  split; [exists v1; split; [reflexivity | exact Hv]|].
  unfold uuid_digits, substring.
  cbn [append Nat.sub String.substring all_chars].
  split_hex. use_hex. reflexivity.
Qed.

Lemma random_of_generated (e : Entropy) :
  random_of (generateUUIDv7 e) = map Some (used_bits e).
Proof.
  destruct (uuid_layout e)
    as (p1 & p2 & a2 & b1 & b2 & v1 & v2 & d1 & d2 & p5 & E & _ & _ & L1 & L2
        & _ & _ & _ & _ & _ & _ & _ & _ & _ & _ & L5 & _ & P0 & P1 & P2 & P3
        & P5).
  rewrite E. clear E. explode p1 L1. explode p2 L2. explode p5 L5.
  unfold random_of, used_bits.
  cbn [seq map app] in *.
  unfold substring in *. cbn [append Nat.sub Nat.add Nat.mul String.substring]
    in *.
  rewrite P0, P1, P2, P3. do 4 f_equal. exact P5.
Qed.

(** The random part can be read back from an identifier: the last three
    groups hold, in hexadecimal, the low nibble of byte 0, byte 1, the
    low six bits of byte 2 under the variant bits, and bytes 3 to 9. *)
Theorem uuid_random_round_trip (e : Entropy) :
  random_of (generateUUIDv7 e) = map Some (used_bits e).
Proof.
  destruct (uuid_layout e)
    as (p1 & p2 & a2 & b1 & b2 & v1 & v2 & d1 & d2 & p5 & E & _ & _ & L1 & L2
        & _ & _ & _ & _ & _ & _ & _ & _ & _ & _ & L5 & _ & P0 & P1 & P2 & P3
        & P5).
  rewrite E. clear E. explode p1 L1. explode p2 L2. explode p5 L5.
  unfold random_of, used_bits.
  cbn [seq map app] in *.
  unfold substring in *. cbn [append Nat.sub Nat.add Nat.mul String.substring]
    in *.
  rewrite P0, P1, P2, P3. do 4 f_equal. exact P5.
Qed.

Lemma map_Some_inj {A} (a b : list A) : map Some a = map Some b -> a = b.
Proof.
  revert b. induction a as [|x a IH]; intros [|y b] H; try discriminate.
  - reflexivity.
  - cbn [map] in H. injection H as -> H. f_equal. now apply IH.
Qed.

(** Two identifiers are different as soon as the random bytes behind
    them differ in a bit that is written. *)
Lemma generated_distinct (e1 e2 : Entropy) :
  used_bits e1 <> used_bits e2 ->
  generateUUIDv7 e1 <> generateUUIDv7 e2.
Proof.
  intros Hne Heq. apply Hne.
  pose proof (random_of_generated e1) as R1.
  pose proof (random_of_generated e2) as R2.
  rewrite Heq, R2 in R1. symmetry. now apply map_Some_inj.
Qed.

(** *** The time stamp *)

Ltac digit_cases x :=
  let p := fresh "p" in
  destruct x as [|p]; [|do 4 (try destruct p as [p|p|])].

Lemma of_lu_digit (x : N) (d : Hexadecimal.uint) :
  (x < 16)%N ->
  HexadecimalPos.Unsigned.of_lu (digit_of x d)
  = (x + 16 * HexadecimalPos.Unsigned.of_lu d)%N.
Proof. intros H. digit_cases x; try reflexivity; lia. Qed.

Lemma nb_digits_digit (x : N) (d : Hexadecimal.uint) :
  Hexadecimal.nb_digits (digit_of x d) = S (Hexadecimal.nb_digits d).
Proof. digit_cases x; reflexivity. Qed.

Lemma of_lu_little (k : nat) (n : N) :
  HexadecimalPos.Unsigned.of_lu (little_digits k n)
  = (n mod 16 ^ N.of_nat k)%N.
Proof.
  revert n. induction k as [|k IH]; intros n.
  - cbn. now rewrite N.mod_1_r.
  - cbn [little_digits]. rewrite of_lu_digit by (apply N.mod_lt; lia).
    rewrite IH, Nat2N.inj_succ, N.pow_succ_r'.
    now rewrite N.Div0.mod_mul_r.
Qed.

Lemma nb_digits_little (k : nat) (n : N) :
  Hexadecimal.nb_digits (little_digits k n) = k.
Proof.
  revert n. induction k as [|k IH]; intros n; [reflexivity|].
  cbn [little_digits]. now rewrite nb_digits_digit, IH.
Qed.

(** A number below [16^k] is written with the digits of
    [little_digits k], leading zeros left out. *)
Lemma to_hex_little (k : nat) (n : N) :
  (n < 16 ^ N.of_nat k)%N ->
  N.to_hex_uint n
  = Hexadecimal.unorm (Hexadecimal.rev (little_digits k n)).
Proof.
  intros H. rewrite <- HexadecimalN.Unsigned.to_of. f_equal.
  unfold N.of_hex_uint.
  rewrite HexadecimalPos.Unsigned.of_lu_rev, of_lu_little.
  symmetry. now apply N.mod_small.
Qed.

Lemma length_string_of_uint (d : Hexadecimal.uint) :
  String.length (HexadecimalString.NilEmpty.string_of_uint d)
  = Hexadecimal.nb_digits d.
Proof. induction d; cbn; auto. Qed.

Lemma nilzero_string (d : Hexadecimal.uint) :
  d <> Hexadecimal.Nil ->
  HexadecimalString.NilZero.string_of_uint d
  = HexadecimalString.NilEmpty.string_of_uint d.
Proof. destruct d; [contradiction | reflexivity..]. Qed.

Lemma length_toString16 (k : nat) (n : N) :
  1 <= k -> (n < 16 ^ N.of_nat k)%N -> String.length (toString16 n) <= k.
Proof.
  intros Hk H. unfold toString16. rewrite (to_hex_little k n H).
  rewrite nilzero_string by apply HexadecimalFacts.unorm_nonnil.
  rewrite length_string_of_uint.
  assert (Hne : Hexadecimal.rev (little_digits k n) <> Hexadecimal.Nil).
  { intros E. apply (f_equal Hexadecimal.nb_digits) in E.
    rewrite HexadecimalFacts.nb_digits_rev, nb_digits_little in E.
    cbn in E. lia. }
  pose proof (HexadecimalFacts.nb_digits_unorm _ Hne) as Hle.
  rewrite HexadecimalFacts.nb_digits_rev, nb_digits_little in Hle. exact Hle.
Qed.

Lemma to_hex_uint_nonnil (n : N) : N.to_hex_uint n <> Hexadecimal.Nil.
Proof.
  destruct n as [|p]; [discriminate|].
  apply HexadecimalPos.Unsigned.to_uint_nonnil.
Qed.

(** [toString(16)] can be read back. *)
Lemma parse_hex_toString16 (n : N) : parse_hex (toString16 n) = Some n.
Proof.
  unfold parse_hex, toString16.
  rewrite HexadecimalString.NilZero.usu by apply to_hex_uint_nonnil.
  cbn [option_map]. now rewrite HexadecimalN.Unsigned.of_to.
Qed.

Lemma toString16_nonempty (n : N) : toString16 n <> EmptyString.
Proof.
  intros E. pose proof (parse_hex_toString16 n) as H. rewrite E in H.
  discriminate.
Qed.

Lemma parse_hex_zero (s : string) :
  s <> EmptyString -> parse_hex (String "0" s) = parse_hex s.
Proof.
  intros H. destruct s as [|c s]; [contradiction|].
  unfold parse_hex.
  cbn [HexadecimalString.NilZero.uint_of_string
       HexadecimalString.NilEmpty.uint_of_string].
  destruct (HexadecimalString.uint_of_char c
              (HexadecimalString.NilEmpty.uint_of_string s)); reflexivity.
Qed.

(** Leading zeros do not change what a hexadecimal string denotes. *)
Lemma parse_hex_padStart0 (k : nat) (s : string) :
  s <> EmptyString -> parse_hex (padStart0 k s) = parse_hex s.
Proof.
  intros H. unfold padStart0.
  induction (k - String.length s) as [|m IH]; [reflexivity|].
  cbn [zeros append]. rewrite parse_hex_zero; [exact IH|].
  destruct (zeros m); [exact H | discriminate].
Qed.

Lemma substring_halves (s : string) :
  String.length s = 12 -> substring 0 8 s ++ substring 8 12 s = s.
Proof. intros H. explode s H. reflexivity. Qed.

(** The creation time can be read back from an identifier: for a clock
    below [2^48] milliseconds, the first two groups are its twelve
    hexadecimal digits. *)
Theorem uuid_timestamp_round_trip (e : Entropy) :
  (now e < 2 ^ 48)%N ->
  timestamp_of (generateUUIDv7 e) = Some (now e).
Proof.
  intros Hnow.
  destruct (uuid_layout e)
    as (p1 & p2 & a2 & b1 & b2 & v1 & v2 & d1 & d2 & p5 & E & E1 & E2 & L1
        & L2 & _).
  assert (Hts : String.length (padStart0 12 (toString16 (now e))) = 12).
  { rewrite length_padStart0.
    pose proof (length_toString16 12 (now e)) as H.
    assert (Hb : (now e < 16 ^ N.of_nat 12)%N).
    { change (16 ^ N.of_nat 12)%N with (2 ^ 48)%N. exact Hnow. }
    specialize (H ltac:(lia) Hb). lia. }
  assert (Hp : p1 ++ p2 = padStart0 12 (toString16 (now e))).
  { rewrite E1, E2. now apply substring_halves. }
  unfold timestamp_of. rewrite E.
  assert (Hsub : substring 0 8 (p1 ++ "-" ++ p2 ++ "-"
                   ++ String "7" (String a2 (String b1 (String b2 EmptyString)))
                   ++ "-"
                   ++ String v1 (String v2 (String d1 (String d2 EmptyString)))
                   ++ "-" ++ p5)
                 ++ substring 9 13 (p1 ++ "-" ++ p2 ++ "-"
                   ++ String "7" (String a2 (String b1 (String b2 EmptyString)))
                   ++ "-"
                   ++ String v1 (String v2 (String d1 (String d2 EmptyString)))
                   ++ "-" ++ p5)
                 = p1 ++ p2).
  { clear E E1 E2 Hp. explode p1 L1. explode p2 L2. reflexivity. }
  rewrite Hsub, Hp, parse_hex_padStart0 by apply toString16_nonempty.
  apply parse_hex_toString16.
Qed.

Lemma uuid_timestamp_round_trip_witness :
  (now (entropy0 0) < 2 ^ 48)%N
  /\ timestamp_of (generateUUIDv7 (entropy0 0)) = Some (now (entropy0 0)).
Proof.
  split; [reflexivity|].
  apply (uuid_timestamp_round_trip (entropy0 0)). reflexivity.
Defined.

(** *** The order of identifiers *)

Abbreviation str_of := HexadecimalString.NilEmpty.string_of_uint.

Lemma append_assoc_str (a b c : string) : (a ++ b) ++ c = a ++ (b ++ c).
Proof. induction a as [|x a IH]; [reflexivity|]. cbn. now rewrite IH. Qed.

Lemma str_revapp (l acc : Hexadecimal.uint) :
  str_of (Hexadecimal.revapp l acc)
  = str_of (Hexadecimal.rev l) ++ str_of acc.
Proof.
  revert acc. unfold Hexadecimal.rev.
  induction l; intros acc; cbn [Hexadecimal.revapp]; [reflexivity|..];
    rewrite IHl; symmetry; rewrite IHl, append_assoc_str; reflexivity.
Qed.

Lemma str_rev_digit (x : N) (l : Hexadecimal.uint) :
  str_of (Hexadecimal.rev (digit_of x l))
  = str_of (Hexadecimal.rev l) ++ str_of (digit_of x Hexadecimal.Nil).
Proof.
  digit_cases x; unfold Hexadecimal.rev;
    cbn [digit_of Hexadecimal.revapp]; apply str_revapp.
Qed.

(** The padded hexadecimal writing of a number below [16^k] is its [k]
    digits, the highest first. *)
Lemma pad_unorm (d : Hexadecimal.uint) :
  d <> Hexadecimal.Nil ->
  padStart0 (Hexadecimal.nb_digits d) (str_of (Hexadecimal.unorm d))
  = str_of d.
Proof.
  assert (Hnz : forall (c : ascii) (u : Hexadecimal.uint),
            padStart0 (S (Hexadecimal.nb_digits u)) (String c (str_of u))
            = String c (str_of u)).
  { intros c u. unfold padStart0. cbn [String.length].
    rewrite length_string_of_uint, Nat.sub_diag. reflexivity. }
  induction d; intros Hne; try contradiction;
    try (cbn [Hexadecimal.unorm Hexadecimal.nzhead Hexadecimal.nb_digits
              HexadecimalString.NilEmpty.string_of_uint]; apply Hnz).
  rewrite HexadecimalFacts.unorm_D0.
  destruct (Hexadecimal.uint_eq_dec d Hexadecimal.Nil) as [->|Hd];
    [reflexivity|].
  specialize (IHd Hd). cbn [Hexadecimal.nb_digits
    HexadecimalString.NilEmpty.string_of_uint].
  pose proof (HexadecimalFacts.nb_digits_unorm d Hd) as Hle.
  rewrite <- length_string_of_uint in Hle.
  unfold padStart0 in *.
  replace (S (Hexadecimal.nb_digits d)
           - String.length (str_of (Hexadecimal.unorm d)))
    with (S (Hexadecimal.nb_digits d
             - String.length (str_of (Hexadecimal.unorm d)))) by lia.
  cbn [zeros append]. now rewrite IHd.
Qed.

Lemma padded_toString16 (k : nat) (n : N) :
  1 <= k -> (n < 16 ^ N.of_nat k)%N ->
  padStart0 k (toString16 n) = str_of (Hexadecimal.rev (little_digits k n)).
Proof.
  intros Hk H. unfold toString16. rewrite (to_hex_little k n H).
  rewrite nilzero_string by apply HexadecimalFacts.unorm_nonnil.
  assert (Hne : Hexadecimal.rev (little_digits k n) <> Hexadecimal.Nil).
  { intros E. apply (f_equal Hexadecimal.nb_digits) in E.
    rewrite HexadecimalFacts.nb_digits_rev, nb_digits_little in E.
    cbn in E. lia. }
  pose proof (pad_unorm _ Hne) as P.
  now rewrite HexadecimalFacts.nb_digits_rev, nb_digits_little in P.
Qed.

Lemma compare_refl_str (s : string) : String.compare s s = Eq.
Proof.
  induction s as [|c s IH]; [reflexivity|]. cbn [String.compare].
  unfold Ascii.compare. now rewrite N.compare_refl.
Qed.

Lemma compare_app_same (a b x y : string) :
  String.length a = String.length b ->
  String.compare (a ++ x) (b ++ y)
  = match String.compare a b with
    | Eq => String.compare x y
    | o => o
    end.
Proof.
  revert b. induction a as [|c a IH]; intros [|d b] H; try discriminate.
  - reflexivity.
  - cbn [append String.compare]. destruct (Ascii.compare c d);
      [|reflexivity..].
    apply IH. now injection H.
Qed.

Lemma digit_string_lt (x y : N) :
  (x < y)%N -> (y < 16)%N ->
  String.compare (str_of (digit_of x Hexadecimal.Nil))
    (str_of (digit_of y Hexadecimal.Nil)) = Lt.
Proof.
  intros Hxy Hy. digit_cases x; digit_cases y; try reflexivity; lia.
Qed.

Lemma length_fixed (k : nat) (n : N) :
  String.length (str_of (Hexadecimal.rev (little_digits k n))) = k.
Proof.
  now rewrite length_string_of_uint, HexadecimalFacts.nb_digits_rev,
    nb_digits_little.
Qed.

(** Numbers below [16^k] compare as their [k] digits do. *)
Lemma fixed_digits_lt (k : nat) (n m : N) :
  (n < m)%N -> (m < 16 ^ N.of_nat k)%N ->
  String.compare (str_of (Hexadecimal.rev (little_digits k n)))
    (str_of (Hexadecimal.rev (little_digits k m))) = Lt.
Proof.
  revert n m. induction k as [|k IH]; intros n m Hnm Hm.
  - cbn in Hm. lia.
  - cbn [little_digits]. rewrite !str_rev_digit.
    rewrite compare_app_same by now rewrite !length_fixed.
    rewrite Nat2N.inj_succ, N.pow_succ_r' in Hm.
    assert (Hdiv : (m / 16 < 16 ^ N.of_nat k)%N)
      by (apply N.Div0.div_lt_upper_bound; lia).
    pose proof (N.Div0.div_mod n 16) as En.
    pose proof (N.Div0.div_mod m 16) as Em.
    pose proof (N.mod_lt n 16 ltac:(lia)) as Ln.
    pose proof (N.mod_lt m 16 ltac:(lia)) as Lm.
    destruct (N.lt_trichotomy (n / 16) (m / 16)) as [Hlt|[Heq|Hgt]].
    + now rewrite (IH _ _ Hlt Hdiv).
    + rewrite Heq, compare_refl_str. apply digit_string_lt; lia.
    + exfalso. clear - Hnm Hgt En Em Ln Lm.
      set (qn := (n / 16)%N) in *. set (rn := (n mod 16)%N) in *.
      set (qm := (m / 16)%N) in *. set (rm := (m mod 16)%N) in *.
      clearbody qn rn qm rm. lia.
Qed.

(** Identifiers sort by creation time: an identifier made at an
    earlier millisecond precedes, as a string, every identifier made at
    a later one (below [2^48]), whatever the random bytes. *)
Theorem uuid_ordered_by_time (e1 e2 : Entropy) :
  (now e1 < now e2)%N -> (now e2 < 2 ^ 48)%N ->
  String.compare (generateUUIDv7 e1) (generateUUIDv7 e2) = Lt.
Proof.
  intros Hlt Hb.
  assert (H16 : (16 ^ N.of_nat 12 = 2 ^ 48)%N) by reflexivity.
  destruct (uuid_layout e1)
    as (p1 & p2 & a2 & b1 & b2 & v1 & v2 & d1 & d2 & p5 & E & E1 & E2 & L1
        & L2 & _).
  destruct (uuid_layout e2)
    as (q1 & q2 & a2' & b1' & b2' & v1' & v2' & d1' & d2' & q5 & F & F1 & F2
        & M1 & M2 & _).
  rewrite E, F. clear E F.
  assert (Hp : p1 ++ p2
               = str_of (Hexadecimal.rev (little_digits 12 (now e1)))).
  { rewrite E1, E2, <- padded_toString16 by (rewrite ?H16; lia).
    apply substring_halves. rewrite padded_toString16 by (rewrite ?H16; lia).
    apply length_fixed. }
  assert (Hq : q1 ++ q2
               = str_of (Hexadecimal.rev (little_digits 12 (now e2)))).
  { rewrite F1, F2, <- padded_toString16 by (rewrite ?H16; lia).
    apply substring_halves. rewrite padded_toString16 by (rewrite ?H16; lia).
    apply length_fixed. }
  pose proof (fixed_digits_lt 12 (now e1) (now e2) Hlt
                ltac:(rewrite H16; exact Hb)) as Hcmp.
  rewrite <- Hp, <- Hq in Hcmp.
  rewrite compare_app_same in Hcmp by congruence.
  rewrite compare_app_same by congruence.
  destruct (String.compare p1 q1); [|reflexivity|discriminate].
  cbn [append String.compare].
  change (Ascii.compare "-" "-") with Eq. cbv iota.
  rewrite compare_app_same by congruence. now rewrite Hcmp.
Qed.

Lemma uuid_ordered_by_time_witness :
  (now (entropy0 0) < now (entropy0 1))%N
  /\ (now (entropy0 1) < 2 ^ 48)%N
  /\ String.compare (generateUUIDv7 (entropy0 0)) (generateUUIDv7 (entropy0 1))
     = Lt.
Proof.
  split; [reflexivity|]. split; [reflexivity|].
  apply (uuid_ordered_by_time (entropy0 0) (entropy0 1)); reflexivity.
Defined.

End UuidFacts.

(** ** The identifiers of a request *)

Module RequestIds.

Import Str Data Js Uuid Bridge Obs Measures Samples.
Import ExecutorFacts UuidFacts.

Lemma NoDup_map_through {A B C} (f : A -> B) (g : A -> C) (l : list A) :
  (forall x y, g x = g y -> f x = f y) ->
  NoDup (map f l) -> NoDup (map g l).
Proof.
  intros Hfg. induction l as [|x l IH]; intros H; [constructor|].
  cbn [map] in *. inversion H as [|? ? Hin Hnd]. subst.
  constructor; [|now apply IH].
  intros Hg. apply Hin. apply in_map_iff in Hg as [y [Hy Hl]].
  apply in_map_iff. exists y. split; [|exact Hl]. now apply Hfg.
Qed.

(** The identifiers a request posts (user message, two participant
    slots, one per template) are pairwise different as soon as the
    random parts drawn for them are, even when all of them are made in
    the same millisecond. *)
Theorem request_identifiers_distinct (entropy : nat -> Entropy)
    (network : nat -> list Arg -> FetchOutcome) (requestId : string)
    (payload : Payload) (w : World) (session_id : string)
    (templates : list MessageTemplate) :
  truthy (Data.session_id payload) = Some session_id ->
  message_templates payload = Some templates ->
  templates <> [] ->
  NoDup (map (fun k => used_bits (entropy k))
           (seq (uuidCalls w) (List.length templates + 3))) ->
  let w' := exec (executeFetchAndStreamBack entropy network requestId payload)
              w in
  exists body,
    fetched (added w w')
    = [evaluation_args ("/nextjs-api/stream/post-to-evaluation/" ++ session_id)
         "POST" body]
    /\ List.length (body_ids body) = List.length templates + 3
    /\ NoDup (body_ids body).
Proof.
  intros Hs Ht Hne Hnd w'. unfold w', exec.
  rewrite (execute_valid entropy network requestId payload w session_id
             templates Hs Ht Hne).
  cbn [fst]. rewrite added_advance. cbn [fetched].
  rewrite ExecutorClaims.fetched_send_events.
  exists (body_from entropy session_id (uuidCalls w) templates).
  split; [reflexivity|].
  rewrite ExecutorClaims.body_from_ids. unfold identifiers.
  split; [now rewrite length_map, length_seq|].
  eapply NoDup_map_through; [|exact Hnd].
  intros x y Hxy. cbv beta in Hxy.
  destruct (list_eq_dec N.eq_dec (used_bits (entropy x))
              (used_bits (entropy y))) as [E|Hne']; [exact E|].
  exfalso. exact (generated_distinct _ _ Hne' Hxy).
Qed.

Lemma request_identifiers_distinct_witness :
  truthy (session_id payload0) = Some "s-1"
  /\ message_templates payload0 = Some [template0]
  /\ [template0] <> []
  /\ NoDup (map (fun k => used_bits (entropy_varied k))
              (seq (uuidCalls initial) (List.length [template0] + 3)))
  /\ let w' :=
       exec (executeFetchAndStreamBack entropy_varied network0 "r-1" payload0)
         initial in
     exists body,
       fetched (added initial w')
       = [evaluation_args ("/nextjs-api/stream/post-to-evaluation/" ++ "s-1")
            "POST" body]
       /\ List.length (body_ids body) = List.length [template0] + 3
       /\ NoDup (body_ids body).
Proof.
  assert (Hnd : NoDup
            (map (fun k => used_bits (entropy_varied k))
               (seq (uuidCalls initial) (List.length [template0] + 3)))).
  { cbn [uuidCalls initial List.length Nat.add seq map].
    repeat constructor; cbn [In]; intros H;
      repeat (destruct H as [H|H]; [discriminate H|]); exact H. }
  split; [reflexivity|]. split; [reflexivity|]. split; [discriminate|].
  split; [exact Hnd|].
  apply (request_identifiers_distinct entropy_varied network0 "r-1" payload0
           initial "s-1" [template0]).
  - reflexivity.
  - reflexivity.
  - discriminate.
  - exact Hnd.
Defined.

End RequestIds.

(** ** The identifiers a request generates *)

Module IdentifierClaims.

Import Str Data Js Uuid Bridge Obs Measures Samples.
Import ExecutorFacts UuidFacts RequestIds.

(** C1, as amended: a request that passes the two checks calls the
    identifier generator exactly [len(message_templates) + 3] times: for
    the user message, for the two participant slots, and once per
    template.  These are the identifiers of the posted body, in that
    order, and they are pairwise different as soon as the random bits
    written into them are, whatever the clock reads. *)
Theorem identifiers_per_request (entropy : nat -> Entropy)
    (network : nat -> list Arg -> FetchOutcome) (requestId : string)
    (payload : Payload) (w : World) (session_id : string)
    (templates : list MessageTemplate) :
  truthy (Data.session_id payload) = Some session_id ->
  message_templates payload = Some templates ->
  templates <> [] ->
  let w' := exec (executeFetchAndStreamBack entropy network requestId payload)
              w in
  let n := List.length templates + 3 in
  let body := body_from entropy session_id (uuidCalls w) templates in
  generated w w' = n
  /\ fetched (added w w')
     = [evaluation_args ("/nextjs-api/stream/post-to-evaluation/" ++ session_id)
          "POST" body]
  /\ body_ids body = identifiers entropy (uuidCalls w) n
  /\ List.length (body_ids body) = n
  /\ List.length (b_messages body) = List.length templates
  /\ (NoDup (map (fun k => used_bits (entropy k)) (seq (uuidCalls w) n)) ->
      NoDup (body_ids body)).
Proof.
  intros Hs Ht Hne w' n body. unfold w', exec.
  rewrite (execute_valid entropy network requestId payload w session_id
             templates Hs Ht Hne).
  cbn [fst]. rewrite added_advance. cbn [fetched].
  rewrite ExecutorClaims.fetched_send_events.
  assert (Hids : body_ids body = identifiers entropy (uuidCalls w) n)
    by apply ExecutorClaims.body_from_ids.
  split; [unfold generated, advance; cbn [uuidCalls]; unfold n; lia|].
  split; [reflexivity|]. split; [exact Hids|].
  split; [rewrite Hids; unfold identifiers; now rewrite length_map, length_seq|].
  split.
  - unfold body, body_from. cbn [b_messages].
    rewrite <- (length_map m_id), ExecutorClaims.messages_from_ids.
    unfold identifiers. now rewrite length_map, length_seq.
  - intros Hnd. rewrite Hids. unfold identifiers.
    eapply NoDup_map_through; [|exact Hnd].
    intros x y Hxy. cbv beta in Hxy.
    destruct (list_eq_dec N.eq_dec (used_bits (entropy x))
                (used_bits (entropy y))) as [E|Hne']; [exact E|].
    exfalso. exact (generated_distinct _ _ Hne' Hxy).
Qed.

Lemma identifiers_per_request_witness :
  truthy (session_id payload0) = Some "s-1"
  /\ message_templates payload0 = Some [template0]
  /\ [template0] <> []
  /\ NoDup (map (fun k => used_bits (entropy_varied k))
              (seq (uuidCalls initial) (List.length [template0] + 3)))
  /\ let w' :=
       exec (executeFetchAndStreamBack entropy_varied network0 "r-1" payload0)
         initial in
     let n := List.length [template0] + 3 in
     let body :=
       body_from entropy_varied "s-1" (uuidCalls initial) [template0] in
     generated initial w' = n
     /\ fetched (added initial w')
        = [evaluation_args ("/nextjs-api/stream/post-to-evaluation/" ++ "s-1")
             "POST" body]
     /\ body_ids body = identifiers entropy_varied (uuidCalls initial) n
     /\ List.length (body_ids body) = n
     /\ List.length (b_messages body) = List.length [template0]
     /\ (NoDup (map (fun k => used_bits (entropy_varied k))
                  (seq (uuidCalls initial) n)) ->
         NoDup (body_ids body)).
Proof.
  split; [reflexivity|]. split; [reflexivity|]. split; [discriminate|].
  split.
  { cbn [uuidCalls initial List.length Nat.add seq map].
    repeat constructor; cbn [In]; intros H;
      repeat (destruct H as [H|H]; [discriminate H|]); exact H. }
  apply (identifiers_per_request entropy_varied network0 "r-1" payload0
           initial "s-1" [template0]).
  - reflexivity.
  - reflexivity.
  - discriminate.
Defined.

End IdentifierClaims.

(** ** The page source command *)

Module CommandsMore.

Import Str Data Js Uuid Bridge Obs Measures Samples.
Import InterceptFacts ExecutorFacts RunMore.

(** The command [send_page_source] makes one call: a POST of the page's
    markup to the model list endpoint of the local server.  The call is
    never taken for a retry, nothing is sent on the socket, the state of
    the script is left as it was, and a failure of the call is
    swallowed. *)
Theorem send_page_source_posts_once (entropy : nat -> Entropy)
    (network : nat -> list Arg -> FetchOutcome) (pageSource : string)
    (request_id : option string) (payload : option Payload) (w : World) :
  let m := Parsed (Some "send_page_source") request_id payload in
  let w' := handle entropy network pageSource (SocketMessage m) w in
  added w w'
  = [RealFetch
       [AString "http://localhost:5102/internal/update_available_models";
        AInit (mkInit "POST" [("Content-Type", "text/html; charset=utf-8")]
                 (BodyText pageSource) None)]]
  /\ snd (onmessage entropy network pageSource m w) = Normal tt
  /\ isCaptureModeActive w' = isCaptureModeActive w
  /\ isApiBridgeRequest w' = isApiBridgeRequest w
  /\ socketOpen w' = socketOpen w
  /\ uuidCalls w' = uuidCalls w.
Proof.
  cbv zeta. cbn [Bridge.handle]. unfold Bridge.onmessage, try_catch_log, exec.
  cbn [truthy String.eqb Ascii.eqb Bool.eqb orb].
  unfold sendPageSource, try_catch_log, await, bind.
  rewrite window_fetch_plain by (left; vm_compute; reflexivity).
  rewrite originalFetch_run.
  destruct (network (real_fetches (trace w)) _); cbn;
    (split; [unfold added, emit; cbn; apply skipn_app_exact|]);
    repeat split.
Qed.

End CommandsMore.
